(** * cryptopower: wallet start-up, selector listeners, treasury and staking pages

    A shallow embedding of the parts of the cryptopower sources that the
    specification of the wallet synchronisation core talks about:

    - [Btc]: [BTCAsset.startWallet] (staged acquisition of the neutrino
      database, chain service and chain client, with its bail-out closures);
    - [Treasury]: the [isPolicyFetchInProgress] flag of [TreasuryPage];
    - [Selector]: [WalletSelector] / [WalletAndAccountSelector], their
      notification listener, [setupWallet], [walletBalance];
    - [Staking]: [fetchTicketPrice] and the ticket buyer password callback.

    Calls into packages that are not part of these files (the wallet
    backend, the neutrino library, the window) are modelled by an explicit
    environment of outcomes and by a trace of the calls made. *)

From Stdlib Require Import ZArith Lia Ascii String.
From stdpp Require Import gmap strings list sorting.

Local Open Scope string_scope.
Local Open Scope list_scope.

(** Go's [error] interface value: [None] is [nil], [Some msg] an error. *)
Definition error := string.

(* ===================================================================== *)
(** * BTCAsset.startWallet *)
(* ===================================================================== *)
Module Btc.

(** [wire.BitcoinNet]: the four networks the [switch] in [startWallet]
    names, and any other magic value. *)
Inductive BitcoinNet :=
| MainNet
| TestNet      (* plain "wire.TestNet" is regnet *)
| TestNet3
| SimNet
| OtherNet (magic : Z).

(** [neutrino.Config] as [startWallet] fills it in. *)
Record Config := {
  DataDir : string;
  Database : string;          (* the opened walletdb, named by its path *)
  ChainParams : BitcoinNet;
  PersistToDisk : bool;
  AddPeers : list string;
  ConnectPeers : list string;
  BroadcastTimeout : Z        (* time.Duration, nanoseconds *)
}.

(** The errors [startWallet] returns, one constructor per [return]. *)
Inductive StartError :=
| ErrVerifyExistence (cause : error)   (* "error verifying wallet existence: %v" *)
| ErrWalletNotFound                    (* "wallet not found" *)
| ErrLoadWallet (cause : error)        (* "couldn't load wallet: %w" *)
| ErrOpenDB (path : string) (cause : error)
                                       (* "unable to open wallet db at %q: %v" *)
| ErrCreateChainService (cause : error)
                                       (* "couldn't create Neutrino ChainService: %v" *)
| ErrStartClient (cause : error).      (* "couldn't start Neutrino client: %v" *)

(** Outcomes of the calls [startWallet] makes into other packages. *)
Record Env := {
  chainParams_Net : BitcoinNet;
  asset_DataDir : string;
  walletDataDb_Path : string;
  DefaultDBTimeout : Z;
  WalletExists : bool * option error;
  OpenWallet : option error;
  walletdb_Open : option error;
  neutrinoDB_Close : option error;
  NewChainService : Config -> option error;
  chainService_Stop : option error;
  chainClient_Start : option error
}.

(** What [startWallet] does to the outside world, in order. *)
Inductive Event :=
| EvWalletExists
| EvLogDebug (msg : string)
| EvLogInfo (msg : string)
| EvLogErrorf (fmt : string) (err : error)
| EvOpenWallet
| EvOpenDB (driver path : string) (create : bool) (timeout : Z)
           (outcome : option error)
| EvCloseDB
| EvNewChainService (cfg : Config) (outcome : option error)
| EvStopChainService
| EvNewNeutrinoClient
| EvStartClient (outcome : option error)
| EvSynchronizeRPC.

(** The fields of [BTCAsset] that [startWallet] assigns. *)
Record Asset := {
  neutrinoDB : option string;    (* nil, or the handle opened at that path *)
  cl : bool;                     (* chain service assigned *)
  chainClient : bool             (* chain client assigned *)
}.

Record Result := {
  trace : list Event;
  asset : Asset;
  ret : option StartError
}.

(** The [switch asset.chainParams.Net] that picks the peers. *)
Definition selectPeers (net : BitcoinNet) : list string * list string :=
  match net with
  | MainNet => (["cfilters.ssgen.io"], [])
  | TestNet3 => (["dex-test.ssgen.io"], [])
  | TestNet | SimNet => ([], ["localhost:20575"])
  | OtherNet _ => ([], [])
  end.

Definition mkConfig (env : Env) (db : string) : Config :=
  let '(addPeers, connectPeers) := selectPeers (chainParams_Net env) in
  {| DataDir := asset_DataDir env;
     Database := db;
     ChainParams := chainParams_Net env;
     PersistToDisk := true;
     AddPeers := addPeers;
     ConnectPeers := connectPeers;
     BroadcastTimeout := 6 * 1000000000 |}.

(** The closure [bailOnWalletAndDB]. *)
Definition bailOnWalletAndDB (env : Env) : list Event :=
  match neutrinoDB_Close env with
  | Some err => [EvCloseDB; EvLogErrorf "Error closing neutrino database: %v" err]
  | None => [EvCloseDB]
  end.

(** The closure [bailOnEverything]. *)
Definition bailOnEverything (env : Env) : list Event :=
  match chainService_Stop env with
  | Some err =>
      [EvStopChainService;
       EvLogErrorf "Error closing neutrino chain service: %v" err]
  | None => [EvStopChainService]
  end ++ bailOnWalletAndDB env.

Definition asset0 : Asset :=
  {| neutrinoDB := None; cl := false; chainClient := false |}.

Definition startWallet (env : Env) (a : Asset) : Result :=
  match WalletExists env with
  | (_, Some err) =>
      {| trace := [EvWalletExists]; asset := a;
         ret := Some (ErrVerifyExistence err) |}
  | (false, None) =>
      {| trace := [EvWalletExists]; asset := a;
         ret := Some ErrWalletNotFound |}
  | (true, None) =>
    let t1 := [EvWalletExists; EvLogDebug "Starting native BTC wallet...";
               EvOpenWallet] in
    match OpenWallet env with
    | Some err => {| trace := t1; asset := a; ret := Some (ErrLoadWallet err) |}
    | None =>
      let path := walletDataDb_Path env in
      let t2 := t1 ++ [EvOpenDB "bdb" path true (DefaultDBTimeout env)
                                (walletdb_Open env)] in
      match walletdb_Open env with
      | Some err =>
          {| trace := t2;
             asset := {| neutrinoDB := None; cl := cl a;
                         chainClient := chainClient a |};
             ret := Some (ErrOpenDB path err) |}
      | None =>
        let a1 := {| neutrinoDB := Some path; cl := cl a;
                     chainClient := chainClient a |} in
        let cfg := mkConfig env path in
        let t3 := t2 ++ [EvLogDebug "Starting neutrino chain service...";
                         EvNewChainService cfg (NewChainService env cfg)] in
        match NewChainService env cfg with
        | Some err =>
            {| trace := t3 ++ bailOnWalletAndDB env; asset := a1;
               ret := Some (ErrCreateChainService err) |}
        | None =>
          let a2 := {| neutrinoDB := Some path; cl := true;
                       chainClient := true |} in
          let t4 := t3 ++ [EvNewNeutrinoClient;
                           EvStartClient (chainClient_Start env)] in
          match chainClient_Start env with
          | Some err =>
              {| trace := t4 ++ bailOnEverything env; asset := a2;
                 ret := Some (ErrStartClient err) |}
          | None =>
              {| trace := t4 ++ [EvLogInfo "Synchronizing wallet with network...";
                                 EvSynchronizeRPC];
                 asset := a2; ret := None |}
          end
        end
      end
    end
  end.

(** The resources [startWallet] acquires that have a release closure. *)
Inductive Resource := ResDB | ResChainService.

Definition acquisition (e : Event) : option Resource :=
  match e with
  | EvOpenDB _ _ _ _ None => Some ResDB
  | EvNewChainService _ None => Some ResChainService
  | _ => None
  end.

Definition release (e : Event) : option Resource :=
  match e with
  | EvCloseDB => Some ResDB
  | EvStopChainService => Some ResChainService
  | _ => None
  end.

(** The resources acquired, and the resources released, by a trace, each
    in the order of the calls. *)
Definition acquired (tr : list Event) : list Resource := omap acquisition tr.
Definition released (tr : list Event) : list Resource := omap release tr.

(** Every acquisition step returned without an error. *)
Definition all_steps_ok (env : Env) : Prop :=
  WalletExists env = (true, None) /\ OpenWallet env = None /\
  walletdb_Open env = None /\
  NewChainService env (mkConfig env (walletDataDb_Path env)) = None /\
  chainClient_Start env = None.

(** The steps up to and including the opening of the index database
    succeeded. *)
Definition db_opened (env : Env) : Prop :=
  WalletExists env = (true, None) /\ OpenWallet env = None /\
  walletdb_Open env = None.

(** The failure kinds of the specification's taxonomy that [startWallet]
    can end in, read off the error it returns. *)
Inductive FailureKind := StorageUnavailable | NetworkInitFailed | OtherFailure.

Definition classify (e : StartError) : FailureKind :=
  match e with
  | ErrOpenDB _ _ => StorageUnavailable
  | ErrCreateChainService _ | ErrStartClient _ => NetworkInitFailed
  | ErrVerifyExistence _ | ErrWalletNotFound | ErrLoadWallet _ => OtherFailure
  end.

Definition db_open_failed (tr : list Event) : Prop :=
  exists d p c t e, EvOpenDB d p c t (Some e) ∈ tr.

Definition network_init_failed (tr : list Event) : Prop :=
  (exists cfg e, EvNewChainService cfg (Some e) ∈ tr) \/
  (exists e, EvStartClient (Some e) ∈ tr).

(** An example environment: mainnet, every call succeeds. *)
Definition env_ok : Env :=
  {| chainParams_Net := MainNet;
     asset_DataDir := "/data/btc";
     walletDataDb_Path := "/data/btc/wallet.db";
     DefaultDBTimeout := 60 * 1000000000;
     WalletExists := (true, None);
     OpenWallet := None;
     walletdb_Open := None;
     neutrinoDB_Close := None;
     NewChainService := fun _ => None;
     chainService_Stop := None;
     chainClient_Start := None |}.

(** The chain service cannot be constructed. *)
Definition env_svc_fails : Env :=
  {| chainParams_Net := SimNet;
     asset_DataDir := "/data/btc";
     walletDataDb_Path := "/data/btc/wallet.db";
     DefaultDBTimeout := 60 * 1000000000;
     WalletExists := (true, None);
     OpenWallet := None;
     walletdb_Open := None;
     neutrinoDB_Close := None;
     NewChainService := fun _ => Some "bad peer list";
     chainService_Stop := None;
     chainClient_Start := None |}.

(** The chain client does not start, and stopping the service errs too. *)
Definition env_start_fails : Env :=
  {| chainParams_Net := TestNet3;
     asset_DataDir := "/data/btc";
     walletDataDb_Path := "/data/btc/wallet.db";
     DefaultDBTimeout := 60 * 1000000000;
     WalletExists := (true, None);
     OpenWallet := None;
     walletdb_Open := None;
     neutrinoDB_Close := None;
     NewChainService := fun _ => None;
     chainService_Stop := Some "already stopped";
     chainClient_Start := Some "connmgr" |}.

(** The index database is locked. *)
Definition env_db_fails : Env :=
  {| chainParams_Net := MainNet;
     asset_DataDir := "/data/btc";
     walletDataDb_Path := "/data/btc/wallet.db";
     DefaultDBTimeout := 60 * 1000000000;
     WalletExists := (true, None);
     OpenWallet := None;
     walletdb_Open := Some "timeout";
     neutrinoDB_Close := None;
     NewChainService := fun _ => None;
     chainService_Stop := None;
     chainClient_Start := None |}.

(** ** The rest of the start-up path *)

(** The calls of [startWallet] that try to acquire something. *)
Inductive Attempt := AttOpenDB | AttNewChainService | AttStartClient.

Definition attempt (e : Event) : option Attempt :=
  match e with
  | EvOpenDB _ _ _ _ _ => Some AttOpenDB
  | EvNewChainService _ _ => Some AttNewChainService
  | EvStartClient _ => Some AttStartClient
  | _ => None
  end.

Definition attempts (tr : list Event) : list Attempt := omap attempt tr.

(** The same environment with other outcomes of the two release calls. *)
Definition with_release_outcomes (env : Env) (close stop : option error)
    : Env :=
  {| chainParams_Net := chainParams_Net env;
     asset_DataDir := asset_DataDir env;
     walletDataDb_Path := walletDataDb_Path env;
     DefaultDBTimeout := DefaultDBTimeout env;
     WalletExists := WalletExists env;
     OpenWallet := OpenWallet env;
     walletdb_Open := walletdb_Open env;
     neutrinoDB_Close := close;
     NewChainService := NewChainService env;
     chainService_Stop := stop;
     chainClient_Start := chainClient_Start env |}.

(** The errors [connect] returns: its own, or [startWallet]'s as it is. *)
Inductive ConnectError :=
| ErrLogging (cause : error)
      (* "error initializing btcwallet+neutrino logging: %v" *)
| ErrStartWallet (e : StartError).

Record ConnectResult := {
  started : option Result;     (* [startWallet]'s run, if it was called *)
  wg : Z;                      (* the counter of the [sync.WaitGroup] *)
  connect_ret : option ConnectError
}.

(** [BTCAsset.connect]; [logNeutrino] is the outcome of the call of that
    name, [wg0] the counter of the wait group passed in. *)
Definition connect (logNeutrino : option error) (env : Env) (a : Asset)
    (wg0 : Z) : ConnectResult :=
  match logNeutrino with
  | Some err =>
      {| started := None; wg := wg0; connect_ret := Some (ErrLogging err) |}
  | None =>
      let r := startWallet env a in
      match ret r with
      | Some err =>
          {| started := Some r; wg := wg0;
             connect_ret := Some (ErrStartWallet err) |}
      | None =>
          {| started := Some r; wg := (wg0 + 1)%Z; connect_ret := None |}
      end
  end.

(** The calls [connect] made into the wallet and the network. *)
Definition connect_trace (c : ConnectResult) : list Event :=
  match started c with
  | Some r => trace r
  | None => []
  end.

(** An asset left over from an earlier, successful start. *)
Definition asset_started : Asset :=
  {| neutrinoDB := Some "/data/btc/old.db"; cl := true; chainClient := true |}.

End Btc.

(* ===================================================================== *)
(** * TreasuryPage *)
(* ===================================================================== *)
Module Treasury.

(** [hex.EncodeToString]: two digits of [hextable] per byte. *)
Definition hextable : string := "0123456789abcdef".

Definition hexdigit (n : N) : ascii :=
  match String.get (N.to_nat n) hextable with
  | Some c => c
  | None => "0"%char
  end.

Fixpoint EncodeToString (src : list Byte.byte) : string :=
  match src with
  | [] => ""
  | b :: rest =>
      let v := Byte.to_N b in
      String (hexdigit (N.shiftr v 4))
        (String (hexdigit (N.land v 15)) (EncodeToString rest))
  end.

(** [components.TreasuryItem], as far as the page reads it. *)
Record TreasuryItem := {
  Policy_PiKey : string;
  OptionsRadioGroup_Value : string
}.

Inductive NetType := Mainnet | Testnet3.

(** The modals the page shows on its parent window. *)
Inductive Modal :=
| TreasurySpendingInfoModal
| GovernanceKeysModal (host : string)
| ConfirmVoteModal (item : TreasuryItem)
| PolicySetSuccessModal.

(** Calls on the parent window and on the password modal. *)
Inductive Effect :=
| EfReload                      (* pg.ParentWindow().Reload() *)
| EfShowModal (m : Modal)       (* pg.ParentWindow().ShowModal(m) *)
| EfSetError (e : error)        (* pm.SetError(err.Error()) *)
| EfSetLoading (b : bool)       (* pm.SetLoading(b) *)
| EfDismiss.                    (* pm.Dismiss() *)

(** The page's own fields that its methods assign. *)
Record TreasuryPage := {
  ctx : option nat;              (* nil, or the n-th page context created *)
  ctxCancelled : bool;
  treasuryItems : list TreasuryItem;
  isPolicyFetchInProgress : bool
}.

(** The page together with what it reads and drives: the wallets, the
    parent window, and the goroutines and timers it has started. *)
Record World := {
  page : TreasuryPage;
  PiKeys : list (list Byte.byte);        (* MultiWallet.PiKeys() *)
  NetTypeOf : NetType;                   (* MultiWallet.NetType() *)
  selectedWallet : Z;                    (* WL.SelectedWallet.Wallet *)
  ctxCreated : nat;
  effects : list Effect;                 (* calls made so far, in order *)
  timers : nat;                          (* pending time.AfterFunc reloads *)
  fetching : list (Z * string);          (* LoadPolicies goroutines: wallet, key *)
  voting : list (TreasuryItem * string); (* SetTreasuryPolicy goroutines *)
  spawnedFetchPolicies : nat             (* [go pg.FetchPolicies()] not yet run *)
}.

Definition NewTreasuryPage : TreasuryPage :=
  {| ctx := None; ctxCancelled := false; treasuryItems := [];
     isPolicyFetchInProgress := false |}.

Definition set_page (w : World) (p : TreasuryPage) : World :=
  {| page := p; PiKeys := PiKeys w; NetTypeOf := NetTypeOf w;
     selectedWallet := selectedWallet w; ctxCreated := ctxCreated w;
     effects := effects w; timers := timers w;
     fetching := fetching w; voting := voting w;
     spawnedFetchPolicies := spawnedFetchPolicies w |}.

Definition set_flag (p : TreasuryPage) (b : bool) : TreasuryPage :=
  {| ctx := ctx p; ctxCancelled := ctxCancelled p;
     treasuryItems := treasuryItems p; isPolicyFetchInProgress := b |}.

Definition set_items (p : TreasuryPage) (l : list TreasuryItem) : TreasuryPage :=
  {| ctx := ctx p; ctxCancelled := ctxCancelled p;
     treasuryItems := l;
     isPolicyFetchInProgress := isPolicyFetchInProgress p |}.

Definition emit (e : Effect) (w : World) : World :=
  {| page := page w; PiKeys := PiKeys w; NetTypeOf := NetTypeOf w;
     selectedWallet := selectedWallet w; ctxCreated := ctxCreated w;
     effects := effects w ++ [e]; timers := timers w;
     fetching := fetching w; voting := voting w;
     spawnedFetchPolicies := spawnedFetchPolicies w |}.

Definition Reload : World -> World := emit EfReload.
Definition ShowModal (m : Modal) : World -> World := emit (EfShowModal m).

Definition set_timers (n : nat) (w : World) : World :=
  {| page := page w; PiKeys := PiKeys w; NetTypeOf := NetTypeOf w;
     selectedWallet := selectedWallet w; ctxCreated := ctxCreated w;
     effects := effects w; timers := n;
     fetching := fetching w; voting := voting w;
     spawnedFetchPolicies := spawnedFetchPolicies w |}.

Definition set_fetching (l : list (Z * string)) (w : World) : World :=
  {| page := page w; PiKeys := PiKeys w; NetTypeOf := NetTypeOf w;
     selectedWallet := selectedWallet w; ctxCreated := ctxCreated w;
     effects := effects w; timers := timers w;
     fetching := l; voting := voting w;
     spawnedFetchPolicies := spawnedFetchPolicies w |}.

Definition set_voting (l : list (TreasuryItem * string)) (w : World) : World :=
  {| page := page w; PiKeys := PiKeys w; NetTypeOf := NetTypeOf w;
     selectedWallet := selectedWallet w; ctxCreated := ctxCreated w;
     effects := effects w; timers := timers w;
     fetching := fetching w; voting := l;
     spawnedFetchPolicies := spawnedFetchPolicies w |}.

Definition set_spawned (n : nat) (w : World) : World :=
  {| page := page w; PiKeys := PiKeys w; NetTypeOf := NetTypeOf w;
     selectedWallet := selectedWallet w; ctxCreated := ctxCreated w;
     effects := effects w; timers := timers w;
     fetching := fetching w; voting := voting w;
     spawnedFetchPolicies := n |}.

(** [FetchPolicies], up to the start of its goroutine and the reload that
    follows.  [None] is the run-time panic of [PiKeys()[0]] on an empty
    slice, which happens after the flag was set. *)
Definition FetchPolicies (w : World) : option World :=
  let selected := selectedWallet w in
  let w1 := set_page w (set_flag (page w) true) in
  match PiKeys w1 with
  | [] => None
  | k0 :: _ =>
      let key := EncodeToString k0 in
      Some (Reload (set_fetching (fetching w1 ++ [(selected, key)]) w1))
  end.

(** The goroutine of [FetchPolicies] once [LoadPolicies] has returned
    [items]. *)
Definition fetchGoroutineBody (items : list TreasuryItem) (w : World) : World :=
  let w1 := set_page w (set_items (page w) items) in
  let w2 := set_page w1 (set_flag (page w1) true) in
  Reload w2.

Definition OnNavigatedTo (w : World) : option World :=
  let n := S (ctxCreated w) in
  let p := {| ctx := Some n; ctxCancelled := false;
              treasuryItems := treasuryItems (page w);
              isPolicyFetchInProgress := isPolicyFetchInProgress (page w) |} in
  FetchPolicies
    {| page := p; PiKeys := PiKeys w; NetTypeOf := NetTypeOf w;
       selectedWallet := selectedWallet w; ctxCreated := n;
       effects := effects w; timers := timers w;
       fetching := fetching w; voting := voting w;
       spawnedFetchPolicies := spawnedFetchPolicies w |}.

Definition OnNavigatedFrom (w : World) : World :=
  match ctx (page w) with
  | Some _ =>
      set_page w {| ctx := ctx (page w); ctxCancelled := true;
                    treasuryItems := treasuryItems (page w);
                    isPolicyFetchInProgress :=
                      isPolicyFetchInProgress (page w) |}
  | None => w
  end.

(** [updatePolicyPreference] shows the password modal; its callback runs
    later, see [passwordSubmitted]. *)
Definition updatePolicyPreference (item : TreasuryItem) (w : World) : World :=
  ShowModal (ConfirmVoteModal item) w.

(** What the user did since the last frame. *)
Record Clicks := {
  setChoiceClicked : list bool;    (* per treasury item *)
  infoButtonClicked : bool;
  viewGovernanceKeysClicks : nat
}.

Fixpoint handleSetChoice (items : list TreasuryItem) (clicked : list bool)
    (w : World) : World :=
  match items with
  | [] => w
  | it :: items' =>
      let c := match clicked with c :: _ => c | [] => false end in
      let w' := if c then updatePolicyPreference it w else w in
      handleSetChoice items' (tl clicked) w'
  end.

Definition governanceKeysHost (n : NetType) : string :=
  match n with
  | Testnet3 =>
      "https://github.com/decred/dcrd/blob/master/chaincfg/testnetparams.go#L390"
  | Mainnet =>
      "https://github.com/decred/dcrd/blob/master/chaincfg/mainnetparams.go#L477"
  end.

Fixpoint handleViewKeys (n : nat) (w : World) : World :=
  match n with
  | O => w
  | S n' =>
      handleViewKeys n'
        (ShowModal (GovernanceKeysModal (governanceKeysHost (NetTypeOf w))) w)
  end.

Definition HandleUserInteractions (c : Clicks) (w : World) : World :=
  let w1 := handleSetChoice (treasuryItems (page w)) (setChoiceClicked c) w in
  let w2 := if infoButtonClicked c
            then ShowModal TreasurySpendingInfoModal w1 else w1 in
  let w3 := handleViewKeys (viewGovernanceKeysClicks c) w2 in
  if isPolicyFetchInProgress (page w3)
  then set_timers (S (timers w3)) w3
  else w3.

(** The positive button of the password modal: starts the goroutine that
    calls [SetTreasuryPolicy]. *)
Definition passwordSubmitted (item : TreasuryItem) (password : string)
    (w : World) : World :=
  set_voting (voting w ++ [(item, password)]) w.

(** That goroutine, once [SetTreasuryPolicy] has returned [res]. *)
Definition voteGoroutineBody (res : option error) (w : World) : World :=
  match res with
  | Some err => emit (EfSetLoading false) (emit (EfSetError err) w)
  | None =>
      emit EfDismiss
        (ShowModal PolicySetSuccessModal
           (set_spawned (S (spawnedFetchPolicies w)) w))
  end.

(** Everything that can happen to a page: its methods being called, and
    the goroutines and timers it started making progress. *)
Inductive Op :=
| OpID
| OpOnNavigatedTo
| OpOnNavigatedFrom
| OpHandleUserInteractions (c : Clicks)
| OpFetchPolicies
| OpLayout
| OpFetchGoroutineDone (i : nat) (items : list TreasuryItem)
| OpTimerFires
| OpPasswordSubmitted (item : TreasuryItem) (password : string)
| OpVoteGoroutineDone (i : nat) (res : option error)
| OpSpawnedFetchPoliciesRuns.

(** One step; an operation that names a goroutine or timer that does not
    exist leaves the world as it is.  [None] is a panic. *)
Definition step (o : Op) (w : World) : option World :=
  match o with
  | OpID | OpLayout => Some w
  | OpOnNavigatedTo => OnNavigatedTo w
  | OpOnNavigatedFrom => Some (OnNavigatedFrom w)
  | OpHandleUserInteractions c => Some (HandleUserInteractions c w)
  | OpFetchPolicies => FetchPolicies w
  | OpFetchGoroutineDone i items =>
      match fetching w !! i with
      | Some _ =>
          Some (fetchGoroutineBody items (set_fetching (delete i (fetching w)) w))
      | None => Some w
      end
  | OpTimerFires =>
      match timers w with
      | S n => Some (Reload (set_timers n w))
      | O => Some w
      end
  | OpPasswordSubmitted item password => Some (passwordSubmitted item password w)
  | OpVoteGoroutineDone i res =>
      match voting w !! i with
      | Some _ =>
          Some (voteGoroutineBody res (set_voting (delete i (voting w)) w))
      | None => Some w
      end
  | OpSpawnedFetchPoliciesRuns =>
      match spawnedFetchPolicies w with
      | S n => FetchPolicies (set_spawned n w)
      | O => Some w
      end
  end.

Fixpoint run (ops : list Op) (w : World) : option World :=
  match ops with
  | [] => Some w
  | o :: ops' =>
      match step o w with
      | Some w' => run ops' w'
      | None => None
      end
  end.

(** The flag of the page of a world. *)
Definition flag (w : World) : bool := isPolicyFetchInProgress (page w).

(** A freshly created page on mainnet with one Pi key. *)
Definition world0 : World :=
  {| page := NewTreasuryPage;
     PiKeys := [[Byte.x03; Byte.xf6]];
     NetTypeOf := Mainnet; selectedWallet := 1; ctxCreated := 0;
     effects := []; timers := 0; fetching := []; voting := [];
     spawnedFetchPolicies := 0 |}.

Definition item0 : TreasuryItem :=
  {| Policy_PiKey := "03f6"; OptionsRadioGroup_Value := "yes" |}.

Definition ops0 : list Op :=
  [OpHandleUserInteractions
     {| setChoiceClicked := []; infoButtonClicked := true;
        viewGovernanceKeysClicks := 1 |};
   OpFetchGoroutineDone 0 [item0];
   OpHandleUserInteractions
     {| setChoiceClicked := [true]; infoButtonClicked := false;
        viewGovernanceKeysClicks := 0 |};
   OpPasswordSubmitted item0 "pw";
   OpVoteGoroutineDone 0 None;
   OpSpawnedFetchPoliciesRuns;
   OpTimerFires;
   OpOnNavigatedFrom;
   OpLayout].

(** ** Reading the clicks of a frame *)

(** The items whose choice button was clicked, in the order of the list. *)
Fixpoint clickedItems (items : list TreasuryItem) (clicked : list bool)
    : list TreasuryItem :=
  match items with
  | [] => []
  | it :: items' =>
      (if match clicked with c :: _ => c | [] => false end
       then [it] else []) ++ clickedItems items' (tl clicked)
  end.

(** A page on which two fetches are already running. *)
Definition world_fetching : World :=
  {| page := NewTreasuryPage;
     PiKeys := [[Byte.x03; Byte.xf6]];
     NetTypeOf := Testnet3; selectedWallet := 1; ctxCreated := 0;
     effects := []; timers := 0;
     fetching := [(1%Z, "03f6"); (1%Z, "03f6")]; voting := [];
     spawnedFetchPolicies := 0 |}.

End Treasury.

(* ===================================================================== *)
(** * WalletSelector and WalletAndAccountSelector *)
(* ===================================================================== *)
Module Selector.

(** ** int64 arithmetic *)

Definition wrap64 (z : Z) : Z := (z + 2 ^ 63) mod 2 ^ 64 - 2 ^ 63.
Definition add64 (a b : Z) : Z := wrap64 (a + b).

(** ** Wallets and accounts *)

Record Account := {
  Number : Z;                (* int32 *)
  Name : string;
  TotalBalance : Z;          (* int64 *)
  Balance_Spendable : Z      (* account.Balance.Spendable, int64 *)
}.

(** [*Accounts], the result of [GetAccountsRaw]. *)
Record Accounts := { Acc : list Account }.

(** A wallet as the selectors hold it: its identity.  What its methods
    answer is in [Backend]. *)
Record Wallet := { ID : Z; WName : string }.

(** The answers of the wallet backend.  [GetAccountsRaw] returns Go's
    pair of a pointer, which may be nil, and an error. *)
Record Backend := {
  GetAccountsRaw : Z -> option Accounts * option error;
  IsWatchingOnlyWallet : Z -> bool;
  IsSynced : bool
}.

(** Calls into the backend, for the functions whose reads are counted. *)
Inductive Call := CallGetAccountsRaw (wallet : Z).

(** The loop of [walletBalance] and [wallBalance]. *)
Fixpoint sumBalances (accs : list Account) (tBal sBal : Z) : Z * Z :=
  match accs with
  | [] => (tBal, sBal)
  | account :: rest =>
      sumBalances rest (add64 tBal (TotalBalance account))
                       (add64 sBal (Balance_Spendable account))
  end.

(** [walletBalance] of [WalletAndAccountSelector]'s file: the calls it
    makes, and its result, [None] being the nil dereference of
    [accountsResult.Acc]. *)
Definition walletBalance (b : Backend) (wal : Wallet)
    : list Call * option (Z * Z) :=
  let '(accountsResult, _) := GetAccountsRaw b (ID wal) in
  ([CallGetAccountsRaw (ID wal)],
   match accountsResult with
   | Some r => Some (sumBalances (Acc r) 0 0)
   | None => None
   end).


(** The sums the balances are compared with. *)
Definition sumZ (l : list Z) : Z := foldr Z.add 0%Z l.

(** ** The selector modal *)

Record Clickable := { hoverable : bool }.
Definition NewClickable (h : bool) : Clickable := {| hoverable := h |}.

(** [interface{}] holding a wallet or an account. *)
Inductive Item :=
| ItemWallet (w : Wallet)
| ItemAccount (a : Account).

(** [SelectorItem] ([selectorWallet] in [WalletSelector]'s file). *)
Record SelectorItem := { item : Item; clickable : Clickable }.

(** [load.WalletLoad] as the modal reads it. *)
Record WalletLoad := {
  SortedWalletList : list Wallet;
  SelectedWallet : Wallet
}.

Record SelectorModal := {
  currentSelectedWallet : Wallet;
  selectorItems : list SelectorItem;     (* [wallets] in WalletSelector's file *)
  accountIsValid : Account -> bool
}.

Definition set_items (sm : SelectorModal) (l : list SelectorItem)
    : SelectorModal :=
  {| currentSelectedWallet := currentSelectedWallet sm;
     selectorItems := l;
     accountIsValid := accountIsValid sm |}.

(** The [for _, wal := range wallets] loop of [setupWallet]; the test is
    on [sm.WL.SelectedWallet.Wallet], not on [wal]. *)
Fixpoint setupWallet_loop (b : Backend) (WL : WalletLoad)
    (wallets : list Wallet) (selectorItems : list SelectorItem)
    : list SelectorItem :=
  match wallets with
  | [] => selectorItems
  | wal :: rest =>
      setupWallet_loop b WL rest
        (if negb (IsWatchingOnlyWallet b (ID (SelectedWallet WL)))
         then selectorItems ++
                [{| item := ItemWallet wal; clickable := NewClickable true |}]
         else selectorItems)
  end.

(** [SelectorModal.setupWallet]; the two files have the same body. *)
Definition setupWallet (b : Backend) (WL : WalletLoad) (sm : SelectorModal)
    : SelectorModal :=
  set_items sm (setupWallet_loop b WL (SortedWalletList WL) []).

Fixpoint setupAccounts_loop (valid : Account -> bool) (accs : list Account)
    (selectorItems : list SelectorItem) : list SelectorItem :=
  match accs with
  | [] => selectorItems
  | account :: rest =>
      setupAccounts_loop valid rest
        (if valid account
         then selectorItems ++
                [{| item := ItemAccount account;
                    clickable := NewClickable true |}]
         else selectorItems)
  end.

(** Result of a method that can log and can hit a nil dereference. *)
Inductive Outcome (A : Type) :=
| Done (a : A)
| Blocked          (* the goroutine cannot take this step now *)
| Panic.
Arguments Done {A} a.
Arguments Blocked {A}.
Arguments Panic {A}.

(** [SelectorModal.setupAccounts]: the modal and the errors logged. *)
Definition setupAccounts (b : Backend) (wal : Wallet) (sm : SelectorModal)
    : Outcome (SelectorModal * list error) :=
  if negb (IsWatchingOnlyWallet b (ID wal)) then
    match GetAccountsRaw b (ID wal) with
    | (_, Some err) => Done (sm, [err])
    | (None, None) => Panic
    | (Some accountsResult, None) =>
        Done (set_items sm
                (setupAccounts_loop (accountIsValid sm) (Acc accountsResult) []),
              [])
    end
  else Done (set_items sm [], []).

(** ** Notification listener *)

Inductive TxNotifType := BlockAttached | NewTransaction | OtherNotifType.
Record TxNotification := { Type_ : TxNotifType }.

(** A Go channel: what is queued on it and whether it was closed. *)
Record Chan := { buf : list TxNotification; closed : bool }.

Inductive Kind := KWalletSelector | KWalletAndAccountSelector.

(** The fields of the selector that the listener and its goroutine use. *)
Record WalletSelector := {
  TxAndBlockNotificationListener : option nat;   (* nil, or its address *)
  selectedWallet : Wallet;
  accountSelector : bool;
  selectorModal : option SelectorModal
}.

Record State := {
  ws : WalletSelector;
  WL : WalletLoad;
  backend : Backend;
  hub : gmap string nat;      (* the registry the selector registers with *)
  chans : gmap nat Chan;      (* listeners allocated so far, by address *)
  nextListener : nat;         (* the address the next listener gets *)
  goroutine : bool;           (* the listening goroutine is running *)
  ctxDone : bool;             (* its context was cancelled *)
  log : list (string * error);
  reloads : nat               (* window.Reload() calls *)
}.

(** Modelled from the spec: the Notification Hub's registry behind
    [AddTxAndBlockNotificationListener], which is not in these files.
    Registering an ID that is already active fails with
    [DuplicateSubscriber] and leaves the registry as it is. *)
Definition DuplicateSubscriber : error := "DuplicateSubscriber".

Definition AddTxAndBlockNotificationListener (l : nat) (async : bool)
    (id : string) (h : gmap string nat) : gmap string nat * option error :=
  match h !! id with
  | Some _ => (h, Some DuplicateSubscriber)
  | None => (<[id := l]> h, None)
  end.

(** Modelled from the spec: [RemoveTxAndBlockNotificationListener], which
    is not in these files, makes the subscriber inactive; a second call is
    a no-op.  The subscriber's channel is closed by the caller on the next
    source line, and Go panics on closing a channel twice, so the registry
    leaves the channel alone. *)
Definition RemoveTxAndBlockNotificationListener (id : string)
    (h : gmap string nat) : gmap string nat :=
  delete id h.

(** Go's [close(ch)]: a panic on a closed channel. *)
Definition close_chan (l : nat) (cs : gmap nat Chan)
    : option (gmap nat Chan) :=
  match cs !! l with
  | Some c =>
      if closed c then None
      else Some (<[l := {| buf := buf c; closed := true |}]> cs)
  | None => None
  end.

(** The channel of [listeners.NewTxAndBlockNotificationListener()]: open
    and empty. *)
Definition newChan : Chan := {| buf := []; closed := false |}.

Definition set_ws (st : State) (w : WalletSelector) : State :=
  {| ws := w; WL := WL st; backend := backend st; hub := hub st;
     chans := chans st; nextListener := nextListener st;
     goroutine := goroutine st; ctxDone := ctxDone st;
     log := log st; reloads := reloads st |}.

Definition set_listener (w : WalletSelector) (l : option nat)
    : WalletSelector :=
  {| TxAndBlockNotificationListener := l;
     selectedWallet := selectedWallet w;
     accountSelector := accountSelector w;
     selectorModal := selectorModal w |}.

Definition set_modal (w : WalletSelector) (m : option SelectorModal)
    : WalletSelector :=
  {| TxAndBlockNotificationListener := TxAndBlockNotificationListener w;
     selectedWallet := selectedWallet w;
     accountSelector := accountSelector w;
     selectorModal := m |}.

Definition set_chans (st : State) (cs : gmap nat Chan) : State :=
  {| ws := ws st; WL := WL st; backend := backend st; hub := hub st;
     chans := cs; nextListener := nextListener st;
     goroutine := goroutine st; ctxDone := ctxDone st;
     log := log st; reloads := reloads st |}.

Definition add_log (st : State) (entries : list (string * error)) : State :=
  {| ws := ws st; WL := WL st; backend := backend st; hub := hub st;
     chans := chans st; nextListener := nextListener st;
     goroutine := goroutine st; ctxDone := ctxDone st;
     log := log st ++ entries; reloads := reloads st |}.

(** [window.Reload()]. *)
Definition Reload (st : State) : State :=
  {| ws := ws st; WL := WL st; backend := backend st; hub := hub st;
     chans := chans st; nextListener := nextListener st;
     goroutine := goroutine st; ctxDone := ctxDone st;
     log := log st; reloads := S (reloads st) |}.

(** The owner of the context cancels it. *)
Definition cancel (st : State) : State :=
  {| ws := ws st; WL := WL st; backend := backend st; hub := hub st;
     chans := chans st; nextListener := nextListener st;
     goroutine := goroutine st; ctxDone := true;
     log := log st; reloads := reloads st |}.


Definition WalletAndAccountSelectorID : string := "WalletAndAccountSelector".

Section Listener.

(** [AccoutSelectorID] is a constant of the package declared in another
    file; [zeroType] is the [Type] of the zero [TxNotification], which a
    receive on a closed, drained channel yields. *)
Variable AccoutSelectorID : string.
Variable zeroType : TxNotifType.

(** Which of the two selectors is modelled. *)
Variable kind : Kind.

Definition subscriberID : string :=
  match kind with
  | KWalletSelector => AccoutSelectorID
  | KWalletAndAccountSelector => WalletAndAccountSelectorID
  end.

(** [ListenForTxNotifications(ctx, window)]; [done] tells whether the
    context passed in is already cancelled. *)
Definition ListenForTxNotifications (done : bool) (st : State) : State :=
  match TxAndBlockNotificationListener (ws st) with
  | Some _ => st
  | None =>
      let l := nextListener st in
      let cs := <[l := newChan]> (chans st) in
      let w := set_listener (ws st) (Some l) in
      match AddTxAndBlockNotificationListener l true subscriberID (hub st) with
      | (h, Some err) =>
          {| ws := w; WL := WL st; backend := backend st; hub := h;
             chans := cs; nextListener := S l;
             goroutine := goroutine st; ctxDone := ctxDone st;
             log := log st ++
               [("Error adding tx and block notification listener: %v", err)];
             reloads := reloads st |}
      | (h, None) =>
          {| ws := w; WL := WL st; backend := backend st; hub := h;
             chans := cs; nextListener := S l;
             goroutine := true; ctxDone := done;
             log := log st; reloads := reloads st |}
      end
  end.

(** The refresh of the open modal, [setupAccounts] or [setupWallet]. *)
Definition refreshAccounts (sm : SelectorModal) (st : State) : Outcome State :=
  match setupAccounts (backend st) (selectedWallet (ws st)) sm with
  | Done (sm', errs) =>
      Done (add_log (set_ws st (set_modal (ws st) (Some sm')))
              (map (fun e => ("Error getting accounts:", e)) errs))
  | Blocked => Blocked
  | Panic => Panic
  end.

Definition refreshWallets (sm : SelectorModal) (st : State) : State :=
  set_ws st (set_modal (ws st) (Some (setupWallet (backend st) (WL st) sm))).

(** The body shared by the two [case]s of the [switch n.Type].  In
    [WalletSelector] the [break] after [setupAccounts] skips the reload,
    and the reload does not depend on the modal being open. *)
Definition refresh (st : State) : Outcome State :=
  match kind with
  | KWalletSelector =>
      match selectorModal (ws st) with
      | Some sm =>
          if accountSelector (ws st) then refreshAccounts sm st
          else Done (Reload (refreshWallets sm st))
      | None => Done (Reload st)
      end
  | KWalletAndAccountSelector =>
      match selectorModal (ws st) with
      | Some sm =>
          if accountSelector (ws st) then
            match refreshAccounts sm st with
            | Done st' => Done (Reload st')
            | o => o
            end
          else Done (Reload (refreshWallets sm st))
      | None => Done st
      end
  end.

Definition handleNotification (n : TxNotification) (st : State)
    : Outcome State :=
  match Type_ n with
  | BlockAttached => if IsSynced (backend st) then refresh st else Done st
  | NewTransaction => refresh st
  | OtherNotifType => Done st
  end.

(** The [case <-ctx.Done()] branch. *)
Definition onCtxDone (st : State) : Outcome State :=
  let h := RemoveTxAndBlockNotificationListener subscriberID (hub st) in
  match TxAndBlockNotificationListener (ws st) with
  | None => Panic
  | Some l =>
      match close_chan l (chans st) with
      | None => Panic
      | Some cs =>
          Done {| ws := set_listener (ws st) None; WL := WL st;
                  backend := backend st; hub := h; chans := cs;
                  nextListener := nextListener st;
                  goroutine := false; ctxDone := ctxDone st;
                  log := log st; reloads := reloads st |}
      end
  end.

(** The branch the [select] takes. *)
Inductive Select := SelNotification | SelCtxDone.

(** One iteration of the goroutine's [for { select { ... } }]. *)
Definition goroutineStep (sel : Select) (st : State) : Outcome State :=
  if negb (goroutine st) then Blocked
  else
    match sel with
    | SelNotification =>
        match TxAndBlockNotificationListener (ws st) with
        | None => Panic
        | Some l =>
            match chans st !! l with
            | None => Panic
            | Some c =>
                match buf c with
                | n :: rest =>
                    handleNotification n
                      (set_chans st
                         (<[l := {| buf := rest; closed := closed c |}]>
                            (chans st)))
                | [] =>
                    if closed c
                    then handleNotification {| Type_ := zeroType |} st
                    else Blocked
                end
            end
        end
    | SelCtxDone => if ctxDone st then onCtxDone st else Blocked
    end.

(** What can happen to a selector: the method is called, the context is
    cancelled, the goroutine is scheduled. *)
Inductive Action :=
| ActListen (done : bool)
| ActCancel
| ActGoroutine (sel : Select).

Definition act (a : Action) (st : State) : Outcome State :=
  match a with
  | ActListen done => Done (ListenForTxNotifications done st)
  | ActCancel => Done (cancel st)
  | ActGoroutine sel =>
      match goroutineStep sel st with
      | Blocked => Done st
      | o => o
      end
  end.

Fixpoint acts (l : list Action) (st : State) : Outcome State :=
  match l with
  | [] => Done st
  | a :: l' =>
      match act a st with
      | Done st' => acts l' st'
      | o => o
      end
  end.

(** No goroutine runs without an attached listener whose channel is open
    and which is the one registered; addresses from [nextListener] on are
    unused. *)
Definition wf (st : State) : Prop :=
  (forall k, nextListener st <= k -> chans st !! k = None) /\
  (goroutine st = true ->
   exists l c, TxAndBlockNotificationListener (ws st) = Some l /\
               chans st !! l = Some c /\ closed c = false /\
               hub st !! subscriberID = Some l).

End Listener.

(** A selector on which [ListenForTxNotifications] was never called, over
    two wallets of which none is watching-only. *)
Definition wallet1 : Wallet := {| ID := 1; WName := "main" |}.
Definition wallet2 : Wallet := {| ID := 2; WName := "savings" |}.

Definition account0 : Account :=
  {| Number := 0; Name := "default"; TotalBalance := 700;
     Balance_Spendable := 500 |}.
Definition account1 : Account :=
  {| Number := 1; Name := "mixed"; TotalBalance := 300;
     Balance_Spendable := 0 |}.

Definition backend0 : Backend :=
  {| GetAccountsRaw := fun _ => (Some {| Acc := [account0; account1] |}, None);
     IsWatchingOnlyWallet := fun _ => false;
     IsSynced := true |}.

Definition WL0 : WalletLoad :=
  {| SortedWalletList := [wallet1; wallet2]; SelectedWallet := wallet1 |}.

Definition modal0 : SelectorModal :=
  {| currentSelectedWallet := wallet1; selectorItems := [];
     accountIsValid := fun _ => true |}.

Definition state0 : State :=
  {| ws := {| TxAndBlockNotificationListener := None;
              selectedWallet := wallet1;
              accountSelector := false;
              selectorModal := None |};
     WL := WL0; backend := backend0; hub := ∅; chans := ∅;
     nextListener := 0;
     goroutine := false; ctxDone := false; log := []; reloads := 0 |}.

(** The same selector when another component has registered under the
    selector's ID. *)
Definition state_taken : State :=
  {| ws := ws state0; WL := WL0; backend := backend0;
     hub := {[ "AccountSelector" := 0 ]}; chans := {[ 0 := newChan ]};
     nextListener := 1;
     goroutine := false; ctxDone := false; log := []; reloads := 0 |}.

(** The item [setupWallet] makes of a wallet. *)
Definition walletItem (wal : Wallet) : SelectorItem :=
  {| item := ItemWallet wal; clickable := NewClickable true |}.

(** A backend in which the second wallet is watching-only. *)
Definition backend_w2 : Backend :=
  {| GetAccountsRaw := GetAccountsRaw backend0;
     IsWatchingOnlyWallet := fun id => Z.eqb id 2;
     IsSynced := true |}.

(** ** The account list of the modal *)

(** The item [setupAccounts] makes of an account. *)
Definition accountItem (a : Account) : SelectorItem :=
  {| item := ItemAccount a; clickable := NewClickable true |}.

(** [SelectorModal.OnResume]; [accountSelector] is the field of the
    selector the modal belongs to. *)
Definition OnResume (b : Backend) (WL : WalletLoad) (accountSelector : bool)
    (sm : SelectorModal) : Outcome (SelectorModal * list error) :=
  if accountSelector then setupAccounts b (currentSelectedWallet sm) sm
  else Done (setupWallet b WL sm, []).

(** A backend whose account list cannot be read. *)
Definition backend_err : Backend :=
  {| GetAccountsRaw := fun _ => (None, Some "wallet is locked");
     IsWatchingOnlyWallet := fun _ => false;
     IsSynced := true |}.

(** A backend that answers with neither an account list nor an error. *)
Definition backend_nil : Backend :=
  {| GetAccountsRaw := fun _ => (None, None);
     IsWatchingOnlyWallet := fun _ => false;
     IsSynced := true |}.

(** A modal that lists only accounts with spendable funds, showing a
    stale entry. *)
Definition modal_spendable : SelectorModal :=
  {| currentSelectedWallet := wallet1;
     selectorItems := [accountItem account1];
     accountIsValid := fun a => Z.ltb 0 (Balance_Spendable a) |}.

(** The accounts of [backend0] listed in the other order. *)
Definition backend_rev : Backend :=
  {| GetAccountsRaw := fun _ => (Some {| Acc := [account1; account0] |}, None);
     IsWatchingOnlyWallet := fun _ => false;
     IsSynced := true |}.

(** ** Selecting accounts and wallets *)

(** The errors of [SelectFirstValidAccount]. *)
Inductive SelectError :=
| ErrNotAccountSelector    (* "This widget isn't set to show accounts." *)
| ErrGetAccounts (e : error)            (* the error of [GetAccountsRaw] *)
| ErrNoValidAccountFound.  (* values.String(values.StrNoValidAccountFound) *)

(** Calls of the callbacks the owner of the selector installed. *)
Inductive CallbackCall :=
| AccountCallback (a : Account)
| WalletCallback (w : Wallet).

(** The selector with the fields its selection methods use.  A callback
    field tells whether a function is installed; [totalBalance] holds the
    amount whose [dcrutil.Amount.String] the field shows, [None] being the
    empty string of a new selector. *)
Record Selection := {
  base : WalletSelector;
  selectedAccount : option Account;
  ws_accountIsValid : Account -> bool;
  accountCallback : bool;
  walletCallback : bool;
  totalBalance : option Z;
  changed : bool;
  callbackCalls : list CallbackCall;
  modalsShown : nat                  (* window.ShowModal calls *)
}.

Definition set_base (s : Selection) (w : WalletSelector) : Selection :=
  {| base := w; selectedAccount := selectedAccount s;
     ws_accountIsValid := ws_accountIsValid s;
     accountCallback := accountCallback s;
     walletCallback := walletCallback s;
     totalBalance := totalBalance s; changed := changed s;
     callbackCalls := callbackCalls s; modalsShown := modalsShown s |}.

Definition set_changed (s : Selection) (c : bool) : Selection :=
  {| base := base s; selectedAccount := selectedAccount s;
     ws_accountIsValid := ws_accountIsValid s;
     accountCallback := accountCallback s;
     walletCallback := walletCallback s;
     totalBalance := totalBalance s; changed := c;
     callbackCalls := callbackCalls s; modalsShown := modalsShown s |}.

Definition call (c : CallbackCall) (s : Selection) : Selection :=
  {| base := base s; selectedAccount := selectedAccount s;
     ws_accountIsValid := ws_accountIsValid s;
     accountCallback := accountCallback s;
     walletCallback := walletCallback s;
     totalBalance := totalBalance s; changed := changed s;
     callbackCalls := callbackCalls s ++ [c];
     modalsShown := modalsShown s |}.

(** [NewWalletSelector] and [NewWalletAndAccountSelector]: they differ in
    the validator, which accepts every account in the first and none in
    the second. *)
Definition NewSelector (kind : Kind) (WL : WalletLoad) : Selection :=
  {| base := {| TxAndBlockNotificationListener := None;
                selectedWallet := SelectedWallet WL;
                accountSelector := false;
                selectorModal := None |};
     selectedAccount := None;
     ws_accountIsValid :=
       match kind with
       | KWalletSelector => fun _ => true
       | KWalletAndAccountSelector => fun _ => false
       end;
     accountCallback := false; walletCallback := false;
     totalBalance := None; changed := false; callbackCalls := [];
     modalsShown := 0 |}.

(** [AccountValidator]. *)
Definition AccountValidator (valid : Account -> bool) (s : Selection)
    : Selection :=
  {| base := base s; selectedAccount := selectedAccount s;
     ws_accountIsValid := valid;
     accountCallback := accountCallback s;
     walletCallback := walletCallback s;
     totalBalance := totalBalance s; changed := changed s;
     callbackCalls := callbackCalls s; modalsShown := modalsShown s |}.

(** [SetSelectedAccount]. *)
Definition SetSelectedAccount (account : Account) (s : Selection)
    : Selection :=
  {| base := base s; selectedAccount := Some account;
     ws_accountIsValid := ws_accountIsValid s;
     accountCallback := accountCallback s;
     walletCallback := walletCallback s;
     totalBalance := Some (TotalBalance account); changed := changed s;
     callbackCalls := callbackCalls s; modalsShown := modalsShown s |}.

(** [SetSelectedWallet]. *)
Definition SetSelectedWallet (wallet : Wallet) (s : Selection) : Selection :=
  set_base s
    {| TxAndBlockNotificationListener :=
         TxAndBlockNotificationListener (base s);
       selectedWallet := wallet;
       accountSelector := accountSelector (base s);
       selectorModal := selectorModal (base s) |}.

Definition set_accountSelector (b : bool) (s : Selection) : Selection :=
  set_base s
    {| TxAndBlockNotificationListener :=
         TxAndBlockNotificationListener (base s);
       selectedWallet := selectedWallet (base s);
       accountSelector := b;
       selectorModal := selectorModal (base s) |}.

(** The [for _, account := range accounts] loop of
    [SelectFirstValidAccount], with the [return] that follows it. *)
Fixpoint selectFirstValid_loop (accounts : list Account) (s : Selection)
    : Selection * option SelectError :=
  match accounts with
  | [] => (s, Some ErrNoValidAccountFound)
  | account :: rest =>
      if ws_accountIsValid s account then
        let s1 := SetSelectedAccount account s in
        (if accountCallback s1 then call (AccountCallback account) s1 else s1,
         None)
      else selectFirstValid_loop rest s
  end.

(** What follows the mode handling in both [SelectFirstValidAccount]s. *)
Definition selectFromBackend (b : Backend) (wallet : Wallet) (s : Selection)
    : Outcome (Selection * option SelectError) :=
  match GetAccountsRaw b (ID wallet) with
  | (_, Some err) => Done (s, Some (ErrGetAccounts err))
  | (None, None) => Panic
  | (Some accountsResult, None) =>
      Done (selectFirstValid_loop (Acc accountsResult) s)
  end.

(** [WalletSelector.SelectFirstValidAccount] refuses to work before
    [ShowAccount]; [WalletAndAccountSelector.SelectFirstValidAccount]
    switches to account mode and takes over the wallet first. *)
Definition SelectFirstValidAccount (kind : Kind) (b : Backend)
    (wallet : Wallet) (s : Selection)
    : Outcome (Selection * option SelectError) :=
  match kind with
  | KWalletSelector =>
      if negb (accountSelector (base s))
      then Done (s, Some ErrNotAccountSelector)
      else selectFromBackend b wallet s
  | KWalletAndAccountSelector =>
      let s1 := if negb (accountSelector (base s))
                then set_accountSelector true s else s in
      selectFromBackend b wallet (SetSelectedWallet wallet s1)
  end.

(** [WalletSelector.ShowAccount]; the error of [SelectFirstValidAccount]
    is dropped. *)
Definition ShowAccount (b : Backend) (wall : Wallet) (s : Selection)
    : Outcome Selection :=
  let s1 := set_accountSelector true (SetSelectedWallet wall s) in
  match SelectFirstValidAccount KWalletSelector b (selectedWallet (base s1)) s1
  with
  | Done (s2, _) => Done s2
  | Blocked => Blocked
  | Panic => Panic
  end.

(** The account is refused by the validator of the selector. *)
Definition invalid (s : Selection) (a : Account) : Prop :=
  ws_accountIsValid s a = false.

(** [Changed]: the value returned and the selector afterwards. *)
Definition Changed (s : Selection) : bool * Selection :=
  (changed s, set_changed s false).

(** The [walletSelected] callback [Handle] gives the modal. *)
Definition onWalletSelected (wallet : Wallet) (s : Selection) : Selection :=
  let s1 := SetSelectedWallet wallet (set_changed s true) in
  if walletCallback s1 then call (WalletCallback wallet) s1 else s1.

(** The [accountSelected] callback [Handle] gives the modal; it reads
    [ws.selectedAccount.Number], a nil dereference when no account is
    selected. *)
Definition onAccountSelected (account : Account) (s : Selection)
    : Outcome Selection :=
  match selectedAccount s with
  | None => Panic
  | Some current =>
      let s1 := if negb (Z.eqb (Number current) (Number account))
                then set_changed s true else s in
      let s2 := SetSelectedAccount account s1 in
      Done (if accountCallback s2 then call (AccountCallback account) s2
            else s2)
  end.

(** The [onModalExit] callback [Handle] gives the modal. *)
Definition onModalExit (s : Selection) : Selection :=
  set_base s (set_modal (base s) None).

(** [newSelectorModal(ws.Load, ws).title(..).accountValidator(..)]. *)
Definition newSelectorModal (s : Selection) : SelectorModal :=
  {| currentSelectedWallet := selectedWallet (base s);
     selectorItems := [];
     accountIsValid := ws_accountIsValid s |}.

(** [Handle]: one new modal per click of the selector. *)
Fixpoint Handle (clicks : nat) (s : Selection) : Selection :=
  match clicks with
  | O => s
  | S n =>
      let s1 := set_base s (set_modal (base s) (Some (newSelectorModal s))) in
      Handle n
        {| base := base s1; selectedAccount := selectedAccount s1;
           ws_accountIsValid := ws_accountIsValid s1;
           accountCallback := accountCallback s1;
           walletCallback := walletCallback s1;
           totalBalance := totalBalance s1; changed := changed s1;
           callbackCalls := callbackCalls s1;
           modalsShown := S (modalsShown s1) |}
  end.

(** A selector in account mode, with a callback, on the second account. *)
Definition selection1 : Selection :=
  {| base := {| TxAndBlockNotificationListener := None;
                selectedWallet := wallet1;
                accountSelector := true;
                selectorModal := None |};
     selectedAccount := Some account1;
     ws_accountIsValid := fun a => Z.ltb 0 (Balance_Spendable a);
     accountCallback := true; walletCallback := false;
     totalBalance := Some 300%Z; changed := false; callbackCalls := [];
     modalsShown := 0 |}.


(** ** A frame of the modal *)

(** What [SelectorModal.Handle] reads in a frame. *)
Record ModalClicks := {
  eventQueue : bool;             (* sm.eventQueue != nil: [Layout] has run *)
  itemClicks : list nat;         (* the clicks queued on each listed item *)
  infoBackdropClicked : bool;    (* sm.infoBackdrop.Clicked() *)
  infoButtonClicked : bool;      (* sm.infoButton...Button.Clicked() *)
  modalBackdropClicked : bool    (* sm.Modal.BackdropClicked(sm.isCancelable) *)
}.

(** What it writes: the selector, through the callbacks that [Handle] of
    the selector installed, the modal's [Dismiss] and [infoModalOpen]. *)
Record ModalRun := {
  sel : Selection;
  dismissals : nat;
  infoModalOpen : bool
}.

Definition set_sel (r : ModalRun) (s : Selection) : ModalRun :=
  {| sel := s; dismissals := dismissals r; infoModalOpen := infoModalOpen r |}.

Definition set_infoModalOpen (r : ModalRun) (b : bool) : ModalRun :=
  {| sel := sel r; dismissals := dismissals r; infoModalOpen := b |}.

(** [sm.onExit(); sm.Dismiss()]. *)
Definition exitAndDismiss (r : ModalRun) : ModalRun :=
  {| sel := onModalExit (sel r); dismissals := S (dismissals r);
     infoModalOpen := infoModalOpen r |}.

(** The body of [for selectorItem.clickable.Clicked()]: the type switch on
    the item, then [onExit] and [Dismiss]. *)
Definition itemClicked (it : Item) (r : ModalRun) : Outcome ModalRun :=
  match it with
  | ItemAccount a =>
      match onAccountSelected a (sel r) with
      | Done s' => Done (exitAndDismiss (set_sel r s'))
      | Blocked => Blocked
      | Panic => Panic
      end
  | ItemWallet w => Done (exitAndDismiss (set_sel r (onWalletSelected w (sel r))))
  end.

Fixpoint clickLoop (clicks : nat) (it : Item) (r : ModalRun)
    : Outcome ModalRun :=
  match clicks with
  | O => Done r
  | S n =>
      match itemClicked it r with
      | Done r' => clickLoop n it r'
      | Blocked => Blocked
      | Panic => Panic
      end
  end.

(** [for _, selectorItem := range sm.selectorItems]; an item without an
    entry in [clicks] was not clicked. *)
Fixpoint itemsLoop (items : list SelectorItem) (clicks : list nat)
    (r : ModalRun) : Outcome ModalRun :=
  match items with
  | [] => Done r
  | selectorItem :: rest =>
      match clickLoop (hd 0 clicks) (item selectorItem) r with
      | Done r' => itemsLoop rest (tl clicks) r'
      | Blocked => Blocked
      | Panic => Panic
      end
  end.

(** [SelectorModal.Handle] of a modal opened by the selector's [Handle].
    The info backdrop and the info button are handled in
    [WalletAndAccountSelector]'s file only. *)
Definition SelectorModal_Handle (kind : Kind) (sm : SelectorModal)
    (c : ModalClicks) (r : ModalRun) : Outcome ModalRun :=
  let afterItems :=
    if eventQueue c then
      match itemsLoop (selectorItems sm) (itemClicks c) r with
      | Done r1 =>
          match kind with
          | KWalletSelector => Done r1
          | KWalletAndAccountSelector =>
              let r2 := if infoBackdropClicked c
                        then set_infoModalOpen r1 false else r1 in
              Done (if infoButtonClicked c
                    then set_infoModalOpen r2 (negb (infoModalOpen r2))
                    else r2)
          end
      | Blocked => Blocked
      | Panic => Panic
      end
    else Done r in
  match afterItems with
  | Done r3 => Done (if modalBackdropClicked c then exitAndDismiss r3 else r3)
  | Blocked => Blocked
  | Panic => Panic
  end.

(** The clicks of a frame in the order in which the loops take them: by
    position in the list, not by time. *)
Fixpoint handled (items : list SelectorItem) (clicks : list nat)
    : list Item :=
  match items with
  | [] => []
  | selectorItem :: rest =>
      replicate (hd 0 clicks) (item selectorItem) ++ handled rest (tl clicks)
  end.

Fixpoint runItems (l : list Item) (r : ModalRun) : Outcome ModalRun :=
  match l with
  | [] => Done r
  | it :: rest =>
      match itemClicked it r with
      | Done r' => runItems rest r'
      | Blocked => Blocked
      | Panic => Panic
      end
  end.

(** The account of the last account item of a list, [cur] without one. *)
Definition lastAccount (l : list Item) (cur : Account) : Account :=
  foldl (fun acc it => match it with
                       | ItemAccount a => a
                       | ItemWallet _ => acc
                       end) cur l.

(** The calls of the owner's callbacks that a list of clicks leads to. *)
Definition callsOf (s : Selection) (l : list Item) : list CallbackCall :=
  flat_map (fun it => match it with
                      | ItemAccount a =>
                          if accountCallback s then [AccountCallback a] else []
                      | ItemWallet w =>
                          if walletCallback s then [WalletCallback w] else []
                      end) l.

(** The modal of [selection1] in its first frame after [Layout]. *)
Definition run1 : ModalRun :=
  {| sel := Handle 1 selection1; dismissals := 0; infoModalOpen := false |}.

Definition modal1 : SelectorModal :=
  set_items (newSelectorModal selection1)
            [accountItem account0; accountItem account1].

Definition clicks1 : ModalClicks :=
  {| eventQueue := true; itemClicks := [1; 1];
     infoBackdropClicked := true; infoButtonClicked := true;
     modalBackdropClicked := false |}.

End Selector.

(* ===================================================================== *)
(** * staking.Page *)
(* ===================================================================== *)
Module Staking.

(** [*dcr.TicketPriceResponse]. *)
Record TicketPriceResponse := { TicketPrice : Z; Height : Z }.

(** Texts the page puts on screen: a localised string of [values], an
    amount formatted by [dcrutil.Amount.String], or an error's message. *)
Inductive Text :=
| StrNotAvailable
| StrNotConnected
| StrWalletNotSynced
| AmountString (atoms : Z)
| ErrorString (e : error).

(** Calls on the window, the password modal [pm] and the log. *)
Inductive Effect :=
| EfLogError (e : error)
| EfShowErrorModal (t : Text)
| EfSetError (t : Text)
| EfSetLoading (b : bool)
| EfDismiss
| EfReload.

(** Calls into the wallet, in the order they were made. *)
Inductive WalletCall :=
| CallTicketPrice
| CallIsSynced
| CallIsConnectedToDecredNetwork
| CallStartTicketBuyer (passphrase : string)
| CallIsAutoTicketsPurchaseActive.

(** What the selected wallet answers. *)
Record Wallet := {
  TicketPriceResult : option TicketPriceResponse * option error;
  IsSynced : bool;
  IsConnectedToDecredNetwork : bool;
  StartTicketBuyer : string -> option error;
  IsAutoTicketsPurchaseActive : bool
}.

Record Page := {
  ticketPrice : option Text;      (* the string field, unset at first *)
  stakeChecked : bool;            (* pg.stake *)
  effects : list Effect;
  walletCalls : list WalletCall
}.

Inductive Outcome (A : Type) :=
| Done (a : A)
| Panic.
Arguments Done {A} a.
Arguments Panic {A}.

Definition emit (l : list Effect) (pg : Page) : Page :=
  {| ticketPrice := ticketPrice pg; stakeChecked := stakeChecked pg;
     effects := effects pg ++ l; walletCalls := walletCalls pg |}.

Definition called (l : list WalletCall) (pg : Page) : Page :=
  {| ticketPrice := ticketPrice pg; stakeChecked := stakeChecked pg;
     effects := effects pg; walletCalls := walletCalls pg ++ l |}.

Definition set_ticketPrice (t : Text) (pg : Page) : Page :=
  {| ticketPrice := Some t; stakeChecked := stakeChecked pg;
     effects := effects pg; walletCalls := walletCalls pg |}.

Definition SetChecked (b : bool) (pg : Page) : Page :=
  {| ticketPrice := ticketPrice pg; stakeChecked := b;
     effects := effects pg; walletCalls := walletCalls pg |}.

(** [fetchTicketPrice]; [IsSynced] is only asked after an error. *)
Definition fetchTicketPrice (w : Wallet) (pg : Page) : Outcome Page :=
  let '(ticketPrice, err) := TicketPriceResult w in
  let pg1 := called [CallTicketPrice] pg in
  match err with
  | Some e =>
      let pg2 := called [CallIsSynced] pg1 in
      if negb (IsSynced w) then
        Done (emit [EfLogError e; EfShowErrorModal StrWalletNotSynced]
                (set_ticketPrice StrNotAvailable pg2))
      else
        match ticketPrice with
        | Some r => Done (set_ticketPrice (AmountString (TicketPrice r)) pg2)
        | None => Panic
        end
  | None =>
      match ticketPrice with
      | Some r => Done (set_ticketPrice (AmountString (TicketPrice r)) pg1)
      | None => Panic
      end
  end.

(** The positive-button callback of [startTicketBuyerPasswordModal]: the
    page afterwards and the value returned. *)
Definition startTicketBuyerCallback (w : Wallet) (password : string)
    (pg : Page) : Page * bool :=
  let pg1 := called [CallIsConnectedToDecredNetwork] pg in
  if negb (IsConnectedToDecredNetwork w) then
    (SetChecked false
       (emit [EfSetError StrNotConnected; EfSetLoading false] pg1), false)
  else
    let pg2 := called [CallStartTicketBuyer password] pg1 in
    match StartTicketBuyer w password with
    | Some err =>
        (emit [EfSetError (ErrorString err); EfSetLoading false] pg2, false)
    | None =>
        (emit [EfReload; EfDismiss]
           (SetChecked (IsAutoTicketsPurchaseActive w)
              (called [CallIsAutoTicketsPurchaseActive] pg2)), false)
    end.

(** A page whose stake switch was just turned on. *)
Definition page0 : Page :=
  {| ticketPrice := None; stakeChecked := true; effects := [];
     walletCalls := [] |}.

(** A synced, connected wallet. *)
Definition wallet_ok : Wallet :=
  {| TicketPriceResult := (Some {| TicketPrice := 12345678900; Height := 100 |}, None);
     IsSynced := true;
     IsConnectedToDecredNetwork := true;
     StartTicketBuyer := fun _ => None;
     IsAutoTicketsPurchaseActive := true |}.

(** A wallet that is not connected to the network. *)
Definition wallet_offline : Wallet :=
  {| TicketPriceResult := (None, Some "not connected");
     IsSynced := false;
     IsConnectedToDecredNetwork := false;
     StartTicketBuyer := fun _ => None;
     IsAutoTicketsPurchaseActive := false |}.

(** A synced wallet whose [TicketPrice] call fails. *)
Definition wallet_synced_err : Wallet :=
  {| TicketPriceResult := (None, Some "rpc timeout");
     IsSynced := true;
     IsConnectedToDecredNetwork := true;
     StartTicketBuyer := fun _ => None;
     IsAutoTicketsPurchaseActive := false |}.

(** ** A frame of the staking page *)

(** [dcr.TicketBuyerConfig], as far as the page reads it. *)
Record TicketBuyerConfig := {
  PurchaseAccount : Z;         (* int32 *)
  BalanceToMaintain : Z;
  VspHost : string
}.

(** [FeeTxStatus] of a ticket: the confirmed one, or any other. *)
Inductive FeeStatus := VSPFeeProcessConfirmed | VSPFeeProcessOther.

(** [*dcr.VSPTicketInfo]; [ConfirmedByVSP] is a pointer to a bool. *)
Record TicketInfo := {
  FeeTxStatus : FeeStatus;
  ConfirmedByVSP : option bool
}.

(** What the selected wallet answers during a frame, beyond [Wallet]. *)
Record Answers := {
  wallet : Wallet;
  IsWatchingOnlyWallet : bool;
  TicketBuyerConfigIsSet : bool;
  AutoTicketsBuyerConfig : TicketBuyerConfig;
  AccountMixerConfigSet : bool;    (* ReadBoolConfigValueForKey(dcr.AccountMixerConfigSet, false) *)
  SpendUnmixedFunds : bool;        (* ReadBoolConfigValueForKey(load.SpendUnmixedFundsKey, false) *)
  MixedAccountNumber : Z;          (* int32 *)
  AccountNameRaw : Z -> string * option error;
  NextTicketPriceRemaining : Z * option error;
  VSPTicketInfo : string -> option TicketInfo * option error
}.

(** What the page puts on its window. *)
Inductive Shown :=
| TicketBuyerModal                       (* newTicketBuyerModal *)
| PasswordModal (accountName : string) (cfg : TicketBuyerConfig)
| ErrorModalAutoTicketWarn               (* values.StrAutoTicketWarn *)
| ErrorModalTicketError (e : error)      (* values.StrTicketError, err *)
| SuccessModalTicketSettingSaved
| StatisticsModal
| TransactionDetailsPage (hash : string).

Inductive LogLine :=
| LogVSPTicketInfoError (e : error)
| WarnUnconfirmedFeeTx (hash : string)
| WarnNotConfirmedByVSP (hash : string).

(** What a frame does, in order. *)
Inductive Event :=
| EvWallet (c : WalletCall)
| EvEffect (e : Effect)
| EvSetEnabled (b : bool)                (* pg.stake.SetEnabled(b) *)
| EvStopAutoTicketsPurchase
| EvShow (s : Shown)
| EvLog (l : LogLine).

Record StakingPage := {
  price : option Text;            (* pg.ticketPrice *)
  checked : bool;                 (* pg.stake.IsChecked() *)
  tickets : list string;          (* the hashes of pg.tickets *)
  events : list Event
}.

Definition emitX (l : list Event) (p : StakingPage) : StakingPage :=
  {| price := price p; checked := checked p; tickets := tickets p;
     events := events p ++ l |}.

Definition SetCheckedX (b : bool) (p : StakingPage) : StakingPage :=
  {| price := price p; checked := b; tickets := tickets p;
     events := events p |}.

(** The page as the methods modelled before see it, with empty logs, and
    the page after one of them has run: in each of these methods the
    wallet calls come before the effects. *)
Definition toPage (p : StakingPage) : Page :=
  {| ticketPrice := price p; stakeChecked := checked p; effects := [];
     walletCalls := [] |}.

Definition fromPage (p : StakingPage) (q : Page) : StakingPage :=
  {| price := ticketPrice q; checked := stakeChecked q; tickets := tickets p;
     events := events p ++ map EvWallet (walletCalls q)
                        ++ map EvEffect (effects q) |}.

(** [pg.fetchTicketPrice()] within a frame. *)
Definition fetchTicketPriceX (a : Answers) (p : StakingPage)
    : Outcome StakingPage :=
  match fetchTicketPrice (wallet a) (toPage p) with
  | Done q => Done (fromPage p q)
  | Panic => Panic
  end.

(** [setStakingButtonsState]. *)
Definition setStakingButtonsState (a : Answers) (p : StakingPage)
    : StakingPage :=
  emitX [EvSetEnabled (IsSynced (wallet a) || negb (IsWatchingOnlyWallet a))] p.

(** [startTicketBuyerPasswordModal], up to the modal it shows; the account
    number is converted to uint32. *)
Definition startTicketBuyerPasswordModal (a : Answers) (p : StakingPage)
    : StakingPage :=
  let tbConfig := AutoTicketsBuyerConfig a in
  match AccountNameRaw a (PurchaseAccount tbConfig mod 2 ^ 32)%Z with
  | (_, Some err) => emitX [EvShow (ErrorModalTicketError err)] p
  | (name, None) => emitX [EvShow (PasswordModal name tbConfig)] p
  end.

(** [ticketBuyerSettingsModal], up to the modal it shows. *)
Definition ticketBuyerSettingsModal (p : StakingPage) : StakingPage :=
  emitX [EvShow TicketBuyerModal] p.

(** The callbacks of the modal of [ticketBuyerSettingsModal]. *)
Definition settingsModal_OnCancel (p : StakingPage) : StakingPage :=
  SetCheckedX false p.

Definition settingsModal_OnSettingsSaved (a : Answers) (p : StakingPage)
    : StakingPage :=
  emitX [EvShow SuccessModalTicketSettingSaved]
    (startTicketBuyerPasswordModal a p).

(** What the user did since the last frame. *)
Record Input := {
  stakeChanged : bool;              (* pg.stake.Changed() *)
  stakeSettingsClicked : bool;      (* pg.stakeSettings.Clicked() *)
  ticketClicked : option nat;       (* pg.ticketsList.ItemClicked() *)
  infoButtonClicked : bool          (* pg.infoButton.Button.Clicked() *)
}.

(** The [if pg.stake.Changed()] block of [HandleUserInteractions]. *)
Definition handleStakeSwitch (inp : Input) (a : Answers) (p : StakingPage)
    : StakingPage :=
  if stakeChanged inp then
    if checked p then
      if TicketBuyerConfigIsSet a then
        let tbConfig := AutoTicketsBuyerConfig a in
        if AccountMixerConfigSet a && negb (SpendUnmixedFunds a) &&
           Z.eqb (PurchaseAccount tbConfig) (MixedAccountNumber a)
        then startTicketBuyerPasswordModal a p
        else ticketBuyerSettingsModal p
      else ticketBuyerSettingsModal p
    else emitX [EvStopAutoTicketsPurchase] p
  else p.

(** The [if clicked, selectedItem := pg.ticketsList.ItemClicked()] block;
    an index outside [pg.tickets] and a nil ticket info panic. *)
Definition handleTicketClick (inp : Input) (a : Answers) (p : StakingPage)
    : Outcome StakingPage :=
  match ticketClicked inp with
  | None => Done p
  | Some selectedItem =>
      match tickets p !! selectedItem with
      | None => Panic
      | Some hash =>
          let p1 := emitX [EvShow (TransactionDetailsPage hash)] p in
          match VSPTicketInfo a hash with
          | (_, Some err) => Done (emitX [EvLog (LogVSPTicketInfoError err)] p1)
          | (None, None) => Panic
          | (Some ticketInfo, None) =>
              let p2 :=
                match FeeTxStatus ticketInfo with
                | VSPFeeProcessConfirmed => p1
                | VSPFeeProcessOther =>
                    emitX [EvLog (WarnUnconfirmedFeeTx hash)] p1
                end in
              Done (match ConfirmedByVSP ticketInfo with
                    | Some true => p2
                    | _ => emitX [EvLog (WarnNotConfirmedByVSP hash)] p2
                    end)
          end
      end
  end.

(** [HandleUserInteractions] from the reading of the next ticket price
    on. *)
Definition handlePriceAndClicks (inp : Input) (a : Answers) (p : StakingPage)
    : Outcome StakingPage :=
  let '(secs, _) := NextTicketPriceRemaining a in
  match (if (secs <=? 0)%Z then fetchTicketPriceX a p else Done p) with
  | Panic => Panic
  | Done p1 =>
      match (if IsSynced (wallet a) then fetchTicketPriceX a p1 else Done p1)
      with
      | Panic => Panic
      | Done p2 =>
          match handleTicketClick inp a p2 with
          | Panic => Panic
          | Done p3 =>
              Done (if infoButtonClicked inp
                    then emitX [EvShow StatisticsModal] p3 else p3)
          end
      end
  end.

(** [Page.HandleUserInteractions]. *)
Definition HandleUserInteractions (inp : Input) (a : Answers)
    (p : StakingPage) : Outcome StakingPage :=
  let p1 := handleStakeSwitch inp a (setStakingButtonsState a p) in
  if stakeSettingsClicked inp && negb (IsWatchingOnlyWallet a) then
    if IsAutoTicketsPurchaseActive (wallet a) then
      Done (emitX [EvShow ErrorModalAutoTicketWarn] p1)
    else handlePriceAndClicks inp a (emitX [EvShow TicketBuyerModal] p1)
  else handlePriceAndClicks inp a p1.

(** The number of [TicketPrice] calls among events. *)
Definition is_TicketPrice (e : Event) : bool :=
  match e with
  | EvWallet CallTicketPrice => true
  | _ => false
  end.

Definition ticketPriceCalls (l : list Event) : nat :=
  length (List.filter is_TicketPrice l).

(** The events of a frame that starts at [p] and ends at [p']. *)
Definition frameEvents (p p' : StakingPage) : list Event :=
  drop (length (events p)) (events p').

(** A staking page with two tickets, the switch on. *)
Definition spage0 : StakingPage :=
  {| price := None; checked := true; tickets := ["tx-a"; "tx-b"];
     events := [] |}.

(** A synced wallet that buys tickets from its mixed account. *)
Definition answers_mixed : Answers :=
  {| wallet := wallet_ok;
     IsWatchingOnlyWallet := false;
     TicketBuyerConfigIsSet := true;
     AutoTicketsBuyerConfig :=
       {| PurchaseAccount := 1; BalanceToMaintain := 0;
          VspHost := "vsp.example" |};
     AccountMixerConfigSet := true;
     SpendUnmixedFunds := false;
     MixedAccountNumber := 1;
     AccountNameRaw := fun _ => ("mixed", None);
     NextTicketPriceRemaining := (0%Z, None);
     VSPTicketInfo := fun _ =>
       (Some {| FeeTxStatus := VSPFeeProcessConfirmed;
                ConfirmedByVSP := Some true |}, None) |}.

Definition input_none : Input :=
  {| stakeChanged := false; stakeSettingsClicked := false;
     ticketClicked := None; infoButtonClicked := false |}.

Definition input_switch : Input :=
  {| stakeChanged := true; stakeSettingsClicked := false;
     ticketClicked := None; infoButtonClicked := false |}.

Definition input_settings : Input :=
  {| stakeChanged := false; stakeSettingsClicked := true;
     ticketClicked := Some 7; infoButtonClicked := true |}.

(** Calls of [StartTicketBuyer]. *)
Definition startEvent (e : Event) : bool :=
  match e with
  | EvWallet (CallStartTicketBuyer _) => true
  | _ => false
  end.

(** What only the stake switch block does: stopping the automatic
    purchase, asking for the passphrase, reporting a ticket error. *)
Definition switchEvent (e : Event) : bool :=
  match e with
  | EvStopAutoTicketsPurchase
  | EvShow (PasswordModal _ _)
  | EvShow (ErrorModalTicketError _) => true
  | _ => false
  end.

(** [p'] is [p] after the events [l], with the same tickets and the same
    position of the switch. *)
Definition extends (p p' : StakingPage) (l : list Event) : Prop :=
  events p' = events p ++ l /\ tickets p' = tickets p /\
  checked p' = checked p.

(** What a block of the frame appends: [n] calls of [TicketPrice], no call
    of [StartTicketBuyer], nothing of what the switch block does. *)
Definition appends (n : nat) (p p' : StakingPage) : Prop :=
  exists l, extends p p' l /\ ticketPriceCalls l = n /\
            Forall (fun e => startEvent e = false) l /\
            Forall (fun e => switchEvent e = false) l.

(** The condition under which turning the switch on asks for the
    passphrase at once. *)
Definition buysFromMixedAccount (a : Answers) : bool :=
  TicketBuyerConfigIsSet a && AccountMixerConfigSet a &&
  negb (SpendUnmixedFunds a) &&
  Z.eqb (PurchaseAccount (AutoTicketsBuyerConfig a)) (MixedAccountNumber a).

(** The event the stake switch block appends when the switch changed. *)
Definition switchDecision (a : Answers) (p : StakingPage) : Event :=
  if checked p then
    if buysFromMixedAccount a then
      match AccountNameRaw a
              (PurchaseAccount (AutoTicketsBuyerConfig a) mod 2 ^ 32)%Z with
      | (_, Some err) => EvShow (ErrorModalTicketError err)
      | (name, None) => EvShow (PasswordModal name (AutoTicketsBuyerConfig a))
      end
    else EvShow TicketBuyerModal
  else EvStopAutoTicketsPurchase.

(** The frame returns early on the warning about the running purchase. *)
Definition warnsAndReturns (inp : Input) (a : Answers) : bool :=
  stakeSettingsClicked inp && negb (IsWatchingOnlyWallet a) &&
  IsAutoTicketsPurchaseActive (wallet a).

End Staking.

(* ===================================================================== *)
(** * preference.ListPreferenceModal *)
(* ===================================================================== *)
Module Preference.

(** Go's [<] and [<=] on strings: the bytes compared in order. *)
Definition str_lt (a b : string) : Prop := String.ltb a b = true.
Definition str_le (a b : string) : Prop := String.leb a b = true.

#[global] Instance str_le_dec : RelDecision str_le :=
  fun a b => decide (String.leb a b = true).

(** [sort.Slice(keys, func(i, j) bool { return keys[i] < keys[j] })] of
    Go's standard library, by its contract: the keys in ascending order. *)
Definition sortKeys (keys : list string) : list string :=
  merge_sort str_le keys.

Record ListPreferenceModal := {
  items : gmap string string;          (* [key]str-key *)
  itemKeys : list string;
  title : string;
  subtitle : string;
  preferenceKey : string;
  defaultValue : string;
  initialValue : string;
  currentValue : string;
  optionsRadioGroup_Value : string;    (* lp.optionsRadioGroup.Value *)
  updateButtonClicked : bool           (* a function is installed *)
}.

(** [NewListPreference]; [order] is the order in which [range items]
    yields the keys, which Go leaves open. *)
Definition NewListPreference (preferenceKey defaultValue : string)
    (items : gmap string string) (order : list string)
    : ListPreferenceModal :=
  let sortedKeys := sortKeys (foldl (fun acc k => acc ++ [k]) [] order) in
  {| items := items; itemKeys := sortedKeys;
     title := ""; subtitle := "";
     preferenceKey := preferenceKey; defaultValue := defaultValue;
     initialValue := ""; currentValue := "";
     optionsRadioGroup_Value := "";
     updateButtonClicked := false |}.

(** [Title], [Subtitle] and [UpdateValues]. *)
Definition Title (t : string) (lp : ListPreferenceModal)
    : ListPreferenceModal :=
  {| items := items lp; itemKeys := itemKeys lp;
     title := t; subtitle := subtitle lp;
     preferenceKey := preferenceKey lp; defaultValue := defaultValue lp;
     initialValue := initialValue lp; currentValue := currentValue lp;
     optionsRadioGroup_Value := optionsRadioGroup_Value lp;
     updateButtonClicked := updateButtonClicked lp |}.

Definition Subtitle (t : string) (lp : ListPreferenceModal)
    : ListPreferenceModal :=
  {| items := items lp; itemKeys := itemKeys lp;
     title := title lp; subtitle := t;
     preferenceKey := preferenceKey lp; defaultValue := defaultValue lp;
     initialValue := initialValue lp; currentValue := currentValue lp;
     optionsRadioGroup_Value := optionsRadioGroup_Value lp;
     updateButtonClicked := updateButtonClicked lp |}.

Definition UpdateValues (lp : ListPreferenceModal) : ListPreferenceModal :=
  {| items := items lp; itemKeys := itemKeys lp;
     title := title lp; subtitle := subtitle lp;
     preferenceKey := preferenceKey lp; defaultValue := defaultValue lp;
     initialValue := initialValue lp; currentValue := currentValue lp;
     optionsRadioGroup_Value := optionsRadioGroup_Value lp;
     updateButtonClicked := true |}.

(** The user picks a radio button. *)
Definition pick (value : string) (lp : ListPreferenceModal)
    : ListPreferenceModal :=
  {| items := items lp; itemKeys := itemKeys lp;
     title := title lp; subtitle := subtitle lp;
     preferenceKey := preferenceKey lp; defaultValue := defaultValue lp;
     initialValue := initialValue lp; currentValue := currentValue lp;
     optionsRadioGroup_Value := value;
     updateButtonClicked := updateButtonClicked lp |}.

(** Calls on the window and on the modal. *)
Inductive Effect :=
| EfUpdateButtonClicked        (* lp.updateButtonClicked() *)
| EfRefreshTheme               (* lp.RefreshTheme(lp.ParentWindow()) *)
| EfDismiss.                   (* lp.Dismiss(), lp.Modal.Dismiss() *)

(** The user configuration of the multi-wallet and the calls made. *)
Record World := {
  config : gmap string string;
  effects : list Effect
}.

(** Modelled from the spec: the configuration store's [ReadValue(key)],
    here [ReadStringConfigValueForKey], which is not in these files; a key
    that was never written reads as the empty string, the value
    [OnResume] tests for. *)
Definition ReadStringConfigValueForKey (key : string) (w : World) : string :=
  default "" (config w !! key).

(** Modelled from the spec: the configuration store's
    [WriteValue(key, value)], here [SaveUserConfigValue], which is not in
    these files. *)
Definition SaveUserConfigValue (key value : string) (w : World) : World :=
  {| config := <[key := value]> (config w); effects := effects w |}.

Definition emit (l : list Effect) (w : World) : World :=
  {| config := config w; effects := effects w ++ l |}.

(** [OnResume]. *)
Definition OnResume (w : World) (lp : ListPreferenceModal)
    : ListPreferenceModal :=
  let initialValue := ReadStringConfigValueForKey (preferenceKey lp) w in
  let initialValue :=
    if String.eqb initialValue "" then defaultValue lp else initialValue in
  {| items := items lp; itemKeys := itemKeys lp;
     title := title lp; subtitle := subtitle lp;
     preferenceKey := preferenceKey lp; defaultValue := defaultValue lp;
     initialValue := initialValue; currentValue := initialValue;
     optionsRadioGroup_Value := initialValue;
     updateButtonClicked := updateButtonClicked lp |}.

(** A method that returned, or that panicked in the given state. *)
Inductive Outcome (A : Type) :=
| Done (a : A)
| Panic (a : A).
Arguments Done {A} a.
Arguments Panic {A} a.

(** The [for lp.btnSave.Button.Clicked()] loop of [Handle]; calling the
    nil [updateButtonClicked] panics. *)
Fixpoint saveLoop (clicks : nat) (w : World) (lp : ListPreferenceModal)
    : Outcome (World * ListPreferenceModal) :=
  match clicks with
  | O => Done (w, lp)
  | S n =>
      let lp1 :=
        {| items := items lp; itemKeys := itemKeys lp;
           title := title lp; subtitle := subtitle lp;
           preferenceKey := preferenceKey lp;
           defaultValue := defaultValue lp;
           initialValue := initialValue lp;
           currentValue := optionsRadioGroup_Value lp;
           optionsRadioGroup_Value := optionsRadioGroup_Value lp;
           updateButtonClicked := updateButtonClicked lp |} in
      let w1 := SaveUserConfigValue (preferenceKey lp1)
                  (optionsRadioGroup_Value lp1) w in
      if updateButtonClicked lp1
      then saveLoop n (emit [EfUpdateButtonClicked; EfRefreshTheme; EfDismiss] w1)
             lp1
      else Panic (w1, lp1)
  end.

(** [Handle], given the clicks on the two buttons and on the backdrop. *)
Definition Handle (saveClicks cancelClicks : nat) (backdropClicked : bool)
    (w : World) (lp : ListPreferenceModal)
    : Outcome (World * ListPreferenceModal) :=
  match saveLoop saveClicks w lp with
  | Panic x => Panic x
  | Done (w1, lp1) =>
      let w2 := emit (replicate cancelClicks EfDismiss) w1 in
      Done (if backdropClicked then emit [EfDismiss] w2 else w2, lp1)
  end.

(** A radio button: its key, and the key of the string that is its
    label, [values.String(lp.items[k])]. *)
Record RadioItem := { radioKey : string; radioLabel : string }.

(** [layoutItems]; a key that is not in the map has the empty string for
    its label key. *)
Definition layoutItems (lp : ListPreferenceModal) : list RadioItem :=
  foldl (fun acc k =>
           acc ++ [{| radioKey := k;
                      radioLabel := default "" (items lp !! k) |}])
        [] (itemKeys lp).

(** The languages of the application, and a store in which none was
    chosen. *)
Definition languages : gmap string string :=
  {[ "fr" := "French"; "en" := "English"; "es" := "Spanish" ]}.

Definition world_empty : World := {| config := ∅; effects := [] |}.

Definition language_modal : ListPreferenceModal :=
  NewListPreference "language" "en" languages ["fr"; "es"; "en"].

End Preference.

(* ===================================================================== *)
(** * Proof automation *)
(* ===================================================================== *)

(** Break up hypotheses, among them membership in an explicit list. *)
Ltac brk :=
  repeat match goal with
         | H : _ /\ _ |- _ => destruct H
         | H : ex _ |- _ => destruct H
         | H : _ \/ _ |- _ => destruct H
         | H : _ ∈ _ ++ _ |- _ => apply elem_of_app in H
         | H : _ ∈ _ :: _ |- _ => apply elem_of_cons in H
         | H : _ ∈ [] |- _ => apply elem_of_nil in H
         | H : False |- _ => destruct H
         end.

(** Membership in an explicit list. *)
Ltac in_list :=
  repeat first [ apply list_elem_of_here | apply list_elem_of_further ].

(** Goals about explicit traces, after the case analysis. *)
Ltac slv :=
  intros; brk; try congruence;
  lazymatch goal with
  | |- _ <-> _ => split; slv
  | |- _ /\ _ => split; slv
  | |- ~ _ => let H := fresh in intros H; slv
  | |- _ ∈ _ => solve [in_list]
  | |- ex _ => eexists; slv
  | |- _ \/ _ => first [left; solve [slv] | right; solve [slv]]
  | |- NoDup (_ :: _) => apply NoDup_cons; slv
  | |- NoDup [] => apply NoDup_nil_2
  | |- _ => try reflexivity
  end.

(* ===================================================================== *)
(** * Properties of BTCAsset.startWallet *)
(* ===================================================================== *)
Module BtcSpec.
Import Btc.



(** C1: on a failure after the index database was opened, what was
    acquired is released in reverse order of acquisition, each resource
    once: the database is closed when the chain service cannot be
    constructed; the chain service is stopped and then the database closed
    when the chain client does not start; and every failing step makes
    [startWallet] return an error. *)
Theorem startWallet_rollback (env : Env) (a : Asset) :
  let r := startWallet env a in
  (forall e, db_opened env ->
     NewChainService env (mkConfig env (walletDataDb_Path env)) = Some e ->
     ret r = Some (ErrCreateChainService e) /\
     released (trace r) = [ResDB]) /\
  (forall e, db_opened env ->
     NewChainService env (mkConfig env (walletDataDb_Path env)) = None ->
     chainClient_Start env = Some e ->
     ret r = Some (ErrStartClient e) /\
     released (trace r) = [ResChainService; ResDB]) /\
  (ret r <> None -> released (trace r) = reverse (acquired (trace r))) /\
  (ret r = None -> released (trace r) = []) /\
  NoDup (released (trace r)) /\
  (ret r = None <-> all_steps_ok env).
Proof.
  unfold db_opened, all_steps_ok, startWallet, bailOnEverything,
    bailOnWalletAndDB.
  cbv zeta.
  repeat case_match; cbn; slv.
Qed.

(** The theorem at three start-ups: the chain service is refused, the
    client does not start, everything succeeds. *)
Lemma startWallet_rollback_witness :
  (ret (startWallet env_svc_fails asset0)
     = Some (ErrCreateChainService "bad peer list") /\
   released (trace (startWallet env_svc_fails asset0)) = [ResDB]) /\
  (ret (startWallet env_start_fails asset0)
     = Some (ErrStartClient "connmgr") /\
   released (trace (startWallet env_start_fails asset0))
     = [ResChainService; ResDB]) /\
  released (trace (startWallet env_ok asset0)) = [].
Proof.
  split; [|split].
  - apply (startWallet_rollback env_svc_fails asset0); by vm_compute.
  - apply (startWallet_rollback env_start_fails asset0); by vm_compute.
  - apply (startWallet_rollback env_ok asset0); by vm_compute.
Defined.



(** C6: [startWallet] ends in the storage failure exactly when opening the
    index database failed, in the network failure exactly when
    constructing the chain service or starting the chain client failed;
    after either it returns an error and [SynchronizeRPC] was not called,
    which happens only when every step succeeded. *)
Theorem startWallet_failure_kinds (env : Env) (a : Asset) :
  let r := startWallet env a in
  (classify <$> ret r = Some StorageUnavailable
     <-> db_open_failed (trace r)) /\
  (classify <$> ret r = Some NetworkInitFailed
     <-> network_init_failed (trace r)) /\
  (db_open_failed (trace r) \/ network_init_failed (trace r) ->
     ret r <> None /\ EvSynchronizeRPC ∉ trace r) /\
  (EvSynchronizeRPC ∈ trace r <-> all_steps_ok env) /\
  (ret r = None <-> all_steps_ok env).
Proof.
  unfold db_open_failed, network_init_failed, all_steps_ok, startWallet,
    bailOnEverything, bailOnWalletAndDB.
  cbv zeta.
  repeat case_match; cbn; slv.
Qed.

Lemma startWallet_failure_kinds_witness :
  classify <$> ret (startWallet env_db_fails asset0) = Some StorageUnavailable /\
  classify <$> ret (startWallet env_start_fails asset0)
    = Some NetworkInitFailed /\
  EvSynchronizeRPC ∈ trace (startWallet env_ok asset0).
Proof.
  split; [|split].
  - apply (startWallet_failure_kinds env_db_fails asset0).
    exists "bdb", "/data/btc/wallet.db", true, (60 * 1000000000)%Z, "timeout".
    vm_compute. repeat constructor.
  - apply (startWallet_failure_kinds env_start_fails asset0).
    right. exists "connmgr". vm_compute. repeat constructor.
  - apply (startWallet_failure_kinds env_ok asset0). by vm_compute.
Defined.

End BtcSpec.

(* ===================================================================== *)
(** * Properties of TreasuryPage *)
(* ===================================================================== *)
Module TreasurySpec.
Import Treasury.

Lemma handleSetChoice_page items clicked w :
  page (handleSetChoice items clicked w) = page w.
Proof.
  revert clicked w. induction items as [|it items IH]; intros clicked w; [done|].
  cbn. rewrite IH. by destruct clicked as [|[] ?].
Qed.

Lemma handleViewKeys_page n w : page (handleViewKeys n w) = page w.
Proof. revert w. induction n as [|n IH]; intros w; [done|]. cbn. by rewrite IH. Qed.

Lemma HandleUserInteractions_page c w :
  page (HandleUserInteractions c w) = page w.
Proof.
  unfold HandleUserInteractions. cbv zeta.
  match goal with
  | |- page (if ?b then _ else _) = _ => destruct b
  end; cbn [page set_timers]; rewrite handleViewKeys_page;
    destruct (infoButtonClicked c); cbn [page ShowModal emit];
    apply handleSetChoice_page.
Qed.

(** [FetchPolicies] leaves the flag set whenever it returns. *)
Lemma FetchPolicies_flag w w' : FetchPolicies w = Some w' -> flag w' = true.
Proof.
  unfold FetchPolicies, flag. cbn. destruct (PiKeys w); [done|].
  by intros [= <-].
Qed.

(** The Pi keys are never assigned. *)
Lemma step_PiKeys o w w' : step o w = Some w' -> PiKeys w' = PiKeys w.
Proof.
  assert (HF : forall v v', FetchPolicies v = Some v' -> PiKeys v' = PiKeys v).
  { intros v v'. unfold FetchPolicies. cbn. destruct (PiKeys v) eqn:E; [done|].
    intros [= <-]. cbn. by rewrite E. }
  assert (HS : forall items clicked v,
             PiKeys (handleSetChoice items clicked v) = PiKeys v).
  { induction items as [|it items IH]; intros clicked v; [done|].
    cbn. rewrite IH. by destruct clicked as [|[] ?]. }
  assert (HV : forall n v, PiKeys (handleViewKeys n v) = PiKeys v).
  { induction n as [|n IH]; intros v; [done|]. cbn. by rewrite IH. }
  destruct o; cbn; intros H.
  - by injection H as <-.
  - apply HF in H. by rewrite H.
  - injection H as <-. unfold OnNavigatedFrom. by destruct (ctx (page w)).
  - injection H as <-. unfold HandleUserInteractions. cbv zeta.
    match goal with
    | |- PiKeys (if ?b then _ else _) = _ => destruct b
    end; cbn [PiKeys set_timers]; rewrite HV;
      destruct (infoButtonClicked c); cbn [PiKeys ShowModal emit];
      apply HS.
  - by apply HF.
  - by injection H as <-.
  - destruct (fetching w !! i); by injection H as <-.
  - destruct (timers w); by injection H as <-.
  - by injection H as <-.
  - destruct (voting w !! i); [|by injection H as <-].
    injection H as <-. by destruct res.
  - destruct (spawnedFetchPolicies w); [by injection H as <-|].
    apply HF in H. by rewrite H.
Qed.

(** No step of the page clears the flag. *)
Lemma step_flag o w w' : step o w = Some w' -> flag w = true -> flag w' = true.
Proof.
  unfold flag.
  destruct o; cbn; intros H Hf.
  - by injection H as <-.
  - by apply FetchPolicies_flag in H.
  - injection H as <-. unfold OnNavigatedFrom. by destruct (ctx (page w)).
  - injection H as <-. by rewrite HandleUserInteractions_page.
  - by apply FetchPolicies_flag in H.
  - by injection H as <-.
  - destruct (fetching w !! i); by injection H as <-.
  - destruct (timers w); by injection H as <-.
  - by injection H as <-.
  - destruct (voting w !! i); [|by injection H as <-].
    injection H as <-. by destruct res.
  - destruct (spawnedFetchPolicies w); [by injection H as <-|].
    by apply FetchPolicies_flag in H.
Qed.

(** With a Pi key to read, no step panics. *)
Lemma step_total o w : PiKeys w <> [] -> exists w', step o w = Some w'.
Proof.
  intros Hk.
  assert (HF : forall v, PiKeys v = PiKeys w -> exists v', FetchPolicies v = Some v').
  { intros v Hv. unfold FetchPolicies. cbn. rewrite Hv.
    destruct (PiKeys w); [done|]. eauto. }
  destruct o; cbn; eauto.
  - destruct (fetching w !! i); eauto.
  - destruct (timers w); eauto.
  - destruct (voting w !! i); eauto.
  - destruct (spawnedFetchPolicies w); eauto.
Qed.

Lemma run_flag ops : forall w,
  PiKeys w <> [] -> flag w = true ->
  exists w', run ops w = Some w' /\ flag w' = true.
Proof.
  induction ops as [|o ops IH]; intros w Hk Hf; cbn; [eauto|].
  destruct (step_total o w Hk) as [w1 H1]. rewrite H1.
  apply IH.
  - by rewrite (step_PiKeys _ _ _ H1).
  - by apply (step_flag _ _ _ H1).
Qed.

(** C3: [FetchPolicies] sets the flag before it starts the background
    fetch, the completed fetch assigns [true] again, and after a call of
    [FetchPolicies] every sequence of operations of the page runs to an
    end with the flag still set. *)
Theorem isPolicyFetchInProgress_never_reset (w : World) (ops : list Op) :
  PiKeys w <> [] ->
  (exists w1, FetchPolicies w = Some w1 /\ flag w1 = true /\
              length (fetching w1) = S (length (fetching w))) /\
  (forall items v, flag (fetchGoroutineBody items v) = true) /\
  (exists w', run (OpFetchPolicies :: ops) w = Some w' /\ flag w' = true).
Proof.
  intros Hk. split; [|split].
  - unfold FetchPolicies, flag. cbn. destruct (PiKeys w); [done|].
    eexists. split; [done|]. cbn. split; [done|].
    rewrite length_app. cbn. lia.
  - done.
  - cbn. destruct (step_total OpFetchPolicies w Hk) as [w1 H1]. cbn in H1.
    rewrite H1. apply run_flag.
    + by rewrite (step_PiKeys OpFetchPolicies _ _ H1).
    + by apply FetchPolicies_flag in H1.
Qed.

Lemma isPolicyFetchInProgress_never_reset_witness :
  exists w', run (OpFetchPolicies :: ops0) world0 = Some w' /\ flag w' = true.
Proof.
  apply (isPolicyFetchInProgress_never_reset world0 ops0). by vm_compute.
Defined.

End TreasurySpec.

(* ===================================================================== *)
(** * Properties of the selectors *)
(* ===================================================================== *)
Module SelectorSpec.
Import Selector.

Local Open Scope Z_scope.

(** ** Balances *)

Lemma wrap64_idemp_add a b : wrap64 (wrap64 a + b) = wrap64 (a + b).
Proof.
  unfold wrap64.
  replace (((a + 2 ^ 63) mod 2 ^ 64 - 2 ^ 63 + b + 2 ^ 63))
    with ((a + 2 ^ 63) mod 2 ^ 64 + b) by lia.
  rewrite Zplus_mod_idemp_l. f_equal. f_equal. lia.
Qed.


Lemma sumBalances_wrap accs : forall t s,
  sumBalances accs (wrap64 t) (wrap64 s) =
  (wrap64 (t + sumZ (map TotalBalance accs)),
   wrap64 (s + sumZ (map Balance_Spendable accs))).
Proof.
  induction accs as [|account rest IH]; intros t s; cbn.
  - by rewrite !Z.add_0_r.
  - unfold add64. rewrite !wrap64_idemp_add, IH. by rewrite !Z.add_assoc.
Qed.

Lemma sumBalances_zero accs :
  sumBalances accs 0 0 =
  (wrap64 (sumZ (map TotalBalance accs)),
   wrap64 (sumZ (map Balance_Spendable accs))).
Proof. exact (sumBalances_wrap accs 0 0). Qed.



(** ** The wallet list of the modal *)

Lemma setupWallet_loop_spec b WL wallets : forall acc,
  setupWallet_loop b WL wallets acc =
  if IsWatchingOnlyWallet b (ID (SelectedWallet WL)) then acc
  else (acc ++ map walletItem wallets)%list.
Proof.
  induction wallets as [|wal rest IH]; intros acc; cbn.
  - destruct (IsWatchingOnlyWallet _ _); [done|]. by rewrite app_nil_r.
  - rewrite IH. destruct (IsWatchingOnlyWallet _ _); cbn; [done|].
    by rewrite <- app_assoc.
Qed.

(** C10: the list [setupWallet] builds is empty when the selected wallet
    is watching-only, and otherwise holds every wallet of
    [SortedWalletList], in order, whatever the wallets themselves are. *)
Theorem setupWallet_all_or_nothing (b : Backend) (WL : WalletLoad)
    (sm : SelectorModal) :
  selectorItems (setupWallet b WL sm) =
    (if IsWatchingOnlyWallet b (ID (SelectedWallet WL)) then []
     else map walletItem (SortedWalletList WL)) /\
  (IsWatchingOnlyWallet b (ID (SelectedWallet WL)) = false ->
   map item (selectorItems (setupWallet b WL sm)) =
   map ItemWallet (SortedWalletList WL)) /\
  (IsWatchingOnlyWallet b (ID (SelectedWallet WL)) = true ->
   selectorItems (setupWallet b WL sm) = []).
Proof.
  unfold setupWallet. cbn. rewrite setupWallet_loop_spec.
  destruct (IsWatchingOnlyWallet b (ID (SelectedWallet WL))); cbn.
  - done.
  - split; [done|]. split; [|done]. intros _.
    rewrite <- list_fmap_compose. done.
Qed.

(** The second wallet is watching-only and the selected one is not: both
    wallets are listed; with the second one selected, none is. *)
Lemma setupWallet_all_or_nothing_witness :
  map item (selectorItems (setupWallet backend_w2 WL0 modal0)) =
  [ItemWallet wallet1; ItemWallet wallet2] /\
  selectorItems
    (setupWallet backend_w2
       {| SortedWalletList := [wallet1; wallet2]; SelectedWallet := wallet2 |}
       modal0) = [].
Proof.
  split.
  - apply (setupWallet_all_or_nothing backend_w2 WL0 modal0). reflexivity.
  - apply (setupWallet_all_or_nothing backend_w2
             {| SortedWalletList := [wallet1; wallet2];
                SelectedWallet := wallet2 |} modal0). reflexivity.
Defined.

(** ** The notification listener *)

Local Close Scope Z_scope.

Section ListenerSpec.

Variable AccoutSelectorID : string.
Variable zeroType : TxNotifType.
Variable kind : Kind.










(** C4: registering an ID that is active fails with [DuplicateSubscriber]
    and leaves the registry as it is; a call of [ListenForTxNotifications]
    while a listener is attached changes nothing; and a call whose ID is
    taken leaves the registered listener and its channel in place. *)
Theorem duplicate_listener_not_replaced (st : State) (l : nat) (done : bool) :
  (forall l' async id (h : gmap string nat),
     h !! id = Some l ->
     AddTxAndBlockNotificationListener l' async id h
       = (h, Some DuplicateSubscriber)) /\
  (TxAndBlockNotificationListener (ws st) = Some l ->
   ListenForTxNotifications AccoutSelectorID kind done st = st) /\
  (wf AccoutSelectorID kind st ->
   TxAndBlockNotificationListener (ws st) = None ->
   hub st !! subscriberID AccoutSelectorID kind = Some l ->
   is_Some (chans st !! l) ->
   hub (ListenForTxNotifications AccoutSelectorID kind done st) = hub st /\
   chans (ListenForTxNotifications AccoutSelectorID kind done st) !! l = chans st !! l /\
   goroutine (ListenForTxNotifications AccoutSelectorID kind done st) = goroutine st /\
   log (ListenForTxNotifications AccoutSelectorID kind done st) = log st ++
     [("Error adding tx and block notification listener: %v",
       DuplicateSubscriber)]).
Proof.
  split; [|split].
  - intros l' async id h Hh. unfold AddTxAndBlockNotificationListener.
    by rewrite Hh.
  - intros Hl. unfold ListenForTxNotifications. by rewrite Hl.
  - intros [Hfresh _] Hl Hh [c Hc]. unfold ListenForTxNotifications,
      AddTxAndBlockNotificationListener.
    rewrite Hl, Hh. cbn. repeat split.
    rewrite lookup_insert_ne; [done|].
    intros <-. rewrite Hfresh in Hc by done. congruence.
Qed.


End ListenerSpec.

Lemma wf_state_taken : wf "AccountSelector" KWalletSelector state_taken.
Proof.
  split; [|done]. intros k Hk. cbn in *.
  apply lookup_singleton_ne. lia.
Qed.

(** The first selector, attached and then asked again; and the same
    selector asked while its ID is taken. *)
Lemma duplicate_listener_not_replaced_witness :
  ListenForTxNotifications "AccountSelector" KWalletSelector false
    (ListenForTxNotifications "AccountSelector" KWalletSelector false state0)
  = ListenForTxNotifications "AccountSelector" KWalletSelector false state0 /\
  hub (ListenForTxNotifications "AccountSelector" KWalletSelector false
         state_taken) = hub state_taken.
Proof.
  split.
  - apply (duplicate_listener_not_replaced "AccountSelector" KWalletSelector
             _ 0 false). reflexivity.
  - apply (duplicate_listener_not_replaced "AccountSelector" KWalletSelector
             state_taken 0 false).
    + apply wf_state_taken.
    + reflexivity.
    + reflexivity.
    + by exists newChan.
Defined.


End SelectorSpec.

(* ===================================================================== *)
(** * Properties of the staking page *)
(* ===================================================================== *)
Module StakingSpec.
Import Staking.

(** C7: when the wallet is not connected, the ticket buyer callback asks
    the wallet nothing but whether it is connected, so [StartTicketBuyer]
    is not called; it reports [StrNotConnected] on the modal, stops its
    loading state, unchecks the stake switch and returns false. *)
Theorem startTicketBuyer_not_connected (w : Wallet) (password : string)
    (pg : Page) :
  IsConnectedToDecredNetwork w = false ->
  let r := startTicketBuyerCallback w password pg in
  r.2 = false /\
  effects r.1 = effects pg ++ [EfSetError StrNotConnected; EfSetLoading false] /\
  stakeChecked r.1 = false /\
  walletCalls r.1 = walletCalls pg ++ [CallIsConnectedToDecredNetwork] /\
  (forall p, CallStartTicketBuyer p ∈ walletCalls r.1 ->
             CallStartTicketBuyer p ∈ walletCalls pg) /\
  ticketPrice r.1 = ticketPrice pg.
Proof.
  intros Hc. unfold startTicketBuyerCallback. rewrite Hc. cbn.
  repeat split. intros p Hp. apply elem_of_app in Hp as [Hp|Hp]; [done|].
  apply elem_of_cons in Hp as [Hp|Hp]; [done|]. by apply elem_of_nil in Hp.
Qed.

Lemma startTicketBuyer_not_connected_witness :
  (startTicketBuyerCallback wallet_offline "hunter2" page0).2 = false /\
  stakeChecked (startTicketBuyerCallback wallet_offline "hunter2" page0).1
    = false /\
  walletCalls (startTicketBuyerCallback wallet_offline "hunter2" page0).1
    = [CallIsConnectedToDecredNetwork].
Proof.
  destruct (startTicketBuyer_not_connected wallet_offline "hunter2" page0
              eq_refl) as (Hr & _ & Hs & Hw & _).
  split; [exact Hr|]. split; [exact Hs|exact Hw].
Defined.

(** With a connected wallet the callback does call [StartTicketBuyer]. *)
Lemma startTicketBuyer_connected w password pg :
  IsConnectedToDecredNetwork w = true ->
  CallStartTicketBuyer password
    ∈ walletCalls (startTicketBuyerCallback w password pg).1.
Proof.
  intros Hc. unfold startTicketBuyerCallback. rewrite Hc. cbn.
  destruct (StartTicketBuyer w password); cbn;
    rewrite ?elem_of_app, ?elem_of_cons; tauto.
Qed.

(** C9: [fetchTicketPrice] takes its error branch exactly when [TicketPrice]
    failed and the wallet is not synced; when [TicketPrice] fails with a nil
    result on a synced wallet, the other branch dereferences that nil
    result. *)
Theorem fetchTicketPrice_guard (w : Wallet) (pg : Page) :
  ((exists pg', fetchTicketPrice w pg = Done pg' /\
                ticketPrice pg' = Some StrNotAvailable)
   <-> (TicketPriceResult w).2 <> None /\ IsSynced w = false) /\
  (forall e, TicketPriceResult w = (None, Some e) -> IsSynced w = true ->
             fetchTicketPrice w pg = Panic) /\
  (exists w0 e, TicketPriceResult w0 = (None, Some e) /\ IsSynced w0 = true /\
                fetchTicketPrice w0 pg = Panic).
Proof.
  split; [|split].
  - unfold fetchTicketPrice.
    destruct (TicketPriceResult w) as [[r|] [e|]]; cbn;
      destruct (IsSynced w); cbn; split;
      try (intros (pg' & H & Ht); simplify_eq; cbn in Ht; by simplify_eq);
      try (intros [H1 H2]; congruence);
      try (intros _; eexists; split; [reflexivity|done]).
  - intros e Hr Hs. unfold fetchTicketPrice. by rewrite Hr, Hs.
  - exists wallet_synced_err, "rpc timeout". done.
Qed.

Lemma fetchTicketPrice_guard_witness :
  fetchTicketPrice wallet_synced_err page0 = Panic.
Proof.
  apply (fetchTicketPrice_guard wallet_synced_err page0) with "rpc timeout";
    reflexivity.
Defined.

End StakingSpec.

(** As [slv], substituting equations between constructors first. *)
Ltac slvx :=
  intros; brk; simplify_eq; try congruence;
  lazymatch goal with
  | |- _ <-> _ => split; slvx
  | |- _ /\ _ => split; slvx
  | |- ~ _ => let H := fresh in intros H; slvx
  | |- _ ∈ _ => solve [in_list]
  | |- ex _ => eexists; slvx
  | |- _ \/ _ => first [left; solve [slvx] | right; solve [slvx]]
  | |- _ => try reflexivity
  end.

(* ===================================================================== *)
(** * Further properties of the BTC start-up path *)
(* ===================================================================== *)
Module BtcExtra.
Import Btc.

(** X1: [startWallet] tries each acquisition at most once and in a fixed
    order, and stops at the first one that fails: the database is not
    opened unless the wallet exists and loads, the chain service is not
    constructed unless the database opened, the client is not started
    unless the chain service was constructed. *)
Theorem startWallet_attempts_once (env : Env) (a : Asset) :
  let tr := trace (startWallet env a) in
  attempts tr `prefix_of` [AttOpenDB; AttNewChainService; AttStartClient] /\
  head tr = Some EvWalletExists /\
  (AttOpenDB ∈ attempts tr <->
     WalletExists env = (true, None) /\ OpenWallet env = None) /\
  (AttNewChainService ∈ attempts tr <-> db_opened env) /\
  (AttStartClient ∈ attempts tr <->
     db_opened env /\
     NewChainService env (mkConfig env (walletDataDb_Path env)) = None).
Proof.
  unfold db_opened, startWallet, bailOnEverything, bailOnWalletAndDB.
  cbv zeta.
  repeat case_match; cbn;
    (split;
     [ first [ by exists [AttOpenDB; AttNewChainService; AttStartClient]
             | by exists [AttNewChainService; AttStartClient]
             | by exists [AttStartClient]
             | by exists [] ]
     | split; [done | slv] ]).
Qed.

(** X2: an error of [neutrinoDB.Close] or [chainService.Stop] during the
    roll-back is logged and nothing else: the error returned, the fields of
    the asset and the releases made do not depend on it. *)
Theorem startWallet_release_errors_logged (env : Env) (a : Asset)
    (close stop : option error) :
  let r := startWallet env a in
  let r' := startWallet (with_release_outcomes env close stop) a in
  ret r' = ret r /\ asset r' = asset r /\
  released (trace r') = released (trace r) /\
  attempts (trace r') = attempts (trace r) /\
  (forall e, EvLogErrorf "Error closing neutrino database: %v" e ∈ trace r
     <-> ResDB ∈ released (trace r) /\ neutrinoDB_Close env = Some e) /\
  (forall e,
     EvLogErrorf "Error closing neutrino chain service: %v" e ∈ trace r
     <-> ResChainService ∈ released (trace r) /\
         chainService_Stop env = Some e).
Proof.
  unfold startWallet, bailOnEverything, bailOnWalletAndDB, mkConfig.
  cbv zeta. cbn.
  destruct (selectPeers (chainParams_Net env)) as [addPeers connectPeers].
  repeat case_match; cbn; slvx.
Qed.

(** X3: the roll-back does not reset the fields of the asset.  After a
    failed construction of the chain service [neutrinoDB] still holds the
    handle that was just closed; after a failed start of the client the
    stopped chain service and the client stay assigned as well; a failed
    [walletdb.Open] overwrites [neutrinoDB] with nil; a failure before that
    leaves the asset as it was. *)
Theorem startWallet_fields_after_failure (env : Env) (a : Asset) :
  let r := startWallet env a in
  (forall e, ret r = Some (ErrCreateChainService e) ->
     neutrinoDB (asset r) = Some (walletDataDb_Path env) /\
     cl (asset r) = cl a /\ chainClient (asset r) = chainClient a /\
     released (trace r) = [ResDB]) /\
  (forall e, ret r = Some (ErrStartClient e) ->
     neutrinoDB (asset r) = Some (walletDataDb_Path env) /\
     cl (asset r) = true /\ chainClient (asset r) = true /\
     released (trace r) = [ResChainService; ResDB]) /\
  (forall p e, ret r = Some (ErrOpenDB p e) ->
     neutrinoDB (asset r) = None /\
     cl (asset r) = cl a /\ chainClient (asset r) = chainClient a) /\
  (classify <$> ret r = Some OtherFailure -> asset r = a).
Proof.
  unfold startWallet, bailOnEverything, bailOnWalletAndDB.
  cbv zeta.
  repeat case_match; cbn; slv.
Qed.

Lemma startWallet_fields_after_failure_witness :
  neutrinoDB (asset (startWallet env_svc_fails asset0))
    = Some "/data/btc/wallet.db" /\
  released (trace (startWallet env_svc_fails asset0)) = [ResDB] /\
  neutrinoDB (asset (startWallet env_db_fails asset_started)) = None.
Proof.
  destruct (startWallet_fields_after_failure env_svc_fails asset0)
    as (H1 & _).
  destruct (H1 "bad peer list" eq_refl) as (Hdb & _ & _ & Hrel).
  destruct (startWallet_fields_after_failure env_db_fails asset_started)
    as (_ & _ & H3 & _).
  destruct (H3 "/data/btc/wallet.db" "timeout" eq_refl) as (Hnil & _).
  split; [exact Hdb|]. split; [exact Hrel|exact Hnil].
Defined.

(** X4: [connect] adds one to the wait group exactly when it returns nil,
    which is exactly when the logging was set up and every step of
    [startWallet] succeeded; when the logging fails [startWallet] is not
    called; an error of [startWallet] is returned as it is, and by then
    everything [startWallet] acquired was released again. *)
Theorem connect_all_or_nothing (logNeutrino : option error) (env : Env)
    (a : Asset) (wg0 : Z) :
  let c := connect logNeutrino env a wg0 in
  (connect_ret c = None <-> logNeutrino = None /\ all_steps_ok env) /\
  (wg c = match connect_ret c with
          | Some _ => wg0
          | None => (wg0 + 1)%Z
          end) /\
  (forall e, logNeutrino = Some e ->
     connect_ret c = Some (ErrLogging e) /\ connect_trace c = []) /\
  (logNeutrino = None ->
     connect_ret c = ErrStartWallet <$> ret (startWallet env a) /\
     connect_trace c = trace (startWallet env a)) /\
  (connect_ret c <> None ->
     released (connect_trace c) = reverse (acquired (connect_trace c)) /\
     EvSynchronizeRPC ∉ connect_trace c).
Proof.
  unfold connect, connect_trace.
  destruct logNeutrino as [e0|]; cbn.
  { split; [split; [done|by intros []]|].
    split; [done|]. split; [by intros e [= <-]|]. split; [done|].
    intros _. split; [done|]. by intros H%elem_of_nil. }
  unfold all_steps_ok, startWallet, bailOnEverything, bailOnWalletAndDB.
  cbv zeta.
  repeat case_match; cbn in *; simplify_eq; cbn; slvx.
Qed.

Lemma connect_all_or_nothing_witness :
  connect_ret (connect None env_start_fails asset0 0)
    = Some (ErrStartWallet (ErrStartClient "connmgr")) /\
  wg (connect None env_start_fails asset0 0) = 0%Z /\
  wg (connect None env_ok asset0 0) = 1%Z /\
  connect_trace (connect (Some "no log dir") env_ok asset0 0) = [].
Proof.
  split; [|split; [|split]].
  - apply (connect_all_or_nothing None env_start_fails asset0 0). reflexivity.
  - apply (connect_all_or_nothing None env_start_fails asset0 0).
  - apply (connect_all_or_nothing None env_ok asset0 0).
  - apply (connect_all_or_nothing (Some "no log dir") env_ok asset0 0
             ) with "no log dir". reflexivity.
Defined.

End BtcExtra.

(* ===================================================================== *)
(** * Further properties of TreasuryPage *)
(* ===================================================================== *)
Module TreasuryExtra.
Import Treasury.

Lemma handleSetChoice_spec items : forall clicked w,
  handleSetChoice items clicked w =
  {| page := page w; PiKeys := PiKeys w; NetTypeOf := NetTypeOf w;
     selectedWallet := selectedWallet w; ctxCreated := ctxCreated w;
     effects := effects w ++
       map (fun it => EfShowModal (ConfirmVoteModal it))
           (clickedItems items clicked);
     timers := timers w; fetching := fetching w; voting := voting w;
     spawnedFetchPolicies := spawnedFetchPolicies w |}.
Proof.
  induction items as [|it items IH]; intros clicked w; cbn.
  - rewrite app_nil_r. by destruct w.
  - rewrite IH. destruct clicked as [|[] clicked]; cbn;
      by rewrite <- ?app_assoc.
Qed.

Lemma handleViewKeys_spec n : forall w,
  handleViewKeys n w =
  {| page := page w; PiKeys := PiKeys w; NetTypeOf := NetTypeOf w;
     selectedWallet := selectedWallet w; ctxCreated := ctxCreated w;
     effects := effects w ++
       replicate n
         (EfShowModal (GovernanceKeysModal (governanceKeysHost (NetTypeOf w))));
     timers := timers w; fetching := fetching w; voting := voting w;
     spawnedFetchPolicies := spawnedFetchPolicies w |}.
Proof.
  induction n as [|n IH]; intros w; cbn.
  - rewrite app_nil_r. by destruct w.
  - rewrite IH. cbn. by rewrite <- app_assoc.
Qed.

Lemma HandleUserInteractions_timers (c : Clicks) (w : World) :
  timers (HandleUserInteractions c w)
    = (if flag w then S (timers w) else timers w) /\
  page (HandleUserInteractions c w) = page w.
Proof.
  unfold HandleUserInteractions, flag. cbv zeta.
  rewrite handleViewKeys_spec, handleSetChoice_spec.
  destruct (infoButtonClicked c); cbn;
    by destruct (isPolicyFetchInProgress (page w)).
Qed.

(** X5: a frame shows one vote modal per clicked item in the order of the
    list, then the info modal, then one governance-keys modal per click;
    it arms one reload timer exactly when a fetch is flagged as running;
    and it changes neither the page's fields nor the running fetches. *)
Theorem HandleUserInteractions_effects (c : Clicks) (w : World) :
  let w' := HandleUserInteractions c w in
  effects w' = effects w ++
    map (fun it => EfShowModal (ConfirmVoteModal it))
        (clickedItems (treasuryItems (page w)) (setChoiceClicked c)) ++
    (if infoButtonClicked c
     then [EfShowModal TreasurySpendingInfoModal] else []) ++
    replicate (viewGovernanceKeysClicks c)
      (EfShowModal (GovernanceKeysModal (governanceKeysHost (NetTypeOf w)))) /\
  timers w' = (if flag w then S (timers w) else timers w) /\
  page w' = page w /\ fetching w' = fetching w /\ voting w' = voting w /\
  spawnedFetchPolicies w' = spawnedFetchPolicies w.
Proof.
  unfold HandleUserInteractions, flag. cbv zeta.
  rewrite handleViewKeys_spec, handleSetChoice_spec.
  destruct (infoButtonClicked c); cbn;
    destruct (isPolicyFetchInProgress (page w)); cbn;
    rewrite <- ?app_assoc; cbn; by rewrite ?app_nil_r.
Qed.

(** X6: once [FetchPolicies] was called, whatever the page does next,
    every later frame arms another one-second reload timer, and every
    timer that fires reloads the window. *)
Theorem fetch_rearms_reload_timer (w : World) (ops : list Op) (c : Clicks) :
  PiKeys w <> [] ->
  exists w' w2,
    run (OpFetchPolicies :: ops) w = Some w' /\
    timers (HandleUserInteractions c w') = S (timers w') /\
    step OpTimerFires (HandleUserInteractions c w') = Some w2 /\
    effects w2 = effects (HandleUserInteractions c w') ++ [EfReload] /\
    flag w2 = true.
Proof.
  intros Hk.
  destruct (TreasurySpec.step_total OpFetchPolicies w Hk) as [w1 H1].
  assert (Hf1 : flag w1 = true)
    by (cbn in H1; by apply TreasurySpec.FetchPolicies_flag in H1).
  assert (Hk1 : PiKeys w1 <> [])
    by (by rewrite (TreasurySpec.step_PiKeys _ _ _ H1)).
  destruct (TreasurySpec.run_flag ops w1 Hk1 Hf1) as (w' & Hrun & Hf).
  destruct (HandleUserInteractions_timers c w') as (Ht & Hp).
  rewrite Hf in Ht.
  eexists w', _. split; [cbn; cbn in H1; by rewrite H1|].
  split; [exact Ht|]. cbn. rewrite Ht. split; [reflexivity|].
  split; [done|]. unfold flag in *. cbn. by rewrite Hp.
Qed.

Lemma fetch_rearms_reload_timer_witness :
  exists w',
    run (OpFetchPolicies :: ops0) world0 = Some w' /\
    timers (HandleUserInteractions
              {| setChoiceClicked := []; infoButtonClicked := false;
                 viewGovernanceKeysClicks := 0 |} w') = S (timers w').
Proof.
  destruct (fetch_rearms_reload_timer world0 ops0
              {| setChoiceClicked := []; infoButtonClicked := false;
                 viewGovernanceKeysClicks := 0 |})
    as (w' & w2 & Hrun & Ht & _); [by vm_compute|].
  exists w'. split; [exact Hrun|exact Ht].
Defined.

(** X7: the result of a fetch is stored whenever its goroutine finishes:
    of two fetches started one after the other, the one that finishes
    last determines the items shown, also when it was started first. *)
Theorem late_fetch_overwrites (w : World) (itemsA itemsB : list TreasuryItem) :
  PiKeys w <> [] ->
  let n := length (fetching w) in
  exists w',
    run [OpFetchPolicies; OpFetchPolicies;
         OpFetchGoroutineDone (S n) itemsB;
         OpFetchGoroutineDone n itemsA] w = Some w' /\
    treasuryItems (page w') = itemsA /\
    fetching w' = fetching w /\
    flag w' = true.
Proof.
  intros Hk n. unfold run, step, FetchPolicies. cbn.
  destruct (PiKeys w) as [|k0 ks] eqn:Ek; [done|]. cbn. rewrite Ek. cbn.
  set (x := (selectedWallet w, EncodeToString k0)).
  assert (H1 : ((fetching w ++ [x]) ++ [x]) !! S n = Some x).
  { rewrite lookup_app_r; rewrite length_app; cbn; [|lia].
    by replace (S n - (length (fetching w) + 1)) with 0 by lia. }
  rewrite H1. cbn.
  assert (H2 : delete (S n) ((fetching w ++ [x]) ++ [x]) = fetching w ++ [x]).
  { replace (S n) with (length (fetching w ++ [x]))
      by (rewrite length_app; cbn; lia).
    rewrite delete_middle. by rewrite app_nil_r. }
  rewrite H2.
  assert (H3 : (fetching w ++ [x]) !! n = Some x).
  { rewrite lookup_app_r by lia.
    by replace (n - length (fetching w)) with 0 by lia. }
  rewrite H3. cbn.
  eexists. split; [reflexivity|]. cbn. split; [done|]. split; [|done].
  unfold n. rewrite delete_middle. by rewrite app_nil_r.
Qed.

Lemma late_fetch_overwrites_witness :
  exists w',
    run [OpFetchPolicies; OpFetchPolicies;
         OpFetchGoroutineDone 1 []; OpFetchGoroutineDone 0 [item0]] world0
      = Some w' /\
    treasuryItems (page w') = [item0].
Proof.
  destruct (late_fetch_overwrites world0 [item0] [])
    as (w' & Hrun & Hitems & _); [by vm_compute|].
  exists w'. split; [exact Hrun|exact Hitems].
Defined.

(** X8: leaving the page cancels its context and nothing else: it is a
    no-op on a page that was never navigated to, the running fetches and
    armed timers stay, and a fetch that finishes afterwards still replaces
    the items and reloads the window. *)
Theorem OnNavigatedFrom_keeps_fetches (w : World) :
  fetching (OnNavigatedFrom w) = fetching w /\
  timers (OnNavigatedFrom w) = timers w /\
  effects (OnNavigatedFrom w) = effects w /\
  OnNavigatedFrom (OnNavigatedFrom w) = OnNavigatedFrom w /\
  (ctx (page w) = None -> OnNavigatedFrom w = w) /\
  (forall i items, is_Some (fetching w !! i) ->
     exists w',
       step (OpFetchGoroutineDone i items) (OnNavigatedFrom w) = Some w' /\
       treasuryItems (page w') = items /\
       effects w' = effects w ++ [EfReload] /\
       fetching w' = delete i (fetching w)).
Proof.
  unfold OnNavigatedFrom.
  destruct (ctx (page w)) as [n|] eqn:Ec; cbn; rewrite ?Ec; cbn;
    repeat split; try done.
  all: intros i items [x Hx]; rewrite Hx; by eexists.
Qed.

Lemma OnNavigatedFrom_keeps_fetches_witness :
  exists w',
    step (OpFetchGoroutineDone 1 [item0]) (OnNavigatedFrom world_fetching)
      = Some w' /\
    treasuryItems (page w') = [item0].
Proof.
  destruct (OnNavigatedFrom_keeps_fetches world_fetching)
    as (_ & _ & _ & _ & _ & H).
  destruct (H 1 [item0]) as (w' & Hs & Hi & _); [by eexists|].
  exists w'. split; [exact Hs|exact Hi].
Defined.

(** X9: a vote leads to a new fetch of the policies exactly when
    [SetTreasuryPolicy] succeeded; when it failed the error is put on the
    password modal, which stays open, and the items are not fetched
    again. *)
Theorem vote_refetches_only_on_success (w : World) (item : TreasuryItem)
    (password : string) (res : option error) :
  PiKeys w <> [] -> spawnedFetchPolicies w = 0 ->
  exists w',
    run [OpPasswordSubmitted item password;
         OpVoteGoroutineDone (length (voting w)) res;
         OpSpawnedFetchPoliciesRuns] w = Some w' /\
    voting w' = voting w /\
    match res with
    | None =>
        length (fetching w') = S (length (fetching w)) /\
        flag w' = true /\
        effects w' = effects w ++
          [EfShowModal PolicySetSuccessModal; EfDismiss; EfReload]
    | Some err =>
        fetching w' = fetching w /\ page w' = page w /\
        effects w' = effects w ++ [EfSetError err; EfSetLoading false]
    end.
Proof.
  intros Hk Hs. unfold run, step, passwordSubmitted. cbn.
  assert (H1 : (voting w ++ [(item, password)]) !! length (voting w)
               = Some (item, password)).
  { rewrite lookup_app_r by lia. by rewrite Nat.sub_diag. }
  rewrite H1. cbn.
  rewrite delete_middle, app_nil_r.
  destruct res as [err|]; cbn; rewrite Hs; cbn.
  - eexists. split; [reflexivity|]. cbn. rewrite <- app_assoc. done.
  - unfold FetchPolicies. cbn. destruct (PiKeys w) as [|k0 ks]; [done|].
    eexists. split; [reflexivity|]. cbn. rewrite length_app. cbn.
    split; [done|]. split; [lia|]. split; [done|].
    by rewrite <- !app_assoc.
Qed.

Lemma vote_refetches_only_on_success_witness :
  exists w',
    run [OpPasswordSubmitted item0 "pw";
         OpVoteGoroutineDone 0 (Some "invalid passphrase");
         OpSpawnedFetchPoliciesRuns] world0 = Some w' /\
    fetching w' = [].
Proof.
  destruct (vote_refetches_only_on_success world0 item0 "pw"
              (Some "invalid passphrase"))
    as (w' & Hrun & _ & Hf & _); [by vm_compute|reflexivity|].
  exists w'. split; [exact Hrun|exact Hf].
Defined.

End TreasuryExtra.

(* ===================================================================== *)
(** * Further properties of the selectors *)
(* ===================================================================== *)
Module SelectorExtra.
Import Selector.

Lemma setupAccounts_loop_spec valid accs : forall acc,
  setupAccounts_loop valid accs acc =
  acc ++ map accountItem (List.filter valid accs).
Proof.
  induction accs as [|a rest IH]; intros acc; cbn.
  - by rewrite app_nil_r.
  - rewrite IH. destruct (valid a); cbn; [|done]. by rewrite <- app_assoc.
Qed.

(** X10: [setupAccounts] lists exactly the valid accounts of the wallet, in
    the order the backend returns them; the list of a watching-only wallet
    is empty; when the accounts cannot be read the error is logged and the
    list shown before stays; an answer with neither accounts nor error is
    a nil dereference. *)
Theorem setupAccounts_lists_valid (b : Backend) (wal : Wallet)
    (sm : SelectorModal) :
  (IsWatchingOnlyWallet b (ID wal) = true ->
     setupAccounts b wal sm = Done (set_items sm [], [])) /\
  (forall r e, IsWatchingOnlyWallet b (ID wal) = false ->
     GetAccountsRaw b (ID wal) = (r, Some e) ->
     setupAccounts b wal sm = Done (sm, [e])) /\
  (forall r, IsWatchingOnlyWallet b (ID wal) = false ->
     GetAccountsRaw b (ID wal) = (Some r, None) ->
     setupAccounts b wal sm =
       Done (set_items sm
               (map accountItem (List.filter (accountIsValid sm) (Acc r))),
             [])) /\
  (setupAccounts b wal sm = Panic <->
     IsWatchingOnlyWallet b (ID wal) = false /\
     GetAccountsRaw b (ID wal) = (None, None)).
Proof.
  unfold setupAccounts.
  destruct (IsWatchingOnlyWallet b (ID wal)); cbn.
  - repeat split; try done. by intros [].
  - split; [done|]. split; [intros r e _ ->; by destruct r|].
    split; [intros r _ ->; by rewrite setupAccounts_loop_spec|].
    destruct (GetAccountsRaw b (ID wal)) as [[r|] [e|]]; split;
      try done; by intros [_ [=]].
Qed.

Lemma setupAccounts_lists_valid_witness :
  setupAccounts backend0 wallet1 modal_spendable =
    Done (set_items modal_spendable [accountItem account0], []) /\
  setupAccounts backend_err wallet1 modal_spendable =
    Done (modal_spendable, ["wallet is locked"]) /\
  setupAccounts backend_nil wallet1 modal_spendable = Panic.
Proof.
  split; [|split].
  - exact (proj1 (proj2 (proj2
             (setupAccounts_lists_valid backend0 wallet1 modal_spendable)))
             {| Acc := [account0; account1] |} eq_refl eq_refl).
  - exact (proj1 (proj2
             (setupAccounts_lists_valid backend_err wallet1 modal_spendable))
             None "wallet is locked" eq_refl eq_refl).
  - apply (setupAccounts_lists_valid backend_nil wallet1 modal_spendable).
    by split.
Defined.

(** ** Balances *)

Lemma sumZ_Permutation (l1 l2 : list Z) : l1 ≡ₚ l2 -> sumZ l1 = sumZ l2.
Proof.
  unfold sumZ. induction 1; cbn; lia.
Qed.

(** X11: the balance of a wallet does not depend on the order in which
    the backend lists its accounts; it is (0, 0) for a wallet without
    accounts; and a total that does not fit in an int64 comes back wrapped
    around, negative when it lies just above the largest int64. *)
Theorem walletBalance_order_and_bounds (b b' : Backend) (wal : Wallet)
    (r r' : Accounts) :
  GetAccountsRaw b (ID wal) = (Some r, None) ->
  GetAccountsRaw b' (ID wal) = (Some r', None) ->
  (Acc r ≡ₚ Acc r' -> (walletBalance b wal).2 = (walletBalance b' wal).2) /\
  (Acc r = [] -> (walletBalance b wal).2 = Some (0%Z, 0%Z)) /\
  (forall t s, (walletBalance b wal).2 = Some (t, s) ->
     (- 2 ^ 63 <= t < 2 ^ 63)%Z /\ (- 2 ^ 63 <= s < 2 ^ 63)%Z) /\
  (forall t s, (walletBalance b wal).2 = Some (t, s) ->
     (2 ^ 63 <= sumZ (map TotalBalance (Acc r)) < 2 ^ 64)%Z ->
     (t = sumZ (map TotalBalance (Acc r)) - 2 ^ 64 /\ t < 0)%Z).
Proof.
  intros Hr Hr'. unfold walletBalance. rewrite Hr, Hr'. cbn.
  rewrite !SelectorSpec.sumBalances_zero.
  split; [|split; [|split]].
  - intros Hp. do 2 f_equal; f_equal; apply sumZ_Permutation;
      by apply fmap_Permutation.
  - by intros ->.
  - intros t s [= <- <-]. unfold wrap64.
    pose proof (Z.mod_pos_bound (sumZ (map TotalBalance (Acc r)) + 2 ^ 63)
                  (2 ^ 64) ltac:(lia)).
    pose proof (Z.mod_pos_bound
                  (sumZ (map Balance_Spendable (Acc r)) + 2 ^ 63)
                  (2 ^ 64) ltac:(lia)).
    lia.
  - intros t s [= <- <-] Hrange. unfold wrap64.
    replace (sumZ (map TotalBalance (Acc r)) + 2 ^ 63)%Z
      with ((sumZ (map TotalBalance (Acc r)) - 2 ^ 63) + 1 * 2 ^ 64)%Z by lia.
    rewrite Z_mod_plus_full. rewrite Z.mod_small by lia. lia.
Qed.

Lemma walletBalance_order_and_bounds_witness :
  (walletBalance backend0 wallet1).2 = (walletBalance backend_rev wallet1).2.
Proof.
  apply (walletBalance_order_and_bounds backend0 backend_rev wallet1
           {| Acc := [account0; account1] |}
           {| Acc := [account1; account0] |} eq_refl eq_refl).
  apply Permutation_swap.
Defined.

(** ** Selecting an account *)

Lemma selectFirstValid_loop_spec accounts s :
  match selectFirstValid_loop accounts s with
  | (s', None) =>
      exists pre a post,
        accounts = pre ++ a :: post /\ Forall (invalid s) pre /\
        ws_accountIsValid s a = true /\
        s' = (if accountCallback s
              then call (AccountCallback a) (SetSelectedAccount a s)
              else SetSelectedAccount a s)
  | (s', Some e) =>
      e = ErrNoValidAccountFound /\ s' = s /\ Forall (invalid s) accounts
  end.
Proof.
  induction accounts as [|a rest IH]; cbn; [done|].
  destruct (ws_accountIsValid s a) eqn:Ea.
  - exists [], a, rest. by repeat split.
  - destruct (selectFirstValid_loop rest s) as [s' [e|]].
    + destruct IH as (-> & -> & Hall). repeat split; by constructor.
    + destruct IH as (pre & x & post & -> & Hpre & Hx & ->).
      exists (a :: pre), x, post. repeat split; [by constructor|done].
Qed.

(** X12: when the accounts can be read, [SelectFirstValidAccount] selects
    the first account of the list that the validator accepts, shows its
    total balance and calls the account callback once with it; when the
    validator accepts none it returns the no-valid-account error and
    leaves the selected account, the balance shown and the callback
    alone.  [WalletSelector] must be in account mode for this;
    [WalletAndAccountSelector] enters it and takes over the wallet. *)
Theorem SelectFirstValidAccount_first_valid (kind : Kind) (b : Backend)
    (wallet : Wallet) (s : Selection) (r : Accounts) :
  GetAccountsRaw b (ID wallet) = (Some r, None) ->
  (kind = KWalletSelector -> accountSelector (base s) = true) ->
  exists s' res,
    SelectFirstValidAccount kind b wallet s = Done (s', res) /\
    match res with
    | None =>
        exists pre a post,
          Acc r = pre ++ a :: post /\ Forall (invalid s) pre /\
          ws_accountIsValid s a = true /\
          selectedAccount s' = Some a /\
          totalBalance s' = Some (TotalBalance a) /\
          callbackCalls s' = callbackCalls s ++
            (if accountCallback s then [AccountCallback a] else [])
    | Some e =>
        e = ErrNoValidAccountFound /\ Forall (invalid s) (Acc r) /\
        selectedAccount s' = selectedAccount s /\
        totalBalance s' = totalBalance s /\
        callbackCalls s' = callbackCalls s
    end /\
    changed s' = changed s /\
    match kind with
    | KWalletSelector => base s' = base s
    | KWalletAndAccountSelector =>
        selectedWallet (base s') = wallet /\ accountSelector (base s') = true
    end.
Proof.
  intros Hr Hmode. unfold SelectFirstValidAccount, selectFromBackend.
  rewrite Hr.
  set (s1 := match kind with
             | KWalletSelector => s
             | KWalletAndAccountSelector =>
                 SetSelectedWallet wallet
                   (if negb (accountSelector (base s))
                    then set_accountSelector true s else s)
             end).
  assert (Hsame : ws_accountIsValid s1 = ws_accountIsValid s /\
                  accountCallback s1 = accountCallback s /\
                  selectedAccount s1 = selectedAccount s /\
                  totalBalance s1 = totalBalance s /\
                  callbackCalls s1 = callbackCalls s /\
                  changed s1 = changed s).
  { unfold s1. destruct kind; [done|].
    by destruct (accountSelector (base s)). }
  destruct Hsame as (Hv & Hc & Ha & Ht & Hl & Hch).
  assert (Hbase : match kind with
                  | KWalletSelector => base s1 = base s
                  | KWalletAndAccountSelector =>
                      selectedWallet (base s1) = wallet /\
                      accountSelector (base s1) = true
                  end).
  { unfold s1. destruct kind; [done|].
    by destruct (accountSelector (base s)) eqn:E. }
  assert (Hgo : SelectFirstValidAccount kind b wallet s =
                Done (selectFirstValid_loop (Acc r) s1)).
  { unfold SelectFirstValidAccount, selectFromBackend, s1. rewrite Hr.
    destruct kind; [|done]. by rewrite (Hmode eq_refl). }
  unfold SelectFirstValidAccount, selectFromBackend in Hgo.
  rewrite Hr in Hgo.
  pose proof (selectFirstValid_loop_spec (Acc r) s1) as Hloop.
  destruct (selectFirstValid_loop (Acc r) s1) as [s' res].
  exists s', res. split; [exact Hgo|].
  unfold invalid in *. rewrite Hv in Hloop.
  destruct res as [e|].
  - destruct Hloop as (-> & -> & Hall).
    split; [done|]. split; [done|]. exact Hbase.
  - destruct Hloop as (pre & a & post & Hacc & Hpre & Hva & ->).
    rewrite Hc. split; [|split].
    + exists pre, a, post. rewrite <- Hl.
      destruct (accountCallback s); cbn; by rewrite ?app_nil_r.
    + rewrite <- Hch. by destruct (accountCallback s).
    + destruct (accountCallback s); cbn; exact Hbase.
Qed.

Lemma SelectFirstValidAccount_first_valid_witness :
  exists s',
    SelectFirstValidAccount KWalletSelector backend_rev wallet2 selection1
      = Done (s', None) /\
    selectedAccount s' = Some account0 /\
    callbackCalls s' = [AccountCallback account0].
Proof.
  destruct (SelectFirstValidAccount_first_valid KWalletSelector backend_rev
              wallet2 selection1 {| Acc := [account1; account0] |}
              eq_refl (fun _ => eq_refl))
    as (s' & res & Hrun & Hres & _).
  vm_compute in Hrun. injection Hrun as <- <-.
  eexists. split; [reflexivity|]. by vm_compute.
Defined.

(** X13: the failures of [SelectFirstValidAccount].  [WalletSelector]
    returns its own error when it is not in account mode, and the
    backend's error when the accounts cannot be read, leaving the selector
    as it was.  [WalletAndAccountSelector] has by then entered account
    mode and taken over the wallet; and since a new one accepts no
    account, it finds no valid account until a validator is installed. *)
Theorem SelectFirstValidAccount_failures (b : Backend) (wallet : Wallet)
    (s : Selection) :
  (accountSelector (base s) = false ->
     SelectFirstValidAccount KWalletSelector b wallet s
       = Done (s, Some ErrNotAccountSelector)) /\
  (forall r e, accountSelector (base s) = true ->
     GetAccountsRaw b (ID wallet) = (r, Some e) ->
     SelectFirstValidAccount KWalletSelector b wallet s
       = Done (s, Some (ErrGetAccounts e))) /\
  (forall r e, GetAccountsRaw b (ID wallet) = (r, Some e) ->
     exists s',
       SelectFirstValidAccount KWalletAndAccountSelector b wallet s
         = Done (s', Some (ErrGetAccounts e)) /\
       selectedWallet (base s') = wallet /\
       accountSelector (base s') = true /\
       selectedAccount s' = selectedAccount s) /\
  (forall r WL, GetAccountsRaw b (ID wallet) = (Some r, None) ->
     exists s',
       SelectFirstValidAccount KWalletAndAccountSelector b wallet
         (NewSelector KWalletAndAccountSelector WL)
         = Done (s', Some ErrNoValidAccountFound) /\
       selectedAccount s' = None /\ accountSelector (base s') = true).
Proof.
  split; [|split; [|split]].
  - intros Hm. unfold SelectFirstValidAccount. by rewrite Hm.
  - intros r e Hm Hr. unfold SelectFirstValidAccount, selectFromBackend.
    rewrite Hm, Hr. by destruct r.
  - intros r e Hr. unfold SelectFirstValidAccount, selectFromBackend.
    rewrite Hr. eexists. split; [by destruct r|].
    by destruct (accountSelector (base s)) eqn:E.
  - intros r WL Hr. unfold SelectFirstValidAccount, selectFromBackend.
    rewrite Hr. cbn.
    assert (H : forall accs s0, ws_accountIsValid s0 = (fun _ => false) ->
                selectFirstValid_loop accs s0
                = (s0, Some ErrNoValidAccountFound)).
    { induction accs as [|a accs IH]; intros s0 Hs0; cbn; [done|].
      rewrite Hs0. by apply IH. }
    rewrite H by done. by eexists.
Qed.

Lemma SelectFirstValidAccount_failures_witness :
  SelectFirstValidAccount KWalletSelector backend0 wallet1
    (NewSelector KWalletSelector WL0)
  = Done (NewSelector KWalletSelector WL0, Some ErrNotAccountSelector) /\
  SelectFirstValidAccount KWalletSelector backend_err wallet1 selection1
  = Done (selection1, Some (ErrGetAccounts "wallet is locked")).
Proof.
  split.
  - apply (SelectFirstValidAccount_failures backend0 wallet1
             (NewSelector KWalletSelector WL0)). reflexivity.
  - apply (SelectFirstValidAccount_failures backend_err wallet1 selection1)
      with None; reflexivity.
Defined.

(** X14: [ShowAccount] on a new [WalletSelector] puts it in account mode on
    the given wallet and selects the wallet's first account; when the
    wallet has no account, or its accounts cannot be read, no account is
    selected and no error is reported, and the first pick of an account in
    the modal then dereferences the nil selected account. *)
Theorem ShowAccount_first_account (b : Backend) (WL : WalletLoad)
    (wall : Wallet) :
  let s := NewSelector KWalletSelector WL in
  (forall a rest, GetAccountsRaw b (ID wall) = (Some {| Acc := a :: rest |}, None) ->
     exists s', ShowAccount b wall s = Done s' /\
       selectedAccount s' = Some a /\
       totalBalance s' = Some (TotalBalance a) /\
       selectedWallet (base s') = wall /\
       accountSelector (base s') = true) /\
  (forall r e,
     GetAccountsRaw b (ID wall) = (r, Some e) \/
     GetAccountsRaw b (ID wall) = (Some {| Acc := [] |}, None) ->
     exists s', ShowAccount b wall s = Done s' /\
       selectedAccount s' = None /\
       selectedWallet (base s') = wall /\
       accountSelector (base s') = true /\
       forall account, onAccountSelected account s' = Panic).
Proof.
  cbv zeta. unfold ShowAccount, SelectFirstValidAccount, selectFromBackend.
  cbn. split.
  - intros a rest ->. cbn. by eexists.
  - intros r e [->| ->]; [destruct r|]; cbn; by eexists.
Qed.

Lemma ShowAccount_first_account_witness :
  (exists s', ShowAccount backend0 wallet2 (NewSelector KWalletSelector WL0)
              = Done s' /\ selectedAccount s' = Some account0) /\
  (exists s', ShowAccount backend_err wallet2
                (NewSelector KWalletSelector WL0) = Done s' /\
              selectedAccount s' = None).
Proof.
  split.
  - destruct (proj1 (ShowAccount_first_account backend0 WL0 wallet2)
                account0 [account1] eq_refl) as (s' & H1 & H2 & _).
    by exists s'.
  - destruct (proj2 (ShowAccount_first_account backend_err WL0 wallet2)
                None "wallet is locked" (or_introl eq_refl))
      as (s' & H1 & H2 & _).
    by exists s'.
Defined.

(** X15: [Changed] reports a change once and clears it.  Picking an
    account marks the selector changed only when the account's number
    differs from the selected one's; picking a wallet marks it changed
    always, also when it is the wallet already selected. *)
Theorem Changed_read_and_clear (s : Selection) (cur account : Account)
    (wallet : Wallet) :
  selectedAccount s = Some cur ->
  (Changed s).1 = changed s /\
  (Changed (Changed s).2).1 = false /\
  (exists s', onAccountSelected account (Changed s).2 = Done s' /\
     (Changed s').1 = negb (Z.eqb (Number cur) (Number account)) /\
     selectedAccount s' = Some account /\
     totalBalance s' = Some (TotalBalance account)) /\
  (Changed (onWalletSelected wallet (Changed s).2)).1 = true /\
  selectedWallet (base (onWalletSelected wallet (Changed s).2)) = wallet /\
  selectedAccount (onWalletSelected wallet (Changed s).2) = Some cur.
Proof.
  intros Hc. unfold Changed, onAccountSelected, onWalletSelected. cbn.
  rewrite Hc. split; [done|]. split; [done|]. split.
  - eexists. split; [reflexivity|].
    destruct (Z.eqb (Number cur) (Number account)); cbn;
      by destruct (accountCallback s).
  - by destruct (walletCallback s).
Qed.

Lemma Changed_read_and_clear_witness :
  (exists s', onAccountSelected account1 (Changed selection1).2 = Done s' /\
              (Changed s').1 = false) /\
  (Changed (onWalletSelected wallet1 (Changed selection1).2)).1 = true.
Proof.
  destruct (Changed_read_and_clear selection1 account1 account1 wallet1
              eq_refl) as (_ & _ & (s' & H1 & H2 & _) & H3 & _).
  split; [|exact H3]. exists s'. split; [exact H1|exact H2].
Defined.

Lemma Handle_spec clicks : forall s,
  Handle (S clicks) s =
  {| base := set_modal (base s) (Some (newSelectorModal s));
     selectedAccount := selectedAccount s;
     ws_accountIsValid := ws_accountIsValid s;
     accountCallback := accountCallback s;
     walletCallback := walletCallback s;
     totalBalance := totalBalance s; changed := changed s;
     callbackCalls := callbackCalls s;
     modalsShown := S clicks + modalsShown s |}.
Proof.
  induction clicks as [|n IH]; intros s; [done|].
  change (Handle (S (S n)) s) with
    (Handle (S n)
       {| base := set_modal (base s) (Some (newSelectorModal s));
          selectedAccount := selectedAccount s;
          ws_accountIsValid := ws_accountIsValid s;
          accountCallback := accountCallback s;
          walletCallback := walletCallback s;
          totalBalance := totalBalance s; changed := changed s;
          callbackCalls := callbackCalls s;
          modalsShown := S (modalsShown s) |}).
  rewrite IH. cbn. unfold newSelectorModal. cbn. f_equal. lia.
Qed.

(** X16: every click on the selector shows a new modal, and the selector
    keeps the last one.  Resumed in account mode, that modal lists the
    accounts of the wallet selected at the click which the selector's
    validator accepts; closing it clears the selector's reference. *)
Theorem Handle_opens_modal (clicks : nat) (s : Selection) (b : Backend)
    (WL : WalletLoad) (r : Accounts) :
  0 < clicks ->
  let s' := Handle clicks s in
  selectorModal (base s') = Some (newSelectorModal s) /\
  modalsShown s' = clicks + modalsShown s /\
  selectedAccount s' = selectedAccount s /\ changed s' = changed s /\
  selectorModal (base (onModalExit s')) = None /\
  Handle 0 s = s /\
  (IsWatchingOnlyWallet b (ID (selectedWallet (base s))) = false ->
   GetAccountsRaw b (ID (selectedWallet (base s))) = (Some r, None) ->
   exists sm,
     OnResume b WL true (newSelectorModal s) = Done (sm, []) /\
     selectorItems sm =
       map accountItem (List.filter (ws_accountIsValid s) (Acc r))).
Proof.
  intros Hc. destruct clicks as [|n]; [lia|]. cbv zeta.
  rewrite Handle_spec. cbn. repeat split.
  intros Hw Hr. unfold OnResume, setupAccounts. cbn.
  rewrite Hw, Hr. cbn. eexists. split; [reflexivity|].
  cbn. by rewrite setupAccounts_loop_spec.
Qed.

Lemma Handle_opens_modal_witness :
  modalsShown (Handle 2 selection1) = 2 /\
  exists sm,
    OnResume backend0 WL0 true (newSelectorModal selection1) = Done (sm, []) /\
    selectorItems sm = [accountItem account0].
Proof.
  destruct (Handle_opens_modal 2 selection1 backend0 WL0
              {| Acc := [account0; account1] |} ltac:(lia))
    as (_ & Hn & _ & _ & _ & _ & Hlist).
  split; [exact Hn|]. by apply Hlist.
Defined.

(** ** The listener, continued *)

Section ListenerExtra.

Variable AccoutSelectorID : string.
Variable zeroType : TxNotifType.
Variable kind : Kind.


Lemma acts_unattached (actions : list Action) : forall s x,
  goroutine s = false ->
  TxAndBlockNotificationListener (ws s) = Some x ->
  exists s',
    acts AccoutSelectorID zeroType kind actions s = Done s' /\
    goroutine s' = false /\
    TxAndBlockNotificationListener (ws s') = Some x /\
    hub s' = hub s /\ chans s' = chans s /\ log s' = log s.
Proof.
  induction actions as [|a actions IH]; intros s x Hg Hl; cbn.
  - by exists s.
  - destruct a as [done| |sel]; cbn.
    + unfold ListenForTxNotifications. rewrite Hl. by apply IH.
    + destruct (IH (cancel s) x Hg Hl) as (s' & H1 & H2 & H3 & H4 & H5 & H6).
      by exists s'.
    + unfold goroutineStep. rewrite Hg. cbn. by apply IH.
Qed.

(** X18: when the selector's ID is taken, [ListenForTxNotifications] keeps
    the listener it has just created although it was not registered, so
    every later call returns at once: whatever happens next, the selector
    has no goroutine, receives no notification, and the registration
    under its ID stays the other subscriber's. *)
Theorem failed_registration_never_retried (st : State) (l : nat)
    (done : bool) (actions : list Action) :
  wf AccoutSelectorID kind st ->
  TxAndBlockNotificationListener (ws st) = None ->
  hub st !! subscriberID AccoutSelectorID kind = Some l ->
  exists st',
    acts AccoutSelectorID zeroType kind (ActListen done :: actions) st
      = Done st' /\
    goroutine st' = false /\
    (forall sel,
       goroutineStep AccoutSelectorID zeroType kind sel st' = Blocked) /\
    TxAndBlockNotificationListener (ws st') = Some (nextListener st) /\
    hub st' = hub st /\
    log st' = log st ++
      [("Error adding tx and block notification listener: %v",
        DuplicateSubscriber)].
Proof.
  intros [Hfresh Hrun] Hl Hh.
  assert (Hg : goroutine st = false).
  { destruct (goroutine st); [|done].
    destruct (Hrun eq_refl) as (x & c & Hx & _). congruence. }
  cbn. unfold ListenForTxNotifications, AddTxAndBlockNotificationListener.
  rewrite Hl, Hh.
  match goal with
  | |- context [acts _ _ _ actions ?s] =>
      destruct (acts_unattached actions s (nextListener st) Hg eq_refl)
        as (s' & H1 & H2 & H3 & H4 & H5 & H6)
  end.
  exists s'. split; [exact H1|]. split; [exact H2|].
  split; [intros sel; unfold goroutineStep; by rewrite H2|].
  split; [exact H3|]. by split.
Qed.

End ListenerExtra.



Lemma failed_registration_never_retried_witness :
  exists st',
    acts "AccountSelector" NewTransaction KWalletSelector
      [ActListen false; ActCancel; ActGoroutine SelCtxDone; ActListen false]
      state_taken = Done st' /\
    goroutine st' = false /\
    hub st' = hub state_taken.
Proof.
  destruct (failed_registration_never_retried "AccountSelector"
              NewTransaction KWalletSelector state_taken 0 false
              [ActCancel; ActGoroutine SelCtxDone; ActListen false]
              SelectorSpec.wf_state_taken eq_refl eq_refl)
    as (st' & H1 & H2 & _ & _ & H3 & _).
  exists st'. split; [exact H1|]. split; [exact H2|exact H3].
Defined.

(** X19: what a new-transaction notification does depends on the
    selector.  With no modal open, [WalletSelector] reloads the window and
    [WalletAndAccountSelector] does nothing.  With the modal open in
    account mode both refresh its accounts, but only
    [WalletAndAccountSelector] reloads the window afterwards.  A
    block-attached notification is ignored by both while the wallet is not
    synced. *)
Theorem notification_reload_difference (st : State) (n : TxNotification) :
  (Type_ n = NewTransaction -> selectorModal (ws st) = None ->
     handleNotification KWalletSelector n st = Done (Reload st) /\
     handleNotification KWalletAndAccountSelector n st = Done st) /\
  (forall sm, Type_ n = NewTransaction ->
     selectorModal (ws st) = Some sm -> accountSelector (ws st) = false ->
     handleNotification KWalletSelector n st
       = Done (Reload (refreshWallets sm st)) /\
     handleNotification KWalletAndAccountSelector n st
       = Done (Reload (refreshWallets sm st))) /\
  (forall sm st', Type_ n = NewTransaction ->
     selectorModal (ws st) = Some sm -> accountSelector (ws st) = true ->
     refreshAccounts sm st = Done st' ->
     handleNotification KWalletSelector n st = Done st' /\
     handleNotification KWalletAndAccountSelector n st = Done (Reload st') /\
     reloads st' = reloads st) /\
  (forall kind, Type_ n = BlockAttached -> IsSynced (backend st) = false ->
     handleNotification kind n st = Done st).
Proof.
  unfold handleNotification, refresh.
  split; [|split; [|split]].
  - by intros -> ->.
  - by intros sm -> -> ->.
  - intros sm st' -> -> -> Hr. rewrite Hr. repeat split.
    unfold refreshAccounts in Hr.
    destruct (setupAccounts _ _ _) as [[sm' errs]| |]; by simplify_eq.
  - by intros kind -> ->.
Qed.

Lemma notification_reload_difference_witness :
  handleNotification KWalletSelector {| Type_ := NewTransaction |} state0
    = Done (Reload state0) /\
  handleNotification KWalletAndAccountSelector {| Type_ := NewTransaction |}
    state0 = Done state0.
Proof.
  apply (notification_reload_difference state0 {| Type_ := NewTransaction |});
    reflexivity.
Defined.

Lemma clickLoop_run n it : forall r,
  clickLoop n it r = runItems (replicate n it) r.
Proof.
  induction n as [|n IH]; intros r; cbn; [done|].
  destruct (itemClicked it r); [apply IH|done|done].
Qed.

Lemma runItems_app l1 l2 : forall r,
  runItems (l1 ++ l2) r =
  match runItems l1 r with
  | Done r' => runItems l2 r'
  | Blocked => Blocked
  | Panic => Panic
  end.
Proof.
  induction l1 as [|it l1 IH]; intros r; cbn; [done|].
  destruct (itemClicked it r); [apply IH|done|done].
Qed.

Lemma itemsLoop_run items : forall clicks r,
  itemsLoop items clicks r = runItems (handled items clicks) r.
Proof.
  induction items as [|si items IH]; intros clicks r; cbn; [done|].
  rewrite runItems_app, clickLoop_run.
  destruct (runItems _ r); [apply IH|done|done].
Qed.

Lemma callsOf_ext (s s' : Selection) (l : list Item) :
  accountCallback s = accountCallback s' ->
  walletCallback s = walletCallback s' ->
  callsOf s l = callsOf s' l.
Proof. intros Ha Hw. unfold callsOf. by rewrite Ha, Hw. Qed.

Lemma runItems_spec l : forall r cur,
  selectedAccount (sel r) = Some cur ->
  exists r',
    runItems l r = Done r' /\
    dismissals r' = dismissals r + length l /\
    infoModalOpen r' = infoModalOpen r /\
    selectedAccount (sel r') = Some (lastAccount l cur) /\
    callbackCalls (sel r') = callbackCalls (sel r) ++ callsOf (sel r) l /\
    accountCallback (sel r') = accountCallback (sel r) /\
    walletCallback (sel r') = walletCallback (sel r) /\
    (l <> [] -> selectorModal (base (sel r')) = None) /\
    (l = [] -> r' = r).
Proof.
  induction l as [|it l IH]; intros r cur Hcur.
  - exists r. cbn. rewrite app_nil_r. repeat split; try lia; done.
  - cbn [runItems]. destruct it as [w|a].
    + cbn [itemClicked].
      set (r1 := exitAndDismiss (set_sel r (onWalletSelected w (sel r)))).
      assert (H1 : selectedAccount (sel r1) = Some cur).
      { unfold r1, onWalletSelected. cbn.
        by destruct (walletCallback (sel r)). }
      destruct (IH r1 cur H1)
        as (r' & Hrun & Hd & Hi & Hs & Hc & Ha & Hw & Hm & _).
      exists r'. split; [exact Hrun|].
      assert (Hcb : accountCallback (sel r1) = accountCallback (sel r) /\
                    walletCallback (sel r1) = walletCallback (sel r) /\
                    callbackCalls (sel r1) = callbackCalls (sel r) ++
                      (if walletCallback (sel r) then [WalletCallback w]
                       else [])).
      { unfold r1, onWalletSelected. cbn.
        destruct (walletCallback (sel r)) eqn:E; cbn; rewrite ?E;
          by rewrite ?app_nil_r. }
      destruct Hcb as (Hcb1 & Hcb2 & Hcb3).
      split; [rewrite Hd; cbn; lia|]. split; [by rewrite Hi|].
      split; [exact Hs|].
      split.
      { rewrite Hc, Hcb3, (callsOf_ext (sel r1) (sel r) l Hcb1 Hcb2).
        change (callsOf (sel r) (ItemWallet w :: l)) with
          ((if walletCallback (sel r) then [WalletCallback w] else [])
             ++ callsOf (sel r) l).
        by rewrite app_assoc. }
      split; [congruence|]. split; [congruence|].
      split; [|done]. intros _.
      destruct l as [|it' l']; [|by apply Hm].
      cbn in Hrun. by simplify_eq.
    + cbn [itemClicked]. unfold onAccountSelected. rewrite Hcur.
      set (s2 := SetSelectedAccount a
                   (if negb (Number cur =? Number a)%Z
                    then set_changed (sel r) true else sel r)).
      set (r1 := exitAndDismiss
                   (set_sel r (if accountCallback s2
                               then call (AccountCallback a) s2 else s2))).
      assert (H1 : selectedAccount (sel r1) = Some a).
      { unfold r1, s2. destruct (negb _); cbn;
          by destruct (accountCallback (sel r)). }
      destruct (IH r1 a H1)
        as (r' & Hrun & Hd & Hi & Hs & Hc & Ha & Hw & Hm & _).
      exists r'. split; [exact Hrun|].
      assert (Hcb : accountCallback (sel r1) = accountCallback (sel r) /\
                    walletCallback (sel r1) = walletCallback (sel r) /\
                    callbackCalls (sel r1) = callbackCalls (sel r) ++
                      (if accountCallback (sel r) then [AccountCallback a]
                       else [])).
      { unfold r1, s2. destruct (negb _); cbn;
          destruct (accountCallback (sel r)) eqn:E; cbn; rewrite ?E;
          by rewrite ?app_nil_r. }
      destruct Hcb as (Hcb1 & Hcb2 & Hcb3).
      split; [rewrite Hd; cbn; lia|]. split; [by rewrite Hi|].
      split; [exact Hs|].
      split.
      { rewrite Hc, Hcb3, (callsOf_ext (sel r1) (sel r) l Hcb1 Hcb2).
        change (callsOf (sel r) (ItemAccount a :: l)) with
          ((if accountCallback (sel r) then [AccountCallback a] else [])
             ++ callsOf (sel r) l).
        by rewrite app_assoc. }
      split; [congruence|]. split; [congruence|].
      split; [|done]. intros _.
      destruct l as [|it' l']; [|by apply Hm].
      cbn in Hrun. by simplify_eq.
Qed.

(** X29: a frame of a modal that the selector opened, while an account is
    selected.  Before the first [Layout] the clicks on the items are left
    alone.  After it every click on an item calls the selector's callback
    for it once and dismisses the modal once, the items being taken by
    their place in the list: the account selected in the end is the
    clicked account that comes last in the list.  A click that was handled
    clears the selector's reference to the modal.  In
    [WalletAndAccountSelector]'s modal a click on the info button in the
    same frame as one on the info backdrop leaves the info open. *)
Theorem SelectorModal_Handle_clicks (kind : Kind) (sm : SelectorModal)
    (c : ModalClicks) (r : ModalRun) (cur : Account) :
  selectedAccount (sel r) = Some cur ->
  let h := handled (selectorItems sm) (itemClicks c) in
  let backdrop := if modalBackdropClicked c then 1 else 0 in
  (eventQueue c = false ->
     SelectorModal_Handle kind sm c r
       = Done (if modalBackdropClicked c then exitAndDismiss r else r)) /\
  (eventQueue c = true ->
     exists r',
       SelectorModal_Handle kind sm c r = Done r' /\
       dismissals r' = dismissals r + length h + backdrop /\
       selectedAccount (sel r') = Some (lastAccount h cur) /\
       callbackCalls (sel r') = callbackCalls (sel r) ++ callsOf (sel r) h /\
       (0 < length h + backdrop -> selectorModal (base (sel r')) = None) /\
       (length h + backdrop = 0 -> sel r' = sel r) /\
       match kind with
       | KWalletSelector => infoModalOpen r' = infoModalOpen r
       | KWalletAndAccountSelector =>
           infoModalOpen r' =
             if infoButtonClicked c
             then (if infoBackdropClicked c then true
                   else negb (infoModalOpen r))
             else (if infoBackdropClicked c then false
                   else infoModalOpen r)
       end).
Proof.
  intros Hcur h backdrop. unfold SelectorModal_Handle. split.
  - by intros ->.
  - intros ->. rewrite itemsLoop_run. fold h.
    destruct (runItems_spec h r cur Hcur)
      as (r1 & Hrun & Hd & Hi & Hs & Hc & _ & _ & Hm & Hnil).
    rewrite Hrun. unfold backdrop. clear backdrop.
    assert (Hx : forall r2,
              sel r2 = sel r1 -> dismissals r2 = dismissals r1 ->
              exists r',
                Done (if modalBackdropClicked c then exitAndDismiss r2 else r2)
                  = Done r' /\
                dismissals r' = dismissals r + length h +
                                (if modalBackdropClicked c then 1 else 0) /\
                selectedAccount (sel r') = Some (lastAccount h cur) /\
                callbackCalls (sel r')
                  = callbackCalls (sel r) ++ callsOf (sel r) h /\
                (0 < length h + (if modalBackdropClicked c then 1 else 0) ->
                   selectorModal (base (sel r')) = None) /\
                (length h + (if modalBackdropClicked c then 1 else 0) = 0 ->
                   sel r' = sel r) /\
                infoModalOpen r' = infoModalOpen r2).
    { intros r2 E1 E2. eexists. split; [reflexivity|].
      destruct (modalBackdropClicked c); cbn; rewrite ?E1, ?E2.
      - split; [lia|]. split; [done|]. split; [done|]. split; [done|].
        split; [lia|done].
      - split; [lia|]. split; [done|]. split; [done|].
        split.
        + intros Hl. apply Hm. intros E. rewrite E in Hl. cbn in Hl. lia.
        + split; [|done]. intros Hl. rewrite Hnil; [done|].
          destruct h; [done|cbn in Hl; lia]. }
    destruct kind.
    + destruct (Hx r1 eq_refl eq_refl)
        as (r' & E & H1 & H2 & H3 & H4 & H5 & H6).
      exists r'. split; [exact E|]. repeat (split; [assumption|]).
      by rewrite H6.
    + cbv zeta.
      set (r2 := if infoButtonClicked c then _ else _).
      assert (E1 : sel r2 = sel r1)
        by (unfold r2; by destruct (infoButtonClicked c),
                                   (infoBackdropClicked c)).
      assert (E2 : dismissals r2 = dismissals r1)
        by (unfold r2; by destruct (infoButtonClicked c),
                                   (infoBackdropClicked c)).
      destruct (Hx r2 E1 E2) as (r' & E & H1 & H2 & H3 & H4 & H5 & H6).
      exists r'. split; [exact E|]. repeat (split; [assumption|]).
      rewrite H6. unfold r2.
      destruct (infoButtonClicked c), (infoBackdropClicked c); cbn;
        by rewrite ?Hi.
Qed.

Lemma SelectorModal_Handle_clicks_witness :
  exists r',
    SelectorModal_Handle KWalletAndAccountSelector modal1 clicks1 run1
      = Done r' /\
    dismissals r' = 2 /\
    selectedAccount (sel r') = Some account1.
Proof.
  destruct (SelectorModal_Handle_clicks KWalletAndAccountSelector modal1
              clicks1 run1 account1 eq_refl) as [_ H].
  destruct (H eq_refl) as (r' & H1 & H2 & H3 & _).
  exists r'. split; [exact H1|]. split; [exact H2|exact H3].
Defined.

End SelectorExtra.

(* ===================================================================== *)
(** * Further properties of the staking page *)
(* ===================================================================== *)
Module StakingExtra.
Import Staking.

(** X20: the ticket buyer callback returns false on every path.  It calls
    [StartTicketBuyer] exactly when the wallet is connected; when that
    call fails the error is put on the modal and the stake switch is left
    as it is; when it succeeds the switch takes the wallet's answer, the
    window is reloaded and the modal dismissed.  The modal is dismissed on
    no other path. *)
Theorem startTicketBuyerCallback_outcomes (w : Wallet) (password : string)
    (pg : Page) :
  let r := startTicketBuyerCallback w password pg in
  r.2 = false /\
  ticketPrice r.1 = ticketPrice pg /\
  (forall e, IsConnectedToDecredNetwork w = true ->
     StartTicketBuyer w password = Some e ->
     stakeChecked r.1 = stakeChecked pg /\
     effects r.1 = effects pg ++
       [EfSetError (ErrorString e); EfSetLoading false] /\
     walletCalls r.1 = walletCalls pg ++
       [CallIsConnectedToDecredNetwork; CallStartTicketBuyer password]) /\
  (IsConnectedToDecredNetwork w = true ->
     StartTicketBuyer w password = None ->
     stakeChecked r.1 = IsAutoTicketsPurchaseActive w /\
     effects r.1 = effects pg ++ [EfReload; EfDismiss] /\
     walletCalls r.1 = walletCalls pg ++
       [CallIsConnectedToDecredNetwork; CallStartTicketBuyer password;
        CallIsAutoTicketsPurchaseActive]) /\
  (EfDismiss ∈ drop (length (effects pg)) (effects r.1) <->
     IsConnectedToDecredNetwork w = true /\
     StartTicketBuyer w password = None) /\
  (CallStartTicketBuyer password
     ∈ drop (length (walletCalls pg)) (walletCalls r.1) <->
     IsConnectedToDecredNetwork w = true).
Proof.
  unfold startTicketBuyerCallback. cbv zeta.
  destruct (IsConnectedToDecredNetwork w); cbn;
    [destruct (StartTicketBuyer w password) as [e|]; cbn|];
    rewrite <- ?app_assoc; cbn; rewrite ?drop_app_length; slvx.
Qed.

Lemma startTicketBuyerCallback_outcomes_witness :
  stakeChecked (startTicketBuyerCallback wallet_ok "hunter2" page0).1 = true /\
  effects (startTicketBuyerCallback wallet_ok "hunter2" page0).1
    = [EfReload; EfDismiss].
Proof.
  destruct (startTicketBuyerCallback_outcomes wallet_ok "hunter2" page0)
    as (_ & _ & _ & H & _).
  destruct (H eq_refl eq_refl) as (H1 & H2 & _).
  split; [exact H1|exact H2].
Defined.

(** X21: what [fetchTicketPrice] does for each answer of [TicketPrice].
    Without an error it shows the price and asks the wallet nothing else.
    With an error on a synced wallet it drops the error and shows the
    price of the result.  With an error on a wallet that is not synced it
    logs the error, shows "not available" and the not-synced modal.  It
    dereferences nil exactly when the result is nil and either there is no
    error or the wallet is synced. *)
Theorem fetchTicketPrice_outcomes (w : Wallet) (pg : Page) :
  (forall r, TicketPriceResult w = (Some r, None) ->
     exists pg', fetchTicketPrice w pg = Done pg' /\
       ticketPrice pg' = Some (AmountString (TicketPrice r)) /\
       effects pg' = effects pg /\
       walletCalls pg' = walletCalls pg ++ [CallTicketPrice]) /\
  (forall r e, TicketPriceResult w = (Some r, Some e) -> IsSynced w = true ->
     exists pg', fetchTicketPrice w pg = Done pg' /\
       ticketPrice pg' = Some (AmountString (TicketPrice r)) /\
       effects pg' = effects pg /\
       walletCalls pg' = walletCalls pg ++ [CallTicketPrice; CallIsSynced]) /\
  (forall r e, TicketPriceResult w = (r, Some e) -> IsSynced w = false ->
     exists pg', fetchTicketPrice w pg = Done pg' /\
       ticketPrice pg' = Some StrNotAvailable /\
       effects pg' = effects pg ++
         [EfLogError e; EfShowErrorModal StrWalletNotSynced] /\
       walletCalls pg' = walletCalls pg ++ [CallTicketPrice; CallIsSynced]) /\
  (fetchTicketPrice w pg = Panic <->
     (TicketPriceResult w).1 = None /\
     ((TicketPriceResult w).2 = None \/ IsSynced w = true)) /\
  (forall pg', fetchTicketPrice w pg = Done pg' ->
     stakeChecked pg' = stakeChecked pg /\ is_Some (ticketPrice pg')).
Proof.
  unfold fetchTicketPrice.
  split; [|split; [|split; [|split]]].
  - intros r ->. eexists. by split.
  - intros r e -> ->. cbn. eexists. split; [done|]. cbn.
    by rewrite <- app_assoc.
  - intros r e -> ->. cbn. eexists. split; [done|]. cbn.
    by rewrite <- app_assoc.
  - destruct (TicketPriceResult w) as [[r|] [e|]];
      destruct (IsSynced w); cbn; split; try done;
      solve [ intros [_ [|]]; done | intros [[=] _] | auto ].
  - intros pg'.
    destruct (TicketPriceResult w) as [[r|] [e|]];
      destruct (IsSynced w); cbn; intros H; simplify_eq; by split.
Qed.

Lemma fetchTicketPrice_outcomes_witness :
  exists pg', fetchTicketPrice wallet_ok page0 = Done pg' /\
    ticketPrice pg' = Some (AmountString 12345678900) /\
    walletCalls pg' = [CallTicketPrice].
Proof.
  destruct (proj1 (fetchTicketPrice_outcomes wallet_ok page0)
              {| TicketPrice := 12345678900; Height := 100 |} eq_refl)
    as (pg' & H1 & H2 & _ & H4).
  exists pg'. split; [exact H1|]. split; [exact H2|exact H4].
Defined.

(** ** A frame *)

Lemma ticketPriceCalls_app l1 l2 :
  ticketPriceCalls (l1 ++ l2) = ticketPriceCalls l1 + ticketPriceCalls l2.
Proof.
  unfold ticketPriceCalls. by rewrite List.filter_app, length_app.
Qed.

Lemma appends_trans n m p1 p2 p3 :
  appends n p1 p2 -> appends m p2 p3 -> appends (n + m) p1 p3.
Proof.
  intros (l1 & (He1 & Ht1 & Hc1) & Hn1 & Hs1 & Hw1)
         (l2 & (He2 & Ht2 & Hc2) & Hn2 & Hs2 & Hw2).
  exists (l1 ++ l2). repeat split.
  - by rewrite He2, He1, app_assoc.
  - congruence.
  - congruence.
  - rewrite ticketPriceCalls_app. lia.
  - by apply Forall_app.
  - by apply Forall_app.
Qed.

Lemma appends_refl p : appends 0 p p.
Proof.
  exists []. split; [split; [by rewrite app_nil_r|done]|].
  split; [done|]. split; constructor.
Qed.

Lemma appends_emitX p l :
  ticketPriceCalls l = 0 ->
  Forall (fun e => startEvent e = false) l ->
  Forall (fun e => switchEvent e = false) l ->
  appends 0 p (emitX l p).
Proof. intros. exists l. by repeat split. Qed.

Lemma fetchTicketPriceX_appends a p p' :
  fetchTicketPriceX a p = Done p' -> appends 1 p p'.
Proof.
  unfold fetchTicketPriceX, fetchTicketPrice.
  destruct (TicketPriceResult (wallet a)) as [[r|] [e|]];
    destruct (IsSynced (wallet a)); cbn; intros H; simplify_eq;
    eexists; (split; [by split|]); cbn; (split; [done|]);
    split; repeat constructor.
Qed.

Lemma handleTicketClick_appends inp a p p' :
  handleTicketClick inp a p = Done p' -> appends 0 p p' /\ price p' = price p.
Proof.
  unfold handleTicketClick. intros H.
  repeat case_match; simplify_eq; cbn; (split; [|done]);
    first [ apply appends_refl
          | eexists; (split; [split; [cbn; by rewrite <- ?app_assoc|done]|]);
            cbn; (split; [done|]); split; repeat constructor ].
Qed.

Lemma handlePriceAndClicks_appends inp a p p' :
  handlePriceAndClicks inp a p = Done p' ->
  appends ((if ((NextTicketPriceRemaining a).1 <=? 0)%Z then 1 else 0) +
           (if IsSynced (wallet a) then 1 else 0)) p p'.
Proof.
  unfold handlePriceAndClicks.
  destruct (NextTicketPriceRemaining a) as [secs err]. cbn.
  intros H.
  assert (H1 : exists p1,
             (if (secs <=? 0)%Z then fetchTicketPriceX a p else Done p)
             = Done p1 /\
             appends (if (secs <=? 0)%Z then 1 else 0) p p1).
  { destruct (secs <=? 0)%Z.
    - destruct (fetchTicketPriceX a p) as [p1|] eqn:E; [|done].
      exists p1. split; [done|]. by eapply fetchTicketPriceX_appends.
    - exists p. split; [done|]. apply appends_refl. }
  destruct H1 as (p1 & E1 & A1). rewrite E1 in H.
  assert (H2 : exists p2,
             (if IsSynced (wallet a) then fetchTicketPriceX a p1 else Done p1)
             = Done p2 /\
             appends (if IsSynced (wallet a) then 1 else 0) p1 p2).
  { destruct (IsSynced (wallet a)).
    - destruct (fetchTicketPriceX a p1) as [p2|] eqn:E; [|done].
      exists p2. split; [done|]. by eapply fetchTicketPriceX_appends.
    - exists p1. split; [done|]. apply appends_refl. }
  destruct H2 as (p2 & E2 & A2). rewrite E2 in H.
  destruct (handleTicketClick inp a p2) as [p3|] eqn:E3; [|done].
  apply handleTicketClick_appends in E3 as [A3 _].
  injection H as <-.
  assert (A4 : appends 0 p3
                 (if infoButtonClicked inp
                  then emitX [EvShow StatisticsModal] p3 else p3)).
  { destruct (infoButtonClicked inp); [|apply appends_refl].
    apply appends_emitX; [done|by repeat constructor..]. }
  pose proof (appends_trans _ _ _ _ _ (appends_trans _ _ _ _ _
                (appends_trans _ _ _ _ _ A1 A2) A3) A4) as A.
  by rewrite !Nat.add_0_r in A.
Qed.

Lemma frameEvents_extends p p' l : extends p p' l -> frameEvents p p' = l.
Proof.
  intros (He & _). unfold frameEvents. by rewrite He, drop_app_length.
Qed.

(** The stake switch block appends at most one event. *)
Lemma handleStakeSwitch_extends inp a p :
  exists l, extends p (handleStakeSwitch inp a p) l /\
            ticketPriceCalls l = 0 /\
            Forall (fun e => startEvent e = false) l /\
            price (handleStakeSwitch inp a p) = price p /\
            (stakeChanged inp = false -> l = []) /\
            (stakeChanged inp = true -> l = [switchDecision a p]).
Proof.
  unfold handleStakeSwitch, switchDecision, buysFromMixedAccount,
    startTicketBuyerPasswordModal, ticketBuyerSettingsModal.
  destruct (stakeChanged inp); [|exists []; repeat split;
                                  by rewrite ?app_nil_r].
  destruct (checked p) eqn:Ec;
    [destruct (TicketBuyerConfigIsSet a); cbn;
     [destruct (AccountMixerConfigSet a && negb (SpendUnmixedFunds a) &&
                (PurchaseAccount (AutoTicketsBuyerConfig a)
                   =? MixedAccountNumber a)%Z); cbn;
      [destruct (AccountNameRaw a _) as [name [err|]]|]|]|];
    eexists; (split; [by split|]); cbn;
    repeat split; try done; by repeat constructor.
Qed.

(** The events of a frame that returns: the enabling of the switch, what
    the switch block did, and the rest. *)
Lemma frame_decomposition inp a p p' :
  HandleUserInteractions inp a p = Done p' ->
  exists l1 l2,
    frameEvents p p' =
      EvSetEnabled (IsSynced (wallet a) || negb (IsWatchingOnlyWallet a))
        :: l1 ++ l2 /\
    (stakeChanged inp = false -> l1 = []) /\
    (stakeChanged inp = true -> l1 = [switchDecision a p]) /\
    ticketPriceCalls l1 = 0 /\
    Forall (fun e => startEvent e = false) l1 /\
    ticketPriceCalls l2 =
      (if warnsAndReturns inp a then 0
       else (if ((NextTicketPriceRemaining a).1 <=? 0)%Z then 1 else 0) +
            (if IsSynced (wallet a) then 1 else 0)) /\
    Forall (fun e => startEvent e = false) l2 /\
    Forall (fun e => switchEvent e = false) l2 /\
    (warnsAndReturns inp a = true ->
     l2 = [EvShow ErrorModalAutoTicketWarn] /\ price p' = price p) /\
    checked p' = checked p /\ tickets p' = tickets p.
Proof.
  unfold HandleUserInteractions, warnsAndReturns. cbv zeta.
  set (p0 := setStakingButtonsState a p).
  destruct (handleStakeSwitch_extends inp a p0)
    as (l1 & (He1 & Ht1 & Hc1) & Hn1 & Hs1 & Hp1 & Hf & Ht).
  set (p1 := handleStakeSwitch inp a p0) in *.
  assert (Hdec : forall l2 q,
            extends p1 q l2 ->
            frameEvents p q =
              EvSetEnabled (IsSynced (wallet a) || negb (IsWatchingOnlyWallet a))
                :: l1 ++ l2 /\
            checked q = checked p /\ tickets q = tickets p).
  { intros l2 q (He2 & Ht2 & Hc2). unfold frameEvents.
    rewrite He2, He1. cbn. rewrite <- !app_assoc, drop_app_length.
    split; [done|]. split; [by rewrite Hc2, Hc1|by rewrite Ht2, Ht1]. }
  intros H. exists l1.
  destruct (stakeSettingsClicked inp && negb (IsWatchingOnlyWallet a))
    eqn:Eclick; cbn.
  - destruct (IsAutoTicketsPurchaseActive (wallet a)) eqn:Eact.
    + injection H as <-. exists [EvShow ErrorModalAutoTicketWarn].
      destruct (Hdec [EvShow ErrorModalAutoTicketWarn]
                  (emitX [EvShow ErrorModalAutoTicketWarn] p1))
        as (Hfr & Hck & Htk); [by split|].
      split; [exact Hfr|]. split; [exact Hf|]. split; [exact Ht|].
      split; [exact Hn1|]. split; [exact Hs1|]. split; [done|].
      split; [by repeat constructor|]. split; [by repeat constructor|].
      split; [intros _; split; [done|exact Hp1]|]. by split.
    + apply handlePriceAndClicks_appends in H
        as (l & (He & Htk & Hck) & Hn & Hs & Hw).
      exists (EvShow TicketBuyerModal :: l).
      destruct (Hdec (EvShow TicketBuyerModal :: l) p')
        as (Hfr & Hck' & Htk').
      { split; [|by split]. rewrite He. cbn. by rewrite <- app_assoc. }
      split; [exact Hfr|]. split; [exact Hf|]. split; [exact Ht|].
      split; [exact Hn1|]. split; [exact Hs1|].
      split; [exact Hn|]. split; [by constructor|]. split; [by constructor|].
      split; [done|]. by split.
  - apply handlePriceAndClicks_appends in H
      as (l & Hext & Hn & Hs & Hw).
    exists l. destruct (Hdec l p' Hext) as (Hfr & Hck' & Htk').
    split; [exact Hfr|]. split; [exact Hf|]. split; [exact Ht|].
    split; [exact Hn1|]. split; [exact Hs1|].
    split; [exact Hn|]. split; [exact Hs|]. split; [exact Hw|].
    split; [done|]. by split.
Qed.

(** X22: a frame that returns first sets whether the switch is enabled,
    to "synced or not watching-only".  It asks for the ticket price once
    if the time to the next price has run out and once more if the wallet
    is synced, so twice when both hold, and not at all when it returned on
    the warning about the running purchase.  It never calls
    [StartTicketBuyer] and leaves the switch and the tickets as they
    are. *)
Theorem frame_ticket_price_calls (inp : Input) (a : Answers)
    (p p' : StakingPage) :
  HandleUserInteractions inp a p = Done p' ->
  head (frameEvents p p') =
    Some (EvSetEnabled (IsSynced (wallet a) || negb (IsWatchingOnlyWallet a))) /\
  ticketPriceCalls (frameEvents p p') =
    (if warnsAndReturns inp a then 0
     else (if ((NextTicketPriceRemaining a).1 <=? 0)%Z then 1 else 0) +
          (if IsSynced (wallet a) then 1 else 0)) /\
  Forall (fun e => startEvent e = false) (frameEvents p p') /\
  checked p' = checked p /\ tickets p' = tickets p.
Proof.
  intros H.
  destruct (frame_decomposition inp a p p' H)
    as (l1 & l2 & Hfr & _ & _ & Hn1 & Hs1 & Hn2 & Hs2 & _ & _ & Hc & Ht).
  rewrite Hfr. split; [done|]. split.
  - change (EvSetEnabled ?b :: l1 ++ l2) with ([EvSetEnabled b] ++ l1 ++ l2).
    rewrite !ticketPriceCalls_app, Hn1, Hn2. done.
  - split; [|by split]. constructor; [done|]. by apply Forall_app.
Qed.

Lemma frame_ticket_price_calls_witness :
  exists p', HandleUserInteractions input_none answers_mixed spage0 = Done p' /\
    ticketPriceCalls (frameEvents spage0 p') = 2.
Proof.
  eexists. split; [reflexivity|].
  refine (proj1 (proj2 (frame_ticket_price_calls input_none answers_mixed
                          spage0 _ eq_refl))).
Defined.

(** X23: the stake switch.  When it was turned off the frame stops the
    automatic purchase, and it does so in no other case.  When it was
    turned on the frame starts nothing: it asks for the passphrase if the
    ticket buyer is configured to buy from the mixed account of a wallet
    that must not spend unmixed funds, reporting a ticket error instead
    when that account's name cannot be read, and shows the ticket buyer
    settings otherwise. *)
Theorem stake_switch_decision (inp : Input) (a : Answers)
    (p p' : StakingPage) :
  HandleUserInteractions inp a p = Done p' ->
  (stakeChanged inp = true ->
     frameEvents p p' !! 1 = Some (switchDecision a p)) /\
  (stakeChanged inp = false ->
     Forall (fun e => switchEvent e = false) (frameEvents p p')) /\
  (EvStopAutoTicketsPurchase ∈ frameEvents p p' <->
     stakeChanged inp = true /\ checked p = false) /\
  ((exists name cfg, EvShow (PasswordModal name cfg) ∈ frameEvents p p') ->
     stakeChanged inp = true /\ checked p = true /\
     buysFromMixedAccount a = true).
Proof.
  intros H.
  destruct (frame_decomposition inp a p p' H)
    as (l1 & l2 & Hfr & Hf & Ht & _ & _ & _ & _ & Hw2 & _).
  rewrite Hfr.
  assert (Hnot : forall e, e ∈ l2 -> switchEvent e = true -> False).
  { intros e Hin He. rewrite Forall_forall in Hw2.
    specialize (Hw2 e Hin). congruence. }
  split; [|split; [|split]].
  - intros Hc. by rewrite (Ht Hc).
  - intros Hc. rewrite (Hf Hc). cbn. by constructor.
  - split.
    + intros Hin. apply elem_of_cons in Hin as [Hin|Hin]; [done|].
      apply elem_of_app in Hin as [Hin|Hin];
        [|by destruct (Hnot _ Hin eq_refl)].
      destruct (stakeChanged inp) eqn:Ec;
        [|rewrite (Hf eq_refl) in Hin; by apply elem_of_nil in Hin].
      split; [done|]. rewrite (Ht eq_refl) in Hin.
      apply list_elem_of_singleton in Hin. unfold switchDecision in Hin.
      destruct (checked p); [|done].
      destruct (buysFromMixedAccount a); [|done].
      by destruct (AccountNameRaw a _) as [name [err|]].
    + intros [Hc Hk]. rewrite (Ht Hc). unfold switchDecision. rewrite Hk.
      apply elem_of_cons. right. apply elem_of_cons. by left.
  - intros (name & cfg & Hin).
    apply elem_of_cons in Hin as [Hin|Hin]; [done|].
    apply elem_of_app in Hin as [Hin|Hin];
      [|by destruct (Hnot _ Hin eq_refl)].
    destruct (stakeChanged inp) eqn:Ec;
      [|rewrite (Hf eq_refl) in Hin; by apply elem_of_nil in Hin].
    split; [done|]. rewrite (Ht eq_refl) in Hin.
    apply list_elem_of_singleton in Hin. unfold switchDecision in Hin.
    destruct (checked p); [|done].
    destruct (buysFromMixedAccount a); [done|done].
Qed.

Lemma stake_switch_decision_witness :
  exists p', HandleUserInteractions input_switch answers_mixed spage0 = Done p' /\
    frameEvents spage0 p' !! 1
      = Some (EvShow (PasswordModal "mixed" (AutoTicketsBuyerConfig answers_mixed))).
Proof.
  eexists. split; [reflexivity|].
  exact (proj1 (stake_switch_decision input_switch answers_mixed spage0 _
                  eq_refl) eq_refl).
Defined.

(** X24: a click on the settings while the automatic purchase is running
    ends the frame with the warning: whatever else was clicked and
    whatever the wallet would answer, the frame returns, the ticket price
    shown stays, and after the switch block nothing but the warning is
    shown. *)
Theorem settings_click_while_buying (inp : Input) (a : Answers)
    (p : StakingPage) :
  warnsAndReturns inp a = true ->
  exists p' l1,
    HandleUserInteractions inp a p = Done p' /\
    frameEvents p p' =
      EvSetEnabled (IsSynced (wallet a) || negb (IsWatchingOnlyWallet a))
        :: l1 ++ [EvShow ErrorModalAutoTicketWarn] /\
    l1 = (if stakeChanged inp then [switchDecision a p] else []) /\
    price p' = price p /\
    ticketPriceCalls (frameEvents p p') = 0.
Proof.
  intros Hw.
  assert (Hrun : exists p', HandleUserInteractions inp a p = Done p').
  { unfold HandleUserInteractions, warnsAndReturns in *. cbv zeta.
    apply andb_true_iff in Hw as [-> ->]. by eexists. }
  destruct Hrun as [p' Hrun].
  destruct (frame_decomposition inp a p p' Hrun)
    as (l1 & l2 & Hfr & Hf & Ht & Hn1 & _ & Hn2 & _ & _ & Hl2 & _).
  destruct (Hl2 Hw) as [-> Hp].
  exists p', l1. split; [exact Hrun|]. split; [exact Hfr|].
  split; [destruct (stakeChanged inp); auto|]. split; [exact Hp|].
  rewrite Hfr.
  change (EvSetEnabled ?b :: l1 ++ ?l) with ([EvSetEnabled b] ++ l1 ++ l).
  rewrite !ticketPriceCalls_app, Hn1. done.
Qed.

Lemma settings_click_while_buying_witness :
  exists p',
    HandleUserInteractions input_settings answers_mixed spage0 = Done p' /\
    price p' = None.
Proof.
  destruct (settings_click_while_buying input_settings answers_mixed spage0
              eq_refl) as (p' & l1 & H1 & _ & _ & H2 & _).
  exists p'. split; [exact H1|exact H2].
Defined.

End StakingExtra.

(* ===================================================================== *)
(** * Properties of the list preference modal *)
(* ===================================================================== *)
Module PreferenceExtra.
Import Preference.

(** ** The order of strings *)

Lemma ascii_compare_trans_Lt a b c :
  Ascii.compare a b = Lt -> Ascii.compare b c = Lt -> Ascii.compare a c = Lt.
Proof.
  unfold Ascii.compare. rewrite !N.compare_lt_iff. lia.
Qed.

Lemma ascii_compare_refl a : Ascii.compare a a = Eq.
Proof. unfold Ascii.compare. apply N.compare_refl. Qed.

Lemma compare_trans_Lt a : forall b c,
  String.compare a b = Lt -> String.compare b c = Lt ->
  String.compare a c = Lt.
Proof.
  induction a as [|x a IH]; intros [|y b] [|z c]; cbn; try done.
  destruct (Ascii.compare x y) eqn:Exy; try done;
    destruct (Ascii.compare y z) eqn:Eyz; try done; intros H1 H2.
  - apply Ascii.compare_eq_iff in Exy, Eyz. subst.
    rewrite ascii_compare_refl. by eapply IH.
  - apply Ascii.compare_eq_iff in Exy. subst. by rewrite Eyz.
  - apply Ascii.compare_eq_iff in Eyz. subst. by rewrite Exy.
  - by rewrite (ascii_compare_trans_Lt _ _ _ Exy Eyz).
Qed.

Lemma compare_refl a : String.compare a a = Eq.
Proof.
  induction a as [|x a IH]; cbn; [done|]. by rewrite ascii_compare_refl.
Qed.

#[local] Instance str_le_total : Total str_le.
Proof. intros a b. apply String.leb_total. Qed.

#[local] Instance str_le_antisym : AntiSymm (=) str_le.
Proof. intros a b. apply String.leb_antisym. Qed.

#[local] Instance str_le_trans : Transitive str_le.
Proof.
  intros a b c. unfold str_le, String.leb.
  destruct (String.compare a b) eqn:Eab; try done;
    destruct (String.compare b c) eqn:Ebc; try done; intros _ _.
  - apply String.compare_eq_iff in Eab, Ebc. subst.
    by rewrite compare_refl.
  - apply String.compare_eq_iff in Eab. subst. by rewrite Ebc.
  - apply String.compare_eq_iff in Ebc. subst. by rewrite Eab.
  - by rewrite (compare_trans_Lt _ _ _ Eab Ebc).
Qed.

Lemma str_le_neq_lt a b : str_le a b -> a <> b -> str_lt a b.
Proof.
  unfold str_le, str_lt, String.leb, String.ltb.
  destruct (String.compare a b) eqn:E; try done.
  apply String.compare_eq_iff in E. done.
Qed.

Lemma range_loop (order : list string) :
  foldl (fun acc k => acc ++ [k]) [] order = order.
Proof.
  assert (H : forall acc, foldl (fun acc k => acc ++ [k]) acc order
                          = acc ++ order).
  { induction order as [|k order IH]; intros acc; cbn.
    - by rewrite app_nil_r.
    - rewrite IH. by rewrite <- app_assoc. }
  apply H.
Qed.

Lemma StronglySorted_lt l :
  StronglySorted str_le l -> NoDup l -> StronglySorted str_lt l.
Proof.
  induction 1 as [|a l Hs IH Hall]; intros Hnd; [constructor|].
  apply NoDup_cons in Hnd as [Hnotin Hnd].
  constructor; [by apply IH|].
  rewrite Forall_forall in *. intros x Hx.
  apply str_le_neq_lt; [by apply Hall|]. intros ->. done.
Qed.

(** X25: the keys of the modal are the keys of the map, each once, in
    ascending order, whatever the order in which the map was iterated. *)
Theorem NewListPreference_keys_sorted (preferenceKey defaultValue : string)
    (items : gmap string string) (order order' : list string) :
  order ≡ₚ (map_to_list items).*1 ->
  order' ≡ₚ (map_to_list items).*1 ->
  let lp := NewListPreference preferenceKey defaultValue items order in
  StronglySorted str_lt (itemKeys lp) /\
  NoDup (itemKeys lp) /\
  (forall k, k ∈ itemKeys lp <-> is_Some (items !! k)) /\
  length (itemKeys lp) = size items /\
  itemKeys (NewListPreference preferenceKey defaultValue items order')
    = itemKeys lp.
Proof.
  intros Hp Hp'. cbn. rewrite !range_loop. unfold sortKeys.
  assert (Hperm : merge_sort str_le order ≡ₚ (map_to_list items).*1)
    by (by rewrite merge_sort_Permutation).
  assert (Hnd : NoDup (merge_sort str_le order)).
  { rewrite Hperm. apply NoDup_fst_map_to_list. }
  split; [|split; [|split; [|split]]].
  - apply StronglySorted_lt; [apply StronglySorted_merge_sort; apply _|done].
  - done.
  - intros k. rewrite Hperm. rewrite list_elem_of_fmap. split.
    + intros [[k' v] [-> Hin]]. apply elem_of_map_to_list in Hin. by eexists.
    + intros [v Hv]. exists (k, v). split; [done|].
      by apply elem_of_map_to_list.
  - rewrite Hperm, length_fmap. by rewrite length_map_to_list.
  - apply (StronglySorted_unique str_le);
      try (apply StronglySorted_merge_sort; apply _).
    by rewrite !merge_sort_Permutation, Hp, Hp'.
Qed.

Lemma languages_keys : ["fr"; "es"; "en"] ≡ₚ (map_to_list languages).*1.
Proof.
  apply NoDup_Permutation.
  - repeat (apply NoDup_cons; split;
            [rewrite ?elem_of_cons, elem_of_nil; intros H;
             repeat destruct H as [H|H]; done|]).
    apply NoDup_nil_2.
  - apply NoDup_fst_map_to_list.
  - intros k. rewrite list_elem_of_fmap. split.
    + intros Hk. exists (k, default "" (languages !! k)).
      split; [done|]. apply elem_of_map_to_list.
      rewrite !elem_of_cons, elem_of_nil in Hk.
      destruct Hk as [->|[->|[->|[]]]]; reflexivity.
    + intros [[k' v] [-> Hin]]. apply elem_of_map_to_list in Hin.
      unfold languages in Hin. cbn.
      rewrite !elem_of_cons.
      destruct (decide (k' = "fr")) as [->|]; [by left|].
      destruct (decide (k' = "es")) as [->|]; [by right; left|].
      destruct (decide (k' = "en")) as [->|]; [by right; right; left|].
      rewrite !lookup_insert_ne in Hin by done.
      by rewrite lookup_singleton_ne in Hin.
Qed.

Lemma NewListPreference_keys_sorted_witness :
  StronglySorted str_lt (itemKeys language_modal) /\
  length (itemKeys language_modal) = size languages.
Proof.
  destruct (NewListPreference_keys_sorted "language" "en" languages
              ["fr"; "es"; "en"] ["fr"; "es"; "en"]
              languages_keys languages_keys) as (H1 & _ & _ & H2 & _).
  split; [exact H1|exact H2].
Defined.

Lemma layoutItems_spec lp :
  layoutItems lp =
  (fun k => {| radioKey := k; radioLabel := default "" (items lp !! k) |})
    <$> itemKeys lp.
Proof.
  unfold layoutItems.
  assert (H : forall l acc,
             foldl (fun acc k =>
                      acc ++ [{| radioKey := k;
                                 radioLabel := default "" (items lp !! k) |}])
                   acc l
             = acc ++ ((fun k => {| radioKey := k;
                                    radioLabel := default "" (items lp !! k) |})
                         <$> l)).
  { induction l as [|k l IH]; intros acc; cbn.
    - by rewrite app_nil_r.
    - rewrite IH. by rewrite <- app_assoc. }
  apply H.
Qed.

Lemma fmap_fixed {A} (h : A -> A) (l : list A) :
  (forall x, x ∈ l -> h x = x) -> h <$> l = l.
Proof.
  induction l as [|x l IH]; intros H; [done|]. cbn. f_equal.
  - apply H. apply list_elem_of_here.
  - apply IH. intros y Hy. apply H. by apply list_elem_of_further.
Qed.

(** X26: the modal lays out one radio button for each entry of the map
    and no other: the buttons are in ascending order of their keys, and
    the keys with the label keys of the buttons are the entries of the
    map.  Setting the title, the subtitle or the callback does not change
    them. *)
Theorem layoutItems_are_the_entries (preferenceKey defaultValue : string)
    (m : gmap string string) (order : list string) (t : string) :
  order ≡ₚ (map_to_list m).*1 ->
  let lp := NewListPreference preferenceKey defaultValue m order in
  radioKey <$> layoutItems lp = itemKeys lp /\
  length (layoutItems lp) = size m /\
  ((fun r => (radioKey r, radioLabel r)) <$> layoutItems lp)
    ≡ₚ map_to_list m /\
  (forall r, r ∈ layoutItems lp -> m !! radioKey r = Some (radioLabel r)) /\
  layoutItems (UpdateValues (Subtitle t (Title t lp))) = layoutItems lp.
Proof.
  intros Hp lp.
  assert (Hkeys : itemKeys lp ≡ₚ (map_to_list m).*1).
  { unfold lp. cbn. rewrite range_loop. unfold sortKeys.
    by rewrite merge_sort_Permutation. }
  rewrite !layoutItems_spec.
  assert (Hentry : forall kv, kv ∈ map_to_list m ->
            (kv.1, default "" (m !! kv.1)) = kv).
  { intros [k v] Hin. apply elem_of_map_to_list in Hin. cbn. by rewrite Hin. }
  split; [|split; [|split; [|split]]].
  - rewrite <- list_fmap_compose. cbn. apply list_fmap_id.
  - rewrite length_fmap, Hkeys, length_fmap. apply length_map_to_list.
  - rewrite <- list_fmap_compose, Hkeys, <- list_fmap_compose.
    apply Permutation_refl'. apply fmap_fixed.
    intros kv Hin. by apply Hentry.
  - intros r Hr. apply list_elem_of_fmap in Hr as (k & -> & Hk). cbn.
    change (items lp) with m.
    rewrite Hkeys in Hk. apply list_elem_of_fmap in Hk as ([k' v] & -> & Hin).
    apply elem_of_map_to_list in Hin. cbn. by rewrite Hin.
  - done.
Qed.

Lemma layoutItems_are_the_entries_witness :
  length (layoutItems language_modal) = size languages.
Proof.
  apply (layoutItems_are_the_entries "language" "en" languages
           ["fr"; "es"; "en"] "" languages_keys).
Defined.

Lemma saveLoop_spec clicks : forall w lp,
  updateButtonClicked lp = true ->
  saveLoop (S clicks) w lp =
  Done ({| config := <[preferenceKey lp := optionsRadioGroup_Value lp]>
                       (config w);
           effects := effects w ++
             mjoin (replicate (S clicks)
                      [EfUpdateButtonClicked; EfRefreshTheme; EfDismiss]) |},
        {| items := items lp; itemKeys := itemKeys lp;
           title := title lp; subtitle := subtitle lp;
           preferenceKey := preferenceKey lp;
           defaultValue := defaultValue lp;
           initialValue := initialValue lp;
           currentValue := optionsRadioGroup_Value lp;
           optionsRadioGroup_Value := optionsRadioGroup_Value lp;
           updateButtonClicked := updateButtonClicked lp |}).
Proof.
  induction clicks as [|n IH]; intros w lp Hcb.
  - cbn. rewrite Hcb. cbn. by rewrite ?app_nil_r.
  - change (saveLoop (S (S n)) w lp) with
      (let lp1 :=
         {| items := items lp; itemKeys := itemKeys lp;
            title := title lp; subtitle := subtitle lp;
            preferenceKey := preferenceKey lp;
            defaultValue := defaultValue lp;
            initialValue := initialValue lp;
            currentValue := optionsRadioGroup_Value lp;
            optionsRadioGroup_Value := optionsRadioGroup_Value lp;
            updateButtonClicked := updateButtonClicked lp |} in
       let w1 := SaveUserConfigValue (preferenceKey lp1)
                   (optionsRadioGroup_Value lp1) w in
       if updateButtonClicked lp1
       then saveLoop (S n)
              (emit [EfUpdateButtonClicked; EfRefreshTheme; EfDismiss] w1) lp1
       else Panic (w1, lp1)).
    cbv zeta. cbn [updateButtonClicked]. rewrite Hcb.
    rewrite IH by done. cbn. rewrite insert_insert_eq.
    by rewrite <- !app_assoc.
Qed.

(** X27: saving stores the picked value under the preference key, and the
    modal reads it back when it is resumed: it then shows the stored
    value, or the default when the stored value is empty.  Without a
    click on save the store is not written. *)
Theorem Handle_save_then_resume (saveClicks cancelClicks : nat)
    (backdropClicked : bool) (w : World) (lp : ListPreferenceModal) :
  updateButtonClicked lp = true -> 0 < saveClicks ->
  exists w' lp',
    Handle saveClicks cancelClicks backdropClicked w lp = Done (w', lp') /\
    config w' = <[preferenceKey lp := optionsRadioGroup_Value lp]> (config w) /\
    currentValue lp' = optionsRadioGroup_Value lp /\
    let shown := if String.eqb (optionsRadioGroup_Value lp) ""
                 then defaultValue lp else optionsRadioGroup_Value lp in
    initialValue (OnResume w' lp') = shown /\
    currentValue (OnResume w' lp') = shown /\
    optionsRadioGroup_Value (OnResume w' lp') = shown /\
    (forall w0 lp0 c b,
       exists w1, Handle 0 c b w0 lp0 = Done (w1, lp0) /\
                  config w1 = config w0).
Proof.
  intros Hcb Hs. destruct saveClicks as [|n]; [lia|].
  unfold Handle. rewrite saveLoop_spec by done.
  eexists _, _. split; [reflexivity|].
  split; [by destruct backdropClicked|]. split; [done|].
  cbv zeta.
  assert (Hread : forall w',
            config w' = <[preferenceKey lp := optionsRadioGroup_Value lp]>
                          (config w) ->
            ReadStringConfigValueForKey (preferenceKey lp) w'
              = optionsRadioGroup_Value lp).
  { intros w' E. unfold ReadStringConfigValueForKey.
    by rewrite E, lookup_insert_eq. }
  unfold OnResume.
  cbn [initialValue currentValue optionsRadioGroup_Value preferenceKey
       defaultValue].
  rewrite Hread by (by destruct backdropClicked).
  repeat split.
  intros w0 lp0 c b. eexists. split; [reflexivity|]. by destruct b.
Qed.

Lemma Handle_save_then_resume_witness :
  exists w' lp',
    Handle 1 0 false world_empty (pick "fr" (UpdateValues language_modal))
      = Done (w', lp') /\
    optionsRadioGroup_Value (OnResume w' lp') = "fr".
Proof.
  destruct (Handle_save_then_resume 1 0 false world_empty
              (pick "fr" (UpdateValues language_modal)) eq_refl ltac:(lia))
    as (w' & lp' & H1 & _ & _ & _ & _ & H2 & _).
  exists w', lp'. split; [exact H1|exact H2].
Defined.

(** X28: a modal on which [UpdateValues] was not called panics on the
    first click on save, when it calls the nil callback; by then the
    picked value is already stored, and the theme was not refreshed nor
    the modal dismissed.  Resumed on an empty store, a modal shows its
    default value. *)
Theorem Handle_save_without_callback (saveClicks cancelClicks : nat)
    (backdropClicked : bool) (w : World) (lp : ListPreferenceModal) :
  updateButtonClicked lp = false -> 0 < saveClicks ->
  exists w' lp',
    Handle saveClicks cancelClicks backdropClicked w lp = Panic (w', lp') /\
    config w' !! preferenceKey lp = Some (optionsRadioGroup_Value lp) /\
    effects w' = effects w /\
    (config w !! preferenceKey lp = None ->
     optionsRadioGroup_Value (OnResume w lp) = defaultValue lp).
Proof.
  intros Hcb Hs. destruct saveClicks as [|n]; [lia|].
  unfold Handle. cbn. rewrite Hcb. eexists _, _.
  split; [reflexivity|]. cbn. split; [apply lookup_insert_eq|].
  split; [done|]. intros Hnone.
  unfold ReadStringConfigValueForKey. by rewrite Hnone.
Qed.

Lemma Handle_save_without_callback_witness :
  exists w' lp',
    Handle 1 0 false world_empty (pick "fr" language_modal) = Panic (w', lp') /\
    config w' !! "language" = Some "fr".
Proof.
  destruct (Handle_save_without_callback 1 0 false world_empty
              (pick "fr" language_modal) eq_refl ltac:(lia))
    as (w' & lp' & H1 & H2 & _).
  exists w', lp'. split; [exact H1|exact H2].
Defined.

End PreferenceExtra.
